(** * Real-time messaging core of the chat backend

    A shallow embedding of the backend's socket handlers (socket.js), of the
    message and chat services (messageService.js, chatService.js), of the
    database helper (utils/db.js) and of the tables of db/init.sql, followed
    by the properties of the specification that concern them. *)

From Stdlib Require Import ZArith String Ascii List Bool Lia.
From stdpp Require Import base gmap strings list fin_maps pretty.
Import ListNotations.

Local Open Scope string_scope.
Local Open Scope Z_scope.

(* ===================================================================== *)
(** ** JavaScript values that reach the services *)
(* ===================================================================== *)

Module Js.

(** Payload fields and service arguments are JavaScript values.  The
    services only distinguish an absent field, [null] and a string.  A
    string is given by the bytes of its UTF-8 encoding, which is what the
    database driver sends. *)
Inductive jsval : Type :=
| JUndefined
| JNull
| JStr (s : string).

Definition jsval_eqb (a b : jsval) : bool :=
  match a, b with
  | JUndefined, JUndefined => true
  | JNull, JNull => true
  | JStr x, JStr y => String.eqb x y
  | _, _ => false
  end.

(** [!v] is false exactly for the truthy values; the empty string is falsy. *)
Definition truthy (v : jsval) : bool :=
  match v with
  | JStr s => negb (String.eqb s "")
  | _ => false
  end.

(** [typeof v === 'string'] *)
Definition is_string (v : jsval) : bool :=
  match v with JStr _ => true | _ => false end.

(** Default value of a destructured parameter: used only for [undefined]. *)
Definition or_default (v d : jsval) : jsval :=
  match v with JUndefined => d | _ => v end.

(** Interpolation of a value in a template literal. *)
Definition to_string (v : jsval) : string :=
  match v with
  | JUndefined => "undefined"
  | JNull => "null"
  | JStr s => s
  end.

End Js.
Export Js.

(* ===================================================================== *)
(** ** UUIDs: the [uuid] package's [validate] and PostgreSQL's uuid input *)
(* ===================================================================== *)

Module Uuid.

Definition is_digit (c : ascii) : bool :=
  let n := nat_of_ascii c in (48 <=? n)%nat && (n <=? 57)%nat.

Definition is_lower_hex (c : ascii) : bool :=
  let n := nat_of_ascii c in (97 <=? n)%nat && (n <=? 102)%nat.

Definition is_upper_hex (c : ascii) : bool :=
  let n := nat_of_ascii c in (65 <=? n)%nat && (n <=? 70)%nat.

Definition is_hex (c : ascii) : bool :=
  is_digit c || is_lower_hex c || is_upper_hex c.

Definition lower (c : ascii) : ascii :=
  let n := nat_of_ascii c in
  if (65 <=? n)%nat && (n <=? 90)%nat then ascii_of_nat (n + 32) else c.

(** Character classes of the pattern used by [validate]:
    [[0-9a-f]], [-], the version digit [[1-5]] and the variant digit
    [[89ab]], all case-insensitive. *)
Inductive cls : Type := Hex | Dash | Version | Variant.

Definition in_cls (k : cls) (c : ascii) : bool :=
  match k with
  | Hex => is_hex c
  | Dash => Ascii.eqb c "-"
  | Version => let n := nat_of_ascii c in (49 <=? n)%nat && (n <=? 53)%nat
  | Variant =>
      let c' := lower c in
      Ascii.eqb c' "8" || Ascii.eqb c' "9" || Ascii.eqb c' "a" || Ascii.eqb c' "b"
  end.

Fixpoint matches (p : list cls) (s : list ascii) : bool :=
  match p, s with
  | [], [] => true
  | k :: p', c :: s' => in_cls k c && matches p' s'
  | _, _ => false
  end.

Definition uuid_pattern : list cls :=
  repeat Hex 8 ++ [Dash] ++ repeat Hex 4 ++ [Dash] ++
  [Version] ++ repeat Hex 3 ++ [Dash] ++
  [Variant] ++ repeat Hex 3 ++ [Dash] ++ repeat Hex 12.

Definition nil_uuid : string := "00000000-0000-0000-0000-000000000000".

(** [validate(s)] of the [uuid] package (version 9): the anchored pattern
    [8-4-4-4-12] with version 1 to 5 and RFC variant, or the nil UUID. *)
Definition isValidUuid (s : string) : bool :=
  matches uuid_pattern (list_ascii_of_string s) || String.eqb s nil_uuid.

(** PostgreSQL's conversion of a text parameter to the [uuid] type:
    sixteen bytes of two hexadecimal digits, an optional hyphen after
    every second byte, optionally enclosed in braces.  The digits are
    returned in lower case. *)
Fixpoint uuid_bytes (n i : nat) (src : list ascii)
  : option (list ascii * list ascii) :=
  match n with
  | O => Some ([], src)
  | S n' =>
      match src with
      | a :: b :: rest =>
          if is_hex a && is_hex b then
            let rest' :=
              match rest with
              | c :: r =>
                  if Ascii.eqb c "-" && Nat.odd i && (i <? 15)%nat
                  then r else rest
              | [] => rest
              end in
            match uuid_bytes n' (S i) rest' with
            | Some (ds, r) => Some (lower a :: lower b :: ds, r)
            | None => None
            end
          else None
      | _ => None
      end
  end.

(** The canonical text of a uuid value: groups of 8, 4, 4, 4 and 12 digits. *)
Definition uuid_out (ds : list ascii) : string :=
  string_of_list_ascii
    (firstn 8 ds ++ ["-"%char] ++ firstn 4 (skipn 8 ds) ++ ["-"%char] ++
     firstn 4 (skipn 12 ds) ++ ["-"%char] ++ firstn 4 (skipn 16 ds) ++
     ["-"%char] ++ skipn 20 ds).

Definition pg_uuid_in (s : string) : option string :=
  let src := list_ascii_of_string s in
  let '(braces, src) :=
    match src with
    | c :: r => if Ascii.eqb c "{" then (true, r) else (false, src)
    | [] => (false, src)
    end in
  match uuid_bytes 16 0 src with
  | Some (ds, rest) =>
      let rest :=
        if braces : bool then
          match rest with
          | c :: r => if Ascii.eqb c "}" then Some r else None
          | [] => None
          end
        else Some rest in
      match rest with
      | Some [] => Some (uuid_out ds)
      | _ => None
      end
  | None => None
  end.

End Uuid.
Export Uuid.

(* ===================================================================== *)
(** ** The tables of db/init.sql and the SQL statements of the services *)
(* ===================================================================== *)

(** An exception: an [AppError] of the services, with its HTTP status, or an
    error raised by the database driver, with its SQLSTATE. *)
Inductive error : Type :=
| AppError (message : string) (statusCode : Z)
| DbError (sqlstate : string).

(** How an (asynchronous) call completes: it returns a value or throws. *)
Inductive completion (A : Type) : Type :=
| Return (a : A)
| Throw (e : error).
Arguments Return {A} a.
Arguments Throw {A} e.

Module Db.

Record user_row := {
  u_id : string;
  u_username : string
}.

Record chat_room := {
  cr_id : string;
  cr_name : option string;
  cr_type : string;
  cr_creator_id : string;
  cr_created_at : Z;
  cr_updated_at : Z
}.

Record chat_participant := {
  cp_chat_room_id : string;
  cp_user_id : string;
  cp_role : string;
  cp_joined_at : Z
}.

Record message := {
  m_id : string;
  m_chat_room_id : string;
  m_sender_id : string;
  m_content : string;
  m_content_type : string;
  m_media_url : option string;
  m_created_at : Z;
  m_updated_at : Z;
  m_is_edited : bool;
  m_is_deleted : bool
}.

Record message_reaction := {
  mr_message_id : string;
  mr_user_id : string;
  mr_reaction : string;
  mr_created_at : Z
}.

Record database := {
  users : list user_row;
  chat_rooms : list chat_room;
  chat_participants : list chat_participant;
  messages : list message;
  message_reactions : list message_reaction
}.

(** SQLSTATE codes of the failures that the statements below can raise. *)
Definition invalid_text_representation : error := DbError "22P02".
Definition string_data_right_truncation : error := DbError "22001".
Definition not_null_violation : error := DbError "23502".
Definition foreign_key_violation : error := DbError "23503".
Definition unique_violation : error := DbError "23505".
Definition character_not_in_repertoire : error := DbError "22021".
Definition in_failed_sql_transaction : error := DbError "25P02".
Definition connection_failure : error := DbError "08006".

(** A query parameter as the driver sends it: [undefined] and [null]
    become SQL NULL, a string is sent as text. *)
Definition pg_param (v : jsval) : option string :=
  match v with
  | JStr s => Some s
  | _ => None
  end.

(** The server refuses a text parameter that contains a zero byte. *)
Definition has_nul (s : string) : bool :=
  existsb (Ascii.eqb zero) (list_ascii_of_string s).

Definition nul_in (params : list jsval) : bool :=
  existsb (fun v => match v with JStr s => has_nul s | _ => false end) params.

(** A parameter compared with, or stored in, a [UUID] column. *)
Definition uuid_param (v : jsval) : completion (option string) :=
  match pg_param v with
  | None => Return None
  | Some s =>
      if has_nul s then Throw character_not_in_repertoire
      else
        match pg_uuid_in s with
        | Some u => Return (Some u)
        | None => Throw invalid_text_representation
        end
  end.

(** Strings are UTF-8 encoded; a character is a byte that is not a
    continuation byte, followed by its continuation bytes. *)
Definition is_continuation (c : ascii) : bool :=
  let n := nat_of_ascii c in (128 <=? n)%nat && (n <? 192)%nat.

Fixpoint char_length (s : string) : nat :=
  match s with
  | EmptyString => O
  | String c rest => ((if is_continuation c then 0 else 1) + char_length rest)%nat
  end.

(** The first [n] characters of a string, and what follows them. *)
Fixpoint split_chars (n : nat) (s : string) : string * string :=
  match s with
  | EmptyString => (EmptyString, EmptyString)
  | String c rest =>
      if is_continuation c then
        let '(a, b) := split_chars n rest in (String c a, b)
      else
        match n with
        | O => (EmptyString, s)
        | S n' => let '(a, b) := split_chars n' rest in (String c a, b)
        end
  end.

Fixpoint all_spaces (s : string) : bool :=
  match s with
  | EmptyString => true
  | String c rest => Ascii.eqb c " " && all_spaces rest
  end.

(** A value stored in a [VARCHAR(n)] column: characters beyond the n-th are
    dropped when they are all spaces, and are an error otherwise. *)
Definition varchar (n : nat) (s : string) : option string :=
  let '(kept, excess) := split_chars n s in
  if all_spaces excess then Some kept else None.

(** [col = $n]: never true when the parameter is NULL. *)
Definition eq_param (col : string) (p : option string) : bool :=
  match p with
  | Some v => String.eqb col v
  | None => false
  end.

Definition user_exists (db : database) (u : string) : bool :=
  existsb (fun r => String.eqb (u_id r) u) (users db).

Definition chat_room_exists (db : database) (c : string) : bool :=
  existsb (fun r => String.eqb (cr_id r) c) (chat_rooms db).

Definition message_exists (db : database) (m : string) : bool :=
  existsb (fun r => String.eqb (m_id r) m) (messages db).

Definition participant_matches (c u : option string) (r : chat_participant) : bool :=
  eq_param (cp_chat_room_id r) c && eq_param (cp_user_id r) u.

Definition reaction_matches (m u r : option string) (row : message_reaction) : bool :=
  eq_param (mr_message_id row) m && eq_param (mr_user_id row) u &&
  eq_param (mr_reaction row) r.

(** The result of a statement on a database: the rows it returns and the
    database it leaves, or an error, in which case the statement has no
    effect. *)
Definition statement (A : Type) : Type := database -> completion (A * database).

(** [SELECT 1 FROM chat_participants WHERE chat_room_id = $1 AND user_id = $2] *)
Definition select_participant (chatId userId : jsval) : statement (list chat_participant) :=
  fun db =>
    match uuid_param chatId, uuid_param userId with
    | Return c, Return u =>
        Return (filter (fun r => participant_matches c u r = true) (chat_participants db), db)
    | Throw e, _ | _, Throw e => Throw e
    end.

(** [INSERT INTO messages (chat_room_id, sender_id, content, content_type,
    media_url) VALUES ($1, $2, $3, $4, $5) RETURNING *] at time [now], the
    column default [uuid_generate_v4()] yielding [gen]. *)
Definition insert_message (now : Z) (gen : string)
    (chatId senderId content contentType mediaUrl : jsval) : statement (list message) :=
  fun db =>
    match uuid_param chatId, uuid_param senderId with
    | Return c, Return s =>
        if nul_in [content; contentType; mediaUrl] then Throw character_not_in_repertoire
        else
        match c, s, pg_param content, pg_param contentType with
        | Some c, Some s, Some txt, Some ty =>
            match varchar 20 ty with
            | None => Throw string_data_right_truncation
            | Some ty =>
                if message_exists db gen then Throw unique_violation
                else if negb (chat_room_exists db c) then Throw foreign_key_violation
                else if negb (user_exists db s) then Throw foreign_key_violation
                else
                  let row := {| m_id := gen; m_chat_room_id := c; m_sender_id := s;
                                m_content := txt; m_content_type := ty;
                                m_media_url := pg_param mediaUrl;
                                m_created_at := now; m_updated_at := now;
                                m_is_edited := false; m_is_deleted := false |} in
                  Return ([row],
                          {| users := users db; chat_rooms := chat_rooms db;
                             chat_participants := chat_participants db;
                             messages := messages db ++ [row];
                             message_reactions := message_reactions db |})
            end
        | _, _, _, _ => Throw not_null_violation
        end
    | Throw e, _ | _, Throw e => Throw e
    end.

(** [UPDATE chat_rooms SET updated_at = CURRENT_TIMESTAMP WHERE id = $1];
    the result is the number of rows updated. *)
Definition touch_chat_room (now : Z) (chatId : jsval) : statement nat :=
  fun db =>
    match uuid_param chatId with
    | Return c =>
        let hit r := eq_param (cr_id r) c in
        let upd r :=
          if hit r then
            {| cr_id := cr_id r; cr_name := cr_name r; cr_type := cr_type r;
               cr_creator_id := cr_creator_id r; cr_created_at := cr_created_at r;
               cr_updated_at := now |}
          else r in
        Return (length (filter (fun r => hit r = true) (chat_rooms db)),
                {| users := users db; chat_rooms := map upd (chat_rooms db);
                   chat_participants := chat_participants db;
                   messages := messages db;
                   message_reactions := message_reactions db |})
    | Throw e => Throw e
    end.

(** [SELECT chat_room_id FROM messages WHERE id = $1] *)
Definition select_message_chat (messageId : jsval) : statement (list string) :=
  fun db =>
    match uuid_param messageId with
    | Return m =>
        Return (map m_chat_room_id
                  (filter (fun r => eq_param (m_id r) m = true) (messages db)), db)
    | Throw e => Throw e
    end.

(** [INSERT INTO message_reactions (message_id, user_id, reaction)
    VALUES ($1, $2, $3) ON CONFLICT (message_id, user_id, reaction)
    DO NOTHING RETURNING *] *)
Definition insert_reaction (now : Z) (messageId userId reaction : jsval)
  : statement (list message_reaction) :=
  fun db =>
    match uuid_param messageId, uuid_param userId with
    | Return m, Return u =>
        if nul_in [reaction] then Throw character_not_in_repertoire
        else
        match m, u, pg_param reaction with
        | Some m, Some u, Some r =>
            match varchar 50 r with
            | None => Throw string_data_right_truncation
            | Some r =>
                if existsb (reaction_matches (Some m) (Some u) (Some r))
                     (message_reactions db)
                then Return ([], db)
                else if negb (message_exists db m) then Throw foreign_key_violation
                else if negb (user_exists db u) then Throw foreign_key_violation
                else
                  let row := {| mr_message_id := m; mr_user_id := u;
                                mr_reaction := r; mr_created_at := now |} in
                  Return ([row],
                          {| users := users db; chat_rooms := chat_rooms db;
                             chat_participants := chat_participants db;
                             messages := messages db;
                             message_reactions := message_reactions db ++ [row] |})
            end
        | _, _, _ => Throw not_null_violation
        end
    | Throw e, _ | _, Throw e => Throw e
    end.

(** [DELETE FROM message_reactions WHERE message_id = $1 AND user_id = $2
    AND reaction = $3] *)
Definition delete_reaction (messageId userId reaction : jsval) : statement nat :=
  fun db =>
    match uuid_param messageId, uuid_param userId with
    | Return m, Return u =>
        if nul_in [reaction] then Throw character_not_in_repertoire
        else
        let hit row := reaction_matches m u (pg_param reaction) row in
        Return (length (filter (fun row => hit row = true) (message_reactions db)),
                {| users := users db; chat_rooms := chat_rooms db;
                   chat_participants := chat_participants db;
                   messages := messages db;
                   message_reactions :=
                     filter (fun row => hit row = false) (message_reactions db) |})
    | Throw e, _ | _, Throw e => Throw e
    end.

(** [SELECT cr.* FROM chat_rooms cr JOIN chat_participants cp1 ON cr.id =
    cp1.chat_room_id JOIN chat_participants cp2 ON cr.id = cp2.chat_room_id
    WHERE cr.type = 'direct' AND ((cp1.user_id = $1 AND cp2.user_id = $2) OR
    (cp1.user_id = $2 AND cp2.user_id = $1)) LIMIT 1] *)
Definition select_direct_chat (userId1 userId2 : jsval) : statement (list chat_room) :=
  fun db =>
    match uuid_param userId1, uuid_param userId2 with
    | Return u1, Return u2 =>
        let of_room cr cp := String.eqb (cr_id cr) (cp_chat_room_id cp) in
        let joined cr :=
          existsb (fun cp1 =>
            of_room cr cp1 &&
            existsb (fun cp2 =>
              of_room cr cp2 &&
              ((eq_param (cp_user_id cp1) u1 && eq_param (cp_user_id cp2) u2) ||
               (eq_param (cp_user_id cp1) u2 && eq_param (cp_user_id cp2) u1)))
              (chat_participants db))
            (chat_participants db) in
        Return (firstn 1
                  (filter (fun cr => String.eqb (cr_type cr) "direct" && joined cr = true)
                     (chat_rooms db)), db)
    | Throw e, _ | _, Throw e => Throw e
    end.

(** [INSERT INTO chat_rooms (id, name, type, creator_id) VALUES ($1, $2, $3,
    $4) RETURNING *]; the direct chat's statement omits [name], which is then
    NULL. *)
Definition insert_chat_room (now : Z) (id name type creatorId : jsval)
  : statement (list chat_room) :=
  fun db =>
    match uuid_param id,
          (if nul_in [name; type] then Throw character_not_in_repertoire
           else uuid_param creatorId) with
    | Return i, Return c =>
        match i, pg_param type, c with
        | Some i, Some ty, Some c =>
            match (match pg_param name with
                   | Some n => option_map Some (varchar 100 n)
                   | None => Some None
                   end), varchar 20 ty with
            | Some name, Some ty =>
                if chat_room_exists db i then Throw unique_violation
                else if negb (user_exists db c) then Throw foreign_key_violation
                else
                  let row := {| cr_id := i; cr_name := name; cr_type := ty;
                                cr_creator_id := c; cr_created_at := now;
                                cr_updated_at := now |} in
                  Return ([row],
                          {| users := users db; chat_rooms := chat_rooms db ++ [row];
                             chat_participants := chat_participants db;
                             messages := messages db;
                             message_reactions := message_reactions db |})
            | _, _ => Throw string_data_right_truncation
            end
        | _, _, _ => Throw not_null_violation
        end
    | Throw e, _ | _, Throw e => Throw e
    end.

(** [INSERT INTO chat_participants (chat_room_id, user_id, role) VALUES ($1,
    $2, $3)] *)
Definition insert_participant (now : Z) (chatId userId role : jsval) : statement unit :=
  fun db =>
    match uuid_param chatId, uuid_param userId with
    | Return c, Return u =>
        if nul_in [role] then Throw character_not_in_repertoire
        else
        match c, u, pg_param role with
        | Some c, Some u, Some ro =>
            match varchar 20 ro with
            | None => Throw string_data_right_truncation
            | Some ro =>
                if existsb (participant_matches (Some c) (Some u)) (chat_participants db)
                then Throw unique_violation
                else if negb (chat_room_exists db c) then Throw foreign_key_violation
                else if negb (user_exists db u) then Throw foreign_key_violation
                else
                  let row := {| cp_chat_room_id := c; cp_user_id := u; cp_role := ro;
                                cp_joined_at := now |} in
                  Return (tt,
                          {| users := users db; chat_rooms := chat_rooms db;
                             chat_participants := chat_participants db ++ [row];
                             messages := messages db;
                             message_reactions := message_reactions db |})
            end
        | _, _, _ => Throw not_null_violation
        end
    | Throw e, _ | _, Throw e => Throw e
    end.

End Db.
Export Db.

(* ===================================================================== *)
(** ** The Socket.IO server: sockets, rooms and events *)
(* ===================================================================== *)

Module Io.

(** A connected socket: the authenticated user ([socket.user.id]) and the
    rooms the socket has joined. *)
Record socket := {
  sk_user : string;
  sk_rooms : gset string
}.

(** The server: the connected sockets by socket id, and the [activeUsers]
    map of [setupSocketHandlers], from user id to socket id. *)
Record server := {
  sockets : gmap string socket;
  activeUsers : gmap string string
}.

(** Events sent by the server. *)
Inductive event : Type :=
| EvUserStatus (userId status : string)
| EvMessageNew (msg : option message)
| EvError (msg : string)
| EvTypingStart (userId : string) (chatId : jsval)
| EvTypingStop (userId : string) (chatId : jsval)
| EvMessageRead (messageId : jsval) (userId : string) (chatId : jsval).

(** Where an event is sent: [io.emit], [io.to(room).emit],
    [socket.to(room).emit] and [socket.emit]. *)
Inductive target : Type :=
| ToAll
| ToRoom (room : string)
| ToRoomExcept (sid room : string)
| ToSocket (sid : string).

(** The sockets that joined [room]. *)
Definition in_room (room : string) (srv : server) : gset string :=
  dom (filter (fun p => room ∈ sk_rooms (snd p)) (sockets srv)).

(** The sockets that receive an event sent to a target: every connected
    socket, the sockets of the room, the room except the sender, the sender. *)
Definition recipients (t : target) (srv : server) : gset string :=
  match t with
  | ToAll => dom (sockets srv)
  | ToRoom room => in_room room srv
  | ToRoomExcept sid room => in_room room srv ∖ {[sid]}
  | ToSocket sid => {[sid]}
  end.

Definition chat_room_of (chatId : jsval) : string := "chat:" ++ to_string chatId.
Definition user_room_of (userId : string) : string := "user:" ++ userId.

Definition set_sockets (f : gmap string socket -> gmap string socket) (srv : server) : server :=
  {| sockets := f (sockets srv); activeUsers := activeUsers srv |}.

Definition set_activeUsers (f : gmap string string -> gmap string string) (srv : server) : server :=
  {| sockets := sockets srv; activeUsers := f (activeUsers srv) |}.

(** [socket.join(room)] and [socket.leave(room)] *)
Definition socket_join (sid room : string) : server -> server :=
  set_sockets (alter (fun sk => {| sk_user := sk_user sk; sk_rooms := {[room]} ∪ sk_rooms sk |}) sid).

Definition socket_leave (sid room : string) : server -> server :=
  set_sockets (alter (fun sk => {| sk_user := sk_user sk; sk_rooms := sk_rooms sk ∖ {[room]} |}) sid).

End Io.
Export Io.

(* ===================================================================== *)
(** ** Execution: environment, world and the monad of the handlers *)
(* ===================================================================== *)

Module Runtime.

(** What the code does not decide: whether the n-th statement sent to the
    database fails for lack of a connection, the time and the value of
    [uuid_generate_v4()] at the n-th statement, and the value of the k-th
    call of [uuidv4()]. *)
Record env := {
  fault : nat -> bool;
  clock : nat -> Z;
  pg_uuid : nat -> string;
  uuidv4 : nat -> string
}.

(** The statements of the services, as they appear in the trace. *)
Inductive sql : Type :=
| SqlSelectParticipant | SqlInsertMessage | SqlTouchChatRoom
| SqlSelectMessageChat | SqlInsertReaction | SqlDeleteReaction
| SqlSelectDirectChat | SqlInsertChatRoom | SqlInsertParticipant
| SqlConnect | SqlBegin | SqlCommit | SqlRollback.

(** An observable action: a statement completed (successfully or not), or an
    event emitted to a set of sockets. *)
Inductive action : Type :=
| ActQuery (q : sql) (ok : bool)
| ActEmit (to : target) (received_by : gset string) (ev : event).

Record world := {
  w_db : database;
  w_txn : option (database * Z);  (* the open transaction: database and time at BEGIN *)
  w_io : server;
  w_trace : list action;
  w_stmt : nat;              (* statements sent so far *)
  w_draw : nat               (* calls of uuidv4() so far *)
}.

Definition M (A : Type) : Type := env -> world -> completion A * world.

Definition ret {A} (a : A) : M A := fun _ w => (Return a, w).

Definition throw {A} (e : error) : M A := fun _ w => (Throw e, w).

Definition bind {A B} (m : M A) (k : A -> M B) : M B :=
  fun E w =>
    match m E w with
    | (Return a, w') => k a E w'
    | (Throw e, w') => (Throw e, w')
    end.

(** [try { m } catch (error) { h error }] *)
Definition try_catch {A} (m : M A) (h : error -> M A) : M A :=
  fun E w =>
    match m E w with
    | (Return a, w') => (Return a, w')
    | (Throw e, w') => h e E w'
    end.

(** [try { m } finally { f }], for a finaliser that does not throw *)
Definition try_finally {A} (m : M A) (f : M unit) : M A :=
  fun E w =>
    match m E w with
    | (r, w') => (r, snd (f E w'))
    end.

Definition log_action (a : action) (w : world) : world :=
  {| w_db := w_db w; w_txn := w_txn w; w_io := w_io w;
     w_trace := w_trace w ++ [a]; w_stmt := w_stmt w; w_draw := w_draw w |}.

Definition sent (w : world) : world :=
  {| w_db := w_db w; w_txn := w_txn w; w_io := w_io w;
     w_trace := w_trace w; w_stmt := S (w_stmt w); w_draw := w_draw w |}.

Definition with_db (db : database) (w : world) : world :=
  {| w_db := db; w_txn := w_txn w; w_io := w_io w;
     w_trace := w_trace w; w_stmt := w_stmt w; w_draw := w_draw w |}.

Definition with_txn (t : option (database * Z)) (w : world) : world :=
  {| w_db := w_db w; w_txn := t; w_io := w_io w;
     w_trace := w_trace w; w_stmt := w_stmt w; w_draw := w_draw w |}.

Definition with_io (srv : server) (w : world) : world :=
  {| w_db := w_db w; w_txn := w_txn w; w_io := srv;
     w_trace := w_trace w; w_stmt := w_stmt w; w_draw := w_draw w |}.

Definition drawn (w : world) : world :=
  {| w_db := w_db w; w_txn := w_txn w; w_io := w_io w;
     w_trace := w_trace w; w_stmt := w_stmt w; w_draw := S (w_draw w) |}.

(** CURRENT_TIMESTAMP at the n-th statement: the time of the statement, or
    the time of [BEGIN] inside a transaction. *)
Definition timestamp_at (E : env) (txn : option (database * Z)) (n : nat) : Z :=
  match txn with
  | Some (_, began) => began
  | None => clock E n
  end.

(** [query(text, params)] of utils/db.js (and [client.query] of a pooled
    client): the statement runs unless the connection fails; an error is
    logged and thrown again. *)
Definition query {A} (q : sql) (st : Z -> string -> statement A) : M A :=
  fun E w =>
    let n := w_stmt w in
    if fault E n then (Throw connection_failure, log_action (ActQuery q false) (sent w))
    else
      match st (timestamp_at E (w_txn w) n) (pg_uuid E n) (w_db w) with
      | Return (a, db') => (Return a, log_action (ActQuery q true) (with_db db' (sent w)))
      | Throw e => (Throw e, log_action (ActQuery q false) (sent w))
      end.

(** [BEGIN], [COMMIT] and [ROLLBACK] on the client of a transaction.  A
    rollback restores the database of [BEGIN]; when the statement itself
    cannot be sent the connection is lost and the server aborts the
    transaction, with the same effect on the data. *)
Definition begin_txn : M unit :=
  fun E w =>
    let n := w_stmt w in
    if fault E n then (Throw connection_failure, log_action (ActQuery SqlBegin false) (sent w))
    else (Return tt,
          log_action (ActQuery SqlBegin true) (with_txn (Some (w_db w, clock E n)) (sent w))).

Definition commit_txn : M unit :=
  fun E w =>
    let n := w_stmt w in
    if fault E n then (Throw connection_failure, log_action (ActQuery SqlCommit false) (sent w))
    else (Return tt, log_action (ActQuery SqlCommit true) (with_txn None (sent w))).

Definition rollback_txn : M unit :=
  fun E w =>
    let n := w_stmt w in
    let w' :=
      match w_txn w with
      | Some (db0, _) => with_txn None (with_db db0 (sent w))
      | None => sent w
      end in
    if fault E n then (Throw connection_failure, log_action (ActQuery SqlRollback false) w')
    else (Return tt, log_action (ActQuery SqlRollback true) w').

(** [uuidv4()] *)
Definition draw_uuidv4 : M string :=
  fun E w => (Return (uuidv4 E (w_draw w)), drawn w).

(** Emission of an event: it reaches the recipients of the target at the
    time of the emission. *)
Definition emit (to : target) (ev : event) : M unit :=
  fun _ w => (Return tt, log_action (ActEmit to (recipients to (w_io w)) ev) w).

Definition get_io : M server := fun _ w => (Return (w_io w), w).

Definition modify_io (f : server -> server) : M unit :=
  fun _ w => (Return tt, with_io (f (w_io w)) w).

End Runtime.
Export Runtime.

Declare Scope handler_scope.
Delimit Scope handler_scope with handler.
Notation "'let*' x ':=' m 'in' k" := (bind m (fun x => k))
  (at level 10, x name, m at level 100, k at level 200) : handler_scope.
Open Scope handler_scope.

(* ===================================================================== *)
(** ** utils/db.js: transactions *)
(* ===================================================================== *)

Module DbUtil.

(** [getClient()]: a client is taken from the pool, which fails when no
    connection can be made. *)
Definition getClient : M unit :=
  fun E w =>
    let n := w_stmt w in
    if fault E n then (Throw connection_failure, log_action (ActQuery SqlConnect false) (sent w))
    else (Return tt, log_action (ActQuery SqlConnect true) (sent w)).

(** [client.release()] *)
Definition release : M unit := ret tt.

(** [transaction(callback)] *)
Definition transaction {A} (callback : M A) : M A :=
  let* _ := getClient in
  try_finally
    (try_catch
       (let* _ := begin_txn in
        let* result := callback in
        let* _ := commit_txn in
        ret result)
       (fun error =>
          let* _ := rollback_txn in
          throw error))
    release.

(** [Promise.all([client.query(a), client.query(b)])] on the client of a
    transaction: the two statements are sent in this order; when the first
    fails the transaction is aborted, the second fails in turn and the
    first error is the one thrown. *)
Definition query_all2 (qa qb : sql) (a b : Z -> string -> statement unit) : M unit :=
  let* _ :=
    try_catch (query qa a)
      (fun error =>
         let* _ := try_catch (query qb (fun _ _ _ => Throw in_failed_sql_transaction))
                     (fun _ => ret tt) in
         throw error) in
  query qb b.

End DbUtil.
Export DbUtil.

(* ===================================================================== *)
(** ** services/chatService.js *)
(* ===================================================================== *)

Module ChatService.

(** [validate(id)] applied to any value. *)
Definition js_isValidUuid (id : jsval) : bool :=
  match id with
  | JStr s => isValidUuid s
  | _ => false
  end.

Definition validateUuid (id : jsval) (fieldName : string) : M unit :=
  if negb (truthy id) || negb (is_string id) then
    throw (AppError (fieldName ++ " is required and must be a string") 400)
  else if negb (js_isValidUuid id) then
    throw (AppError ("Invalid " ++ fieldName ++ " format") 400)
  else ret tt.

Definition isUserInChat (chatId userId : jsval) : M bool :=
  try_catch
    (let* result := query SqlSelectParticipant (fun _ _ => select_participant chatId userId) in
     ret (0 <? length result)%nat)
    (fun error => throw error).

Definition createDirectChat (userId1 userId2 : jsval) : M (option chat_room) :=
  let* _ := validateUuid userId1 "User ID 1" in
  let* _ := validateUuid userId2 "User ID 2" in
  if jsval_eqb userId1 userId2 then
    throw (AppError "Cannot create chat with yourself" 400)
  else
    transaction
      (try_catch
         (let* existingChat :=
            query SqlSelectDirectChat (fun _ _ => select_direct_chat userId1 userId2) in
          if (0 <? length existingChat)%nat then ret (head existingChat)
          else
            let* chatId := draw_uuidv4 in
            let* chat :=
              query SqlInsertChatRoom
                (fun now _ => insert_chat_room now (JStr chatId) JUndefined (JStr "direct") userId1) in
            let* _ :=
              query_all2 SqlInsertParticipant SqlInsertParticipant
                (fun now _ => insert_participant now (JStr chatId) userId1 (JStr "member"))
                (fun now _ => insert_participant now (JStr chatId) userId2 (JStr "member")) in
            ret (head chat))
         (fun error => throw error)).

(** [participantIds.forEach((id, index) => validateUuid(id, ...))] *)
Fixpoint validate_participants (index : nat) (ids : list jsval) : M unit :=
  match ids with
  | [] => ret tt
  | id :: rest =>
      let* _ := validateUuid id ("Participant ID " ++ pretty (index + 1)%nat) in
      validate_participants (S index) rest
  end.

(** [for (const participantId of participantIds) { ... }] *)
Fixpoint add_other_participants (chatId : string) (creatorId : jsval) (ids : list jsval) : M unit :=
  match ids with
  | [] => ret tt
  | participantId :: rest =>
      let* _ :=
        if negb (jsval_eqb participantId creatorId) then
          query SqlInsertParticipant
            (fun now _ => insert_participant now (JStr chatId) participantId (JStr "member"))
        else ret tt in
      add_other_participants chatId creatorId rest
  end.

Definition createGroupChat (name creatorId : jsval) (participantIds : list jsval)
  : M (option chat_room) :=
  let* _ := validateUuid creatorId "Creator ID" in
  let* _ := validate_participants 0 participantIds in
  if (299 <? length participantIds)%nat then
    throw (AppError "Group chat cannot have more than 300 participants" 400)
  else
    transaction
      (try_catch
         (let* chatId := draw_uuidv4 in
          let* chat :=
            query SqlInsertChatRoom
              (fun now _ => insert_chat_room now (JStr chatId) name (JStr "group") creatorId) in
          let* _ :=
            query SqlInsertParticipant
              (fun now _ => insert_participant now (JStr chatId) creatorId (JStr "creator")) in
          let* _ := add_other_participants chatId creatorId participantIds in
          ret (head chat))
         (fun error => throw error)).

End ChatService.
Export ChatService.

(* ===================================================================== *)
(** ** services/messageService.js *)
(* ===================================================================== *)

Module MessageService.

(** The module has its own copy of [validateUuid], identical to that of
    chatService.js, which is the one used here. *)

Definition saveMessage (chatId senderId content contentType mediaUrl : jsval)
  : M (option message) :=
  let contentType := or_default contentType (JStr "text") in
  let mediaUrl := or_default mediaUrl JNull in
  let* _ := validateUuid chatId "Chat ID" in
  let* _ := validateUuid senderId "Sender ID" in
  try_catch
    (let* canSend := isUserInChat chatId senderId in
     if negb canSend then throw (AppError "Not authorized to send message" 403)
     else
       let* result :=
         query SqlInsertMessage
           (fun now gen => insert_message now gen chatId senderId content contentType mediaUrl) in
       let* _ := query SqlTouchChatRoom (fun now _ => touch_chat_room now chatId) in
       ret (head result))
    (fun error => throw error).

Definition addMessageReaction (messageId userId reaction : jsval)
  : M (option message_reaction) :=
  let* _ := validateUuid messageId "Message ID" in
  let* _ := validateUuid userId "User ID" in
  try_catch
    (let* message := query SqlSelectMessageChat (fun _ _ => select_message_chat messageId) in
     match head message with
     | None => throw (AppError "Message not found" 404)
     | Some chat_room_id =>
         let* canReact := isUserInChat (JStr chat_room_id) userId in
         if negb canReact then throw (AppError "Not authorized to react to message" 403)
         else
           let* result :=
             query SqlInsertReaction
               (fun now _ => insert_reaction now messageId userId reaction) in
           ret (head result)
     end)
    (fun error => throw error).

Definition removeMessageReaction (messageId userId reaction : jsval) : M unit :=
  let* _ := validateUuid messageId "Message ID" in
  let* _ := validateUuid userId "User ID" in
  try_catch
    (let* _ := query SqlDeleteReaction (fun _ _ => delete_reaction messageId userId reaction) in
     ret tt)
    (fun error => throw error).

(** Read receipts are not implemented: only the identifiers are validated. *)
Definition markMessageAsRead (messageId userId : jsval) : M unit :=
  let* _ := validateUuid messageId "Message ID" in
  let* _ := validateUuid userId "User ID" in
  try_catch (ret tt) (fun error => throw error).

End MessageService.
Export MessageService.

(* ===================================================================== *)
(** ** socket.js: the handlers of [setupSocketHandlers] *)
(* ===================================================================== *)

Module Socket.

(** Payload of [message:new] and of [message:read]. *)
Record message_data := {
  md_chatId : jsval;
  md_content : jsval;
  md_contentType : jsval;
  md_mediaUrl : jsval
}.

Record read_data := {
  rd_messageId : jsval;
  rd_chatId : jsval
}.

(** [io.on('connection', ...)], for the socket [sid] of user [userId]. *)
Definition on_connection (sid userId : string) : M unit :=
  let* _ := modify_io (set_activeUsers (insert userId sid)) in
  let* _ := modify_io (socket_join sid (user_room_of userId)) in
  emit ToAll (EvUserStatus userId "online").

Definition on_chat_join (sid userId : string) (chatId : jsval) : M unit :=
  try_catch
    (let* canJoin := isUserInChat chatId (JStr userId) in
     if canJoin then modify_io (socket_join sid (chat_room_of chatId))
     else ret tt)
    (fun error => ret tt).

Definition on_chat_leave (sid userId : string) (chatId : jsval) : M unit :=
  modify_io (socket_leave sid (chat_room_of chatId)).

Definition on_message_new (sid userId : string) (data : message_data) : M unit :=
  try_catch
    (let chatId := md_chatId data in
     let content := md_content data in
     let contentType := or_default (md_contentType data) (JStr "text") in
     let mediaUrl := or_default (md_mediaUrl data) JNull in
     let* canSend := isUserInChat chatId (JStr userId) in
     if negb canSend then
       emit (ToSocket sid) (EvError "Not authorized to send message")
     else
       let* message := saveMessage chatId (JStr userId) content contentType mediaUrl in
       emit (ToRoom (chat_room_of chatId)) (EvMessageNew message))
    (fun error => emit (ToSocket sid) (EvError "Failed to send message")).

Definition on_typing_start (sid userId : string) (chatId : jsval) : M unit :=
  emit (ToRoomExcept sid (chat_room_of chatId)) (EvTypingStart userId chatId).

Definition on_typing_stop (sid userId : string) (chatId : jsval) : M unit :=
  emit (ToRoomExcept sid (chat_room_of chatId)) (EvTypingStop userId chatId).

Definition on_message_read (sid userId : string) (data : read_data) : M unit :=
  try_catch
    (let messageId := rd_messageId data in
     let chatId := rd_chatId data in
     let* _ := markMessageAsRead messageId (JStr userId) in
     emit (ToRoom (chat_room_of chatId)) (EvMessageRead messageId userId chatId))
    (fun error => ret tt).

Definition on_disconnect (sid userId : string) : M unit :=
  let* _ := modify_io (set_activeUsers (delete userId)) in
  emit ToAll (EvUserStatus userId "offline").

(** What reaches the server: an authenticated socket connects, a connected
    socket sends an event or closes, or time passes.  The source sets no
    timer, so the passing of time runs no code of the server. *)
Inductive input : Type :=
| InConnect (sid userId : string)
| InChatJoin (sid : string) (chatId : jsval)
| InChatLeave (sid : string) (chatId : jsval)
| InMessageNew (sid : string) (data : message_data)
| InTypingStart (sid : string) (chatId : jsval)
| InTypingStop (sid : string) (chatId : jsval)
| InMessageRead (sid : string) (data : read_data)
| InDisconnect (sid : string)
| InTick (ms : Z).

(** An event of a socket runs its handler with the socket's user; nothing
    runs for a socket that is not connected. *)
Definition with_socket (sid : string) (k : string -> M unit) : M unit :=
  let* srv := get_io in
  match sockets srv !! sid with
  | Some sk => k (sk_user sk)
  | None => ret tt
  end.

(** One input.  On connection the middleware registered with [io.use]
    refuses a socket whose user has no id; otherwise the server registers
    the socket, which is in the room of its own id, before the handler runs.
    On disconnection the socket has left its rooms and the server before the
    handler runs. *)
Definition step (i : input) : M unit :=
  match i with
  | InConnect sid userId =>
      if negb (truthy (JStr userId)) then ret tt
      else
        let* srv := get_io in
        match sockets srv !! sid with
        | Some _ => ret tt
        | None =>
            let* _ := modify_io
                        (set_sockets (insert sid {| sk_user := userId; sk_rooms := {[sid]} |})) in
            on_connection sid userId
        end
  | InChatJoin sid chatId => with_socket sid (fun userId => on_chat_join sid userId chatId)
  | InChatLeave sid chatId => with_socket sid (fun userId => on_chat_leave sid userId chatId)
  | InMessageNew sid data => with_socket sid (fun userId => on_message_new sid userId data)
  | InTypingStart sid chatId => with_socket sid (fun userId => on_typing_start sid userId chatId)
  | InTypingStop sid chatId => with_socket sid (fun userId => on_typing_stop sid userId chatId)
  | InMessageRead sid data => with_socket sid (fun userId => on_message_read sid userId data)
  | InDisconnect sid =>
      with_socket sid (fun userId =>
        let* _ := modify_io (set_sockets (delete sid)) in
        on_disconnect sid userId)
  | InTick _ => ret tt
  end.

(** The inputs are handled in turn, the handler of one input running to
    its end before the next input is taken (one server process; a handler
    that awaits the database is not overtaken by another one). *)
Fixpoint run (inputs : list input) : M unit :=
  match inputs with
  | [] => ret tt
  | i :: rest => let* _ := step i in run rest
  end.

End Socket.
Export Socket.

(* ===================================================================== *)
(** ** A concrete deployment, used to run the handlers *)
(* ===================================================================== *)

Module Scenario.

Definition alice : string := "aaaaaaaa-aaaa-4aaa-8aaa-aaaaaaaaaaaa".
Definition bob : string := "bbbbbbbb-bbbb-4bbb-8bbb-bbbbbbbbbbbb".
Definition carol : string := "cccccccc-cccc-4ccc-8ccc-cccccccccccc".
Definition team : string := "99999999-9999-4999-8999-999999999999".
Definition hello : string := "77777777-7777-4777-8777-777777777777".

(** The n-th generated identifier. *)
Definition nth_uuid (prefix : string) (n : nat) : string :=
  let digits := pretty n in
  prefix ++ string_of_list_ascii (repeat "0"%char (12 - String.length digits)) ++ digits.

(** No statement fails; the clock advances with each statement. *)
Definition calm : env :=
  {| fault := fun _ => false;
     clock := fun n => 1000 + Z.of_nat n;
     pg_uuid := nth_uuid "eeeeeeee-eeee-4eee-8eee-";
     uuidv4 := nth_uuid "dddddddd-dddd-4ddd-8ddd-" |}.

(** The connection is lost at the n-th statement only. *)
Definition failing_at (n : nat) : env :=
  {| fault := fun k => Nat.eqb k n;
     clock := clock calm; pg_uuid := pg_uuid calm; uuidv4 := uuidv4 calm |}.

(** Three users; a group [team] created by alice with bob as a member, in
    which alice has posted [hello].  Carol shares no chat with anyone. *)
Definition db0 : database :=
  {| users := [ {| u_id := alice; u_username := "alice" |};
                {| u_id := bob; u_username := "bob" |};
                {| u_id := carol; u_username := "carol" |} ];
     chat_rooms := [ {| cr_id := team; cr_name := Some "Team"; cr_type := "group";
                        cr_creator_id := alice; cr_created_at := 10; cr_updated_at := 20 |} ];
     chat_participants :=
       [ {| cp_chat_room_id := team; cp_user_id := alice; cp_role := "creator"; cp_joined_at := 10 |};
         {| cp_chat_room_id := team; cp_user_id := bob; cp_role := "member"; cp_joined_at := 11 |} ];
     messages := [ {| m_id := hello; m_chat_room_id := team; m_sender_id := alice;
                      m_content := "Hello everyone!"; m_content_type := "text";
                      m_media_url := None; m_created_at := 20; m_updated_at := 20;
                      m_is_edited := false; m_is_deleted := false |} ];
     message_reactions := [] |}.

Definition no_server : server := {| sockets := ∅; activeUsers := ∅ |}.

(** The process at start: nobody is connected. *)
Definition w0 : world :=
  {| w_db := db0; w_txn := None; w_io := no_server; w_trace := [];
     w_stmt := 0; w_draw := 0 |}.

(** The world after the inputs [ins], under [E]. *)
Definition after (E : env) (ins : list input) : world := snd (run ins E w0).

(** Carol, alice and bob are connected; alice and bob have joined [team]. *)
Definition lobby : world :=
  after calm [InConnect "s-carol" carol; InConnect "s-alice" alice; InConnect "s-bob" bob;
              InChatJoin "s-alice" (JStr team); InChatJoin "s-bob" (JStr team)].

(** Alice posts in [team], bob types, and carol asks again to join. *)
Definition chatter : list input :=
  [InMessageNew "s-alice" {| md_chatId := JStr team; md_content := JStr "hi";
                             md_contentType := JUndefined; md_mediaUrl := JUndefined |};
   InTypingStart "s-bob" (JStr team);
   InChatJoin "s-carol" (JStr team)].

End Scenario.
Import Scenario.

(* ===================================================================== *)
(** ** Vocabulary of the properties *)
(* ===================================================================== *)

Module Props.

(** The actions added to the trace from world [w] to world [w']. *)
Definition added (w w' : world) : list action :=
  drop (length (w_trace w)) (w_trace w').

(** There is a membership row for chat room [c] and user [u]. *)
Definition is_participant (db : database) (c u : string) : bool :=
  existsb (fun r => String.eqb (cp_chat_room_id r) c && String.eqb (cp_user_id r) u)
    (chat_participants db).

(** The user is a member of the conversation that [chatId] denotes. *)
Definition member (db : database) (chatId : jsval) (userId : string) : bool :=
  match uuid_param chatId, uuid_param (JStr userId) with
  | Return (Some c), Return (Some u) => is_participant db c u
  | _, _ => false
  end.

(** The rows of a reaction (message, user, symbol). *)
Definition reaction_rows (db : database) (m u r : string) : list message_reaction :=
  filter (fun row => reaction_matches (Some m) (Some u) (Some r) row = true)
    (message_reactions db).

(** The primary key of [message_reactions] holds. *)
Definition reactions_key_ok (db : database) : Prop :=
  forall m u r, (length (reaction_rows db m u r) <= 1)%nat.

(** The members of a conversation, and those with an administrative role. *)
Definition members_of (db : database) (c : string) : list chat_participant :=
  filter (fun r => String.eqb (cp_chat_room_id r) c = true) (chat_participants db).

Definition is_creator_or_admin (r : chat_participant) : bool :=
  String.eqb (cp_role r) "creator" || String.eqb (cp_role r) "admin".

(** The foreign keys of [chat_participants] hold. *)
Definition participants_fk_ok (db : database) : Prop :=
  forall r, In r (chat_participants db) ->
    chat_room_exists db (cp_chat_room_id r) = true /\
    user_exists db (cp_user_id r) = true.

(** No statement from the n-th to the (n+k-1)-th fails for lack of a
    connection. *)
Definition available (E : env) (n k : nat) : Prop :=
  forall i, (n <= i < n + k)%nat -> fault E i = false.

(** An event sent to the sockets of [room]. *)
Definition to_room (room : string) (t : target) : bool :=
  match t with
  | ToRoom r => String.eqb r room
  | ToRoomExcept _ r => String.eqb r room
  | _ => false
  end.

(** Whether a call returned, and whether an action is an emission. *)
Definition returned {A} (r : completion A) : bool :=
  match r with Return _ => true | Throw _ => false end.

Definition is_emit (a : action) : bool :=
  match a with ActEmit _ _ _ => true | ActQuery _ _ => false end.

(** The errors of a statement are errors of the database. *)
Definition db_errors {A} (st : statement A) : Prop :=
  forall db e, st db = Throw e -> exists code, e = DbError code.

(** The events that the handler of an input may emit, and where. *)
Definition emission_of (i : input) (to : target) (ev : event) : Prop :=
  match i with
  | InConnect _ u => to = ToAll /\ ev = EvUserStatus u "online"
  | InDisconnect _ => to = ToAll /\ exists u, ev = EvUserStatus u "offline"
  | InMessageNew sid data =>
      (to = ToRoom (chat_room_of (md_chatId data)) /\ exists m, ev = EvMessageNew m) \/
      (to = ToSocket sid /\ exists msg, ev = EvError msg)
  | InTypingStart sid c =>
      to = ToRoomExcept sid (chat_room_of c) /\ exists u, ev = EvTypingStart u c
  | InTypingStop sid c =>
      to = ToRoomExcept sid (chat_room_of c) /\ exists u, ev = EvTypingStop u c
  | InMessageRead sid d =>
      to = ToRoom (chat_room_of (rd_chatId d)) /\
      exists u, ev = EvMessageRead (rd_messageId d) u (rd_chatId d)
  | InChatJoin _ _ | InChatLeave _ _ | InTick _ => False
  end.

(** An action that the handler of [i] may add to the trace when it starts
    from the server [srv]: a statement, or an emission of [i] that, unless
    it is sent to everyone, reaches the recipients of its target in [srv]. *)
Definition action_of (i : input) (srv : server) (a : action) : Prop :=
  match a with
  | ActQuery _ _ => True
  | ActEmit to rc ev =>
      emission_of i to ev /\ (to <> ToAll -> rc = recipients to srv)
  end.

(** Socket [sid], if it is connected, is a socket of [userId] that has not
    joined [room]. *)
Definition outside (srv : server) (sid userId room : string) : Prop :=
  forall sk, sockets srv !! sid = Some sk -> sk_user sk = userId /\ room ∉ sk_rooms sk.

End Props.
Export Props.

(* ===================================================================== *)
(** ** The other statements of the services *)
(* ===================================================================== *)

Module Maintenance.

(** [query(text, params)] and [client.query(text, params)] for the
    statements of the functions below.  It runs a statement as [query]
    does; the trace, which follows the statements of the message path, does
    not list these. *)
Definition run_query {A} (st : Z -> string -> statement A) : M A :=
  fun E w =>
    let n := w_stmt w in
    if fault E n then (Throw connection_failure, sent w)
    else
      match st (timestamp_at E (w_txn w) n) (pg_uuid E n) (w_db w) with
      | Return (a, db') => (Return a, with_db db' (sent w))
      | Throw e => (Throw e, sent w)
      end.

(** [SELECT * FROM messages WHERE id = $1] *)
Definition select_message (messageId : jsval) : statement (list message) :=
  fun db =>
    match uuid_param messageId with
    | Return m => Return (filter (fun r => eq_param (m_id r) m = true) (messages db), db)
    | Throw e => Throw e
    end.

(** [UPDATE messages SET is_deleted = true, content = '[Message deleted]'
    WHERE id = $1]; the trigger [update_messages_updated_at] sets
    [updated_at] of the rows updated.  The result is the number of rows. *)
Definition mark_message_deleted (now : Z) (messageId : jsval) : statement nat :=
  fun db =>
    match uuid_param messageId with
    | Return m =>
        let hit r := eq_param (m_id r) m in
        let upd r :=
          if hit r then
            {| m_id := m_id r; m_chat_room_id := m_chat_room_id r;
               m_sender_id := m_sender_id r; m_content := "[Message deleted]";
               m_content_type := m_content_type r; m_media_url := m_media_url r;
               m_created_at := m_created_at r; m_updated_at := now;
               m_is_edited := m_is_edited r; m_is_deleted := true |}
          else r in
        Return (length (filter (fun r => hit r = true) (messages db)),
                {| users := users db; chat_rooms := chat_rooms db;
                   chat_participants := chat_participants db;
                   messages := map upd (messages db);
                   message_reactions := message_reactions db |})
    | Throw e => Throw e
    end.

(** An element of the [participants] array of a chat, and a row of the
    statement of [getChatById]. *)
Record participant_info := {
  pi_id : string;
  pi_username : string;
  pi_role : string
}.

Record chat_details := {
  cd_chat : chat_room;
  cd_participants : list participant_info
}.

(** The rows of [chat_rooms cr JOIN chat_participants cp ON cr.id =
    cp.chat_room_id JOIN users u ON cp.user_id = u.id] for one chat room,
    as the objects built by [json_build_object]. *)
Definition joined_participants (db : database) (cr : chat_room) : list participant_info :=
  flat_map
    (fun cp =>
       if String.eqb (cr_id cr) (cp_chat_room_id cp) then
         map (fun u => {| pi_id := u_id u; pi_username := u_username u;
                          pi_role := cp_role cp |})
           (filter (fun u => String.eqb (cp_user_id cp) (u_id u) = true) (users db))
       else [])
    (chat_participants db).

(** [SELECT cr.*, json_agg(json_build_object('id', u.id, 'username',
    u.username, 'role', cp.role)) as participants FROM chat_rooms cr JOIN
    chat_participants cp ON cr.id = cp.chat_room_id JOIN users u ON
    cp.user_id = u.id WHERE cr.id = $1 GROUP BY cr.id]: one row for a chat
    room ([id] is its primary key) that has a participant, none for a chat
    room without participants. *)
Definition select_chat_details (chatId : jsval) : statement (list chat_details) :=
  fun db =>
    match uuid_param chatId with
    | Return c =>
        Return (flat_map
                  (fun cr =>
                     if eq_param (cr_id cr) c then
                       match joined_participants db cr with
                       | [] => []
                       | ps => [{| cd_chat := cr; cd_participants := ps |}]
                       end
                     else [])
                  (chat_rooms db), db)
    | Throw e => Throw e
    end.

(** [INSERT INTO chat_participants (chat_room_id, user_id, role) VALUES ($1,
    $2, $3) RETURNING *]: the statement of [insert_participant], with the
    row inserted as its result. *)
Definition insert_participant_returning (now : Z) (chatId userId role : jsval)
  : statement (list chat_participant) :=
  fun db =>
    match insert_participant now chatId userId role db with
    | Return (_, db') =>
        Return (skipn (length (chat_participants db)) (chat_participants db'), db')
    | Throw e => Throw e
    end.

(** [DELETE FROM chat_participants WHERE chat_room_id = $1 AND user_id = $2] *)
Definition delete_participant (chatId userId : jsval) : statement nat :=
  fun db =>
    match uuid_param chatId, uuid_param userId with
    | Return c, Return u =>
        let hit r := participant_matches c u r in
        Return (length (filter (fun r => hit r = true) (chat_participants db)),
                {| users := users db; chat_rooms := chat_rooms db;
                   chat_participants :=
                     filter (fun r => hit r = false) (chat_participants db);
                   messages := messages db;
                   message_reactions := message_reactions db |})
    | Throw e, _ | _, Throw e => Throw e
    end.


End Maintenance.
Export Maintenance.

(* ===================================================================== *)
(** ** services/chatService.js: access to a chat and to its participants *)
(* ===================================================================== *)

Module ChatAdmin.

Definition getChatById (chatId : jsval) : M (option chat_details) :=
  let* _ := validateUuid chatId "Chat ID" in
  try_catch
    (let* result := run_query (fun _ _ => select_chat_details chatId) in
     ret (head result))
    (fun error => throw error).

(** The call of [getChatById] goes through the pool while the transaction
    is open on its client; nothing has been written in the transaction at
    that point. *)
Definition addChatParticipant (chatId userId role : jsval) : M (option chat_participant) :=
  let role := or_default role (JStr "member") in
  let* _ := validateUuid chatId "Chat ID" in
  let* _ := validateUuid userId "User ID" in
  transaction
    (try_catch
       (let* chat := getChatById chatId in
        match chat with
        | None => throw (AppError "Chat not found" 404)
        | Some chat =>
            if negb (String.eqb (cr_type (cd_chat chat)) "group") then
              throw (AppError "Cannot add participants to direct chat" 400)
            else if (300 <=? length (cd_participants chat))%nat then
              throw (AppError "Group chat cannot have more than 300 participants" 400)
            else
              let* result :=
                run_query (fun now _ => insert_participant_returning now chatId userId role) in
              ret (head result)
        end)
       (fun error => throw error)).

Definition removeChatParticipant (chatId userId : jsval) : M unit :=
  try_catch
    (let* chat := getChatById chatId in
     match chat with
     | None => throw (AppError "Chat not found" 404)
     | Some chat =>
         if negb (String.eqb (cr_type (cd_chat chat)) "group") then
           throw (AppError "Cannot remove participants from direct chat" 400)
         else
           let* _ := run_query (fun _ _ => delete_participant chatId userId) in
           ret tt
     end)
    (fun error => throw error).



End ChatAdmin.
Export ChatAdmin.

(* ===================================================================== *)
(** ** services/messageService.js: deletion of a message *)
(* ===================================================================== *)

Module MessageAdmin.

Definition deleteMessage (messageId userId : jsval) : M unit :=
  try_catch
    (let* message := run_query (fun _ _ => select_message messageId) in
     match head message with
     | None => throw (AppError "Message not found" 404)
     | Some row =>
         if negb (jsval_eqb (JStr (m_sender_id row)) userId) then
           throw (AppError "Not authorized to delete message" 403)
         else
           let* _ := run_query (fun now _ => mark_message_deleted now messageId) in
           ret tt
     end)
    (fun error => throw error).

End MessageAdmin.
Export MessageAdmin.

(* ===================================================================== *)
(** ** socket.js: the object returned by [setupSocketHandlers] *)
(* ===================================================================== *)

Module Presence.



End Presence.
Export Presence.

(* ===================================================================== *)
(** ** Vocabulary of the properties of these functions *)
(* ===================================================================== *)

Module Invariants.

(** A computation that leaves the transaction of the world as it is: it
    neither begins nor ends one. *)
Definition keeps_txn {A} (m : M A) : Prop :=
  forall E w r w', m E w = (r, w') -> w_txn w' = w_txn w.




(** The text of an identifier in lower case, which is how the database
    writes the UUID that a validated identifier denotes. *)
Definition lower_string (s : string) : string :=
  string_of_list_ascii (map lower (list_ascii_of_string s)).

(** The condition of the statement of [createDirectChat] that looks for
    the direct chat of two users, on a chat room [cr] and the participants
    [ps]. *)
Definition direct_between (ps : list chat_participant) (u1 u2 : option string)
    (cr : chat_room) : bool :=
  String.eqb (cr_type cr) "direct" &&
  existsb (fun cp1 =>
    String.eqb (cr_id cr) (cp_chat_room_id cp1) &&
    existsb (fun cp2 =>
      String.eqb (cr_id cr) (cp_chat_room_id cp2) &&
      ((eq_param (cp_user_id cp1) u1 && eq_param (cp_user_id cp2) u2) ||
       (eq_param (cp_user_id cp1) u2 && eq_param (cp_user_id cp2) u1)))
      ps)
    ps.

(** Every room that a socket is in is the room of its own id, the room of
    its user, or the room of a chat of which its user is a member. *)
Definition rooms_ok (db : database) (srv : server) : Prop :=
  forall sid sk room,
    sockets srv !! sid = Some sk -> room ∈ sk_rooms sk ->
    room = sid \/ room = user_room_of (sk_user sk) \/
    exists chatId, room = chat_room_of chatId /\ member db chatId (sk_user sk) = true.

(** Every connected socket is in the room of its user. *)
Definition user_rooms_ok (srv : server) : Prop :=
  forall sid sk, sockets srv !! sid = Some sk -> user_room_of (sk_user sk) ∈ sk_rooms sk.

(** The socket registered for an active user is a connected socket of that
    user. *)
Definition active_ok (srv : server) : Prop :=
  forall userId sid, activeUsers srv !! userId = Some sid ->
    exists sk, sockets srv !! sid = Some sk /\ sk_user sk = userId.

End Invariants.
Export Invariants.

(* ===================================================================== *)
(** ** More states of the deployment *)
(* ===================================================================== *)

Module Cases.

(** Alice has opened a direct chat with carol; [direct] is its id. *)
Definition with_direct : world :=
  snd (createDirectChat (JStr alice) (JStr carol) calm w0).


(** Alice and then bob have been removed from [team]. *)
Definition deserted : world :=
  snd (removeChatParticipant (JStr team) (JStr bob) calm
         (snd (removeChatParticipant (JStr team) (JStr alice) calm w0))).

End Cases.
Import Cases.

(* ===================================================================== *)
(** ** Identifiers *)
(* ===================================================================== *)

Section Identifiers.

Lemma cls_facts k c :
  in_cls k c = true ->
  match k with
  | Dash => Ascii.eqb c "-" = true
  | _ => is_hex c = true /\ Ascii.eqb c "-" = false /\ Ascii.eqb c "{" = false
  end.
Proof.
  destruct c as [b0 b1 b2 b3 b4 b5 b6 b7].
  destruct k, b0, b1, b2, b3, b4, b5, b6, b7; vm_compute; intros Hc;
    try discriminate; auto.
Qed.

Lemma matches_cons k p c s :
  matches (k :: p) (c :: s) = true -> in_cls k c = true /\ matches p s = true.
Proof. simpl. intros Hm. apply andb_prop in Hm. exact Hm. Qed.

Lemma matches_short k p : matches (k :: p) [] = true -> False.
Proof. discriminate. Qed.

(** A string of the validated shape has sixteen well-formed bytes and no
    opening brace. *)
Lemma pattern_bytes l :
  matches uuid_pattern l = true ->
  (exists ds, uuid_bytes 16 0 l = Some (ds, [])) /\
  match l with c :: _ => Ascii.eqb c "{" = false | [] => True end.
Proof.
  unfold uuid_pattern. cbn [repeat app].
  intros Hm.
  do 36 (destruct l as [|? l]; [exfalso; exact (matches_short _ _ Hm)|];
         apply matches_cons in Hm; destruct Hm as [?%cls_facts Hm]).
  destruct l; [|simpl in Hm; discriminate].
  cbn beta iota in *.
  repeat match goal with Hc : _ /\ _ |- _ => destruct Hc end.
  split; [|assumption].
  cbn [uuid_bytes].
  repeat (progress (repeat match goal with Hq : _ = _ |- _ => rewrite Hq end);
          cbn [andb Nat.odd Nat.ltb Nat.leb negb Nat.even]).
  eexists. reflexivity.
Qed.

(** What [validate] accepts, PostgreSQL reads as a uuid. *)
Lemma valid_uuid_parses s :
  isValidUuid s = true -> exists u, pg_uuid_in s = Some u.
Proof.
  unfold isValidUuid. intros Hv. apply orb_prop in Hv. destruct Hv as [Hp|Hn].
  - apply pattern_bytes in Hp. destruct Hp as [[ds Hds] Hb].
    unfold pg_uuid_in. destruct (list_ascii_of_string s) as [|c r].
    + rewrite Hds. eauto.
    + rewrite Hb, Hds. eauto.
  - apply String.eqb_eq in Hn. subst s. vm_compute. eauto.
Qed.

Lemma cls_not_nul k c : in_cls k c = true -> Ascii.eqb zero c = false.
Proof.
  destruct c as [b0 b1 b2 b3 b4 b5 b6 b7].
  destruct k, b0, b1, b2, b3, b4, b5, b6, b7; vm_compute; intros Hc;
    try discriminate; reflexivity.
Qed.

Lemma matches_no_nul p l : matches p l = true -> existsb (Ascii.eqb zero) l = false.
Proof.
  revert l. induction p as [|k p IH]; intros [|c l] Hm; try discriminate.
  - reflexivity.
  - apply matches_cons in Hm. destruct Hm as [Hc Hm].
    cbn [existsb]. rewrite (cls_not_nul _ _ Hc), (IH _ Hm). reflexivity.
Qed.

Lemma valid_uuid_no_nul s : isValidUuid s = true -> has_nul s = false.
Proof.
  unfold isValidUuid, has_nul. intros Hv. apply orb_prop in Hv. destruct Hv as [Hp|Hn].
  - eapply matches_no_nul, Hp.
  - apply String.eqb_eq in Hn. subst s. reflexivity.
Qed.

(** A validated identifier is a parameter that denotes a uuid. *)
Lemma valid_uuid_param s :
  isValidUuid s = true -> exists u, uuid_param (JStr s) = Return (Some u).
Proof.
  intros Hv. destruct (valid_uuid_parses s Hv) as [u Hu]. exists u.
  unfold uuid_param. cbn [pg_param]. rewrite (valid_uuid_no_nul s Hv), Hu. reflexivity.
Qed.

End Identifiers.

(* ===================================================================== *)
(** ** The services: how calls run *)
(* ===================================================================== *)

Section Services.

Lemma added_app w w' l : w_trace w' = (w_trace w ++ l)%list -> added w w' = l.
Proof. unfold added. intros ->. apply drop_app_length. Qed.

Lemma valid_js_uuid id :
  js_isValidUuid id = true ->
  exists s u, id = JStr s /\ isValidUuid s = true /\ uuid_param id = Return (Some u).
Proof.
  destruct id as [| |s]; simpl; try discriminate. intros Hv.
  destruct (valid_uuid_param s Hv) as [u Hu]. eauto.
Qed.

Lemma validateUuid_valid id f E w :
  js_isValidUuid id = true -> validateUuid id f E w = (Return tt, w).
Proof.
  intros Hv. unfold validateUuid. rewrite Hv.
  destruct id as [| |s]; simpl in *; try discriminate.
  destruct (String.eqb_spec s "") as [->|Hne]; [discriminate|]. reflexivity.
Qed.

Lemma validateUuid_invalid id f E w :
  js_isValidUuid id = false ->
  exists msg, validateUuid id f E w = (Throw (AppError msg 400), w).
Proof.
  intros Hv. unfold validateUuid. rewrite Hv.
  destruct (negb (truthy id) || negb (is_string id)); simpl; eauto.
Qed.

Lemma query_available {A} q (st : Z -> string -> statement A) E w :
  fault E (w_stmt w) = false ->
  query q st E w =
    match st (timestamp_at E (w_txn w) (w_stmt w)) (pg_uuid E (w_stmt w)) (w_db w) with
    | Return (a, db') => (Return a, log_action (ActQuery q true) (with_db db' (sent w)))
    | Throw e => (Throw e, log_action (ActQuery q false) (sent w))
    end.
Proof. intros Hf. unfold query. rewrite Hf. reflexivity. Qed.



Lemma isUserInChat_eq chatId userId E w :
  isUserInChat chatId userId E w =
    match query SqlSelectParticipant (fun _ _ => select_participant chatId userId) E w with
    | (Return rows, w') => (Return (0 <? length rows)%nat, w')
    | (Throw e, w') => (Throw e, w')
    end.
Proof.
  unfold isUserInChat, try_catch, bind.
  destruct (query _ _ E w) as [[rows|e] w']; reflexivity.
Qed.

(** The membership test finds exactly the membership rows. *)
Lemma select_participant_rows db c u :
  (0 <? length (filter (fun r => participant_matches (Some c) (Some u) r = true)
                  (chat_participants db)))%nat = is_participant db c u.
Proof.
  unfold is_participant, participant_matches, eq_param.
  induction (chat_participants db) as [|r l IH]; [reflexivity|].
  rewrite filter_cons. cbn [existsb].
  destruct (String.eqb (cp_chat_room_id r) c && String.eqb (cp_user_id r) u) eqn:Hr.
  - rewrite decide_True by reflexivity. reflexivity.
  - rewrite decide_False by discriminate. exact IH.
Qed.

Lemma isUserInChat_available chatId userId c u E w :
  uuid_param chatId = Return (Some c) ->
  uuid_param userId = Return (Some u) ->
  fault E (w_stmt w) = false ->
  isUserInChat chatId userId E w =
    (Return (is_participant (w_db w) c u),
     log_action (ActQuery SqlSelectParticipant true) (sent w)).
Proof.
  intros Hc Hu Hf. rewrite isUserInChat_eq, query_available by assumption.
  unfold select_participant. rewrite Hc, Hu.
  rewrite select_participant_rows. destruct w; reflexivity.
Qed.


Lemma bind_returns {A B} (m : M A) (k : A -> M B) E w b w2 :
  bind m k E w = (Return b, w2) ->
  exists a w1, m E w = (Return a, w1) /\ k a E w1 = (Return b, w2).
Proof.
  unfold bind. destruct (m E w) as [[a|e] w1]; [eauto|discriminate].
Qed.

Lemma try_rethrow {A} (m : M A) E w :
  try_catch m (fun error => throw error) E w = m E w.
Proof. unfold try_catch, throw. destruct (m E w) as [[a|e] w1]; reflexivity. Qed.

Lemma query_returns {A} q (st : Z -> string -> statement A) E w a w1 :
  query q st E w = (Return a, w1) ->
  fault E (w_stmt w) = false /\
  exists db', st (timestamp_at E (w_txn w) (w_stmt w)) (pg_uuid E (w_stmt w)) (w_db w) = Return (a, db') /\
              w1 = log_action (ActQuery q true) (with_db db' (sent w)).
Proof.
  unfold query. destruct (fault E (w_stmt w)); [discriminate|].
  destruct (st _ _ _) as [[a' db']|e]; [|discriminate].
  intros [= -> <-]. eauto.
Qed.

Lemma validateUuid_returns id f E w w1 :
  validateUuid id f E w = (Return tt, w1) -> w1 = w /\ js_isValidUuid id = true.
Proof.
  destruct (js_isValidUuid id) eqn:Hv.
  - rewrite validateUuid_valid by assumption. intros [= <-]. auto.
  - destruct (validateUuid_invalid id f E w Hv) as [msg ->]. discriminate.
Qed.

Lemma isUserInChat_returns chatId userId E w b w1 :
  isUserInChat chatId userId E w = (Return b, w1) ->
  fault E (w_stmt w) = false /\
  exists c u, uuid_param chatId = Return c /\ uuid_param userId = Return u /\
    b = (0 <? length (filter (fun r => participant_matches c u r = true)
                        (chat_participants (w_db w))))%nat /\
    w1 = log_action (ActQuery SqlSelectParticipant true) (sent w).
Proof.
  rewrite isUserInChat_eq.
  destruct (query _ _ E w) as [[rows|e] w'] eqn:Hq; [|discriminate].
  intros [= <- <-]. apply query_returns in Hq. destruct Hq as (Hf & db' & Hst & ->).
  split; [assumption|]. unfold select_participant in Hst.
  destruct (uuid_param chatId) as [c|]; [|discriminate].
  destruct (uuid_param userId) as [u|]; [|discriminate].
  injection Hst as <- <-. exists c, u. repeat split; destruct w; reflexivity.
Qed.

Lemma existsb_false_filter {A} (f : A -> bool) l :
  existsb f l = false -> filter (fun x => f x = true) l = [].
Proof.
  induction l as [|x l IH]; [reflexivity|]. cbn [existsb]. intros Hx.
  apply orb_false_elim in Hx. destruct Hx as [Hx Hl].
  rewrite filter_cons, decide_False by congruence. auto.
Qed.

Lemma existsb_true_filter {A} (f : A -> bool) l :
  existsb f l = true -> (1 <= length (filter (fun x => f x = true) l))%nat.
Proof.
  induction l as [|x l IH]; [discriminate|]. cbn [existsb]. intros Hx.
  rewrite filter_cons. destruct (f x) eqn:Hfx.
  - rewrite decide_True by reflexivity. simpl. lia.
  - rewrite decide_False by discriminate. auto.
Qed.

Lemma existsb_false_keep {A} (f : A -> bool) l :
  existsb f l = false -> filter (fun x => f x = false) l = l.
Proof.
  induction l as [|x l IH]; [reflexivity|]. cbn [existsb]. intros Hx.
  apply orb_false_elim in Hx. destruct Hx as [Hx Hl].
  rewrite filter_cons, decide_True by assumption. f_equal. auto.
Qed.

Lemma database_eta db :
  {| users := users db; chat_rooms := chat_rooms db;
     chat_participants := chat_participants db; messages := messages db;
     message_reactions := message_reactions db |} = db.
Proof. destruct db; reflexivity. Qed.

Lemma reaction_matches_self m u r now :
  reaction_matches (Some m) (Some u) (Some r)
    {| mr_message_id := m; mr_user_id := u; mr_reaction := r; mr_created_at := now |} = true.
Proof. unfold reaction_matches, eq_param. simpl. rewrite !String.eqb_refl. reflexivity. Qed.

(** What a successful insertion of a reaction has done. *)
Lemma insert_reaction_returns now mid uid reaction db rows db' :
  insert_reaction now mid uid reaction db = Return (rows, db') ->
  exists m u txt r,
    uuid_param mid = Return (Some m) /\ uuid_param uid = Return (Some u) /\
    reaction = JStr txt /\ nul_in [JStr txt] = false /\ varchar 50 txt = Some r /\
    let row := {| mr_message_id := m; mr_user_id := u; mr_reaction := r;
                  mr_created_at := now |} in
    if existsb (reaction_matches (Some m) (Some u) (Some r)) (message_reactions db)
    then rows = [] /\ db' = db
    else rows = [row] /\ message_exists db m = true /\ user_exists db u = true /\
         db' = {| users := users db; chat_rooms := chat_rooms db;
                  chat_participants := chat_participants db; messages := messages db;
                  message_reactions := (message_reactions db ++ [row])%list |}.
Proof.
  unfold insert_reaction.
  destruct (uuid_param mid) as [[m|]|]; destruct (uuid_param uid) as [[u|]|];
    try discriminate;
    destruct (nul_in [reaction]) eqn:Hnul; try discriminate.
  destruct reaction as [| |txt]; try discriminate. cbn [pg_param].
  destruct (varchar 50 txt) as [r|] eqn:Hlen; [|discriminate].
  intros Hins. exists m, u, txt, r. do 5 (split; [first [reflexivity|assumption]|]).
  cbn zeta.
  destruct (existsb _ _) eqn:Hex.
  - injection Hins as <- <-. auto.
  - destruct (message_exists db m); [|discriminate].
    destruct (user_exists db u); [|discriminate].
    injection Hins as <- <-. auto.
Qed.


Lemma available_at E n k i : available E n k -> (n <= i < n + k)%nat -> fault E i = false.
Proof. intros Ha Hi. apply Ha, Hi. Qed.

(** Adding a reaction that is already stored: nothing is written and the
    call returns [undefined]. *)
Lemma addMessageReaction_present E w messageId userId m u txt r c co uo :
  js_isValidUuid messageId = true ->
  js_isValidUuid userId = true ->
  uuid_param messageId = Return (Some m) ->
  uuid_param userId = Return (Some u) ->
  head (map m_chat_room_id
          (filter (fun row => eq_param (m_id row) (Some m) = true) (messages (w_db w)))) = Some c ->
  uuid_param (JStr c) = Return co ->
  uuid_param userId = Return uo ->
  (0 <? length (filter (fun row => participant_matches co uo row = true)
                  (chat_participants (w_db w))))%nat = true ->
  nul_in [JStr txt] = false ->
  varchar 50 txt = Some r ->
  existsb (reaction_matches (Some m) (Some u) (Some r)) (message_reactions (w_db w)) = true ->
  available E (w_stmt w) 3 ->
  exists w2,
    addMessageReaction messageId userId (JStr txt) E w = (Return None, w2) /\
    w_db w2 = w_db w.
Proof.
  intros Hvm Hvu Hpm Hpu Hhead Hco Huo Hmem Hnul Hlen Hex Hav.
  unfold addMessageReaction, bind.
  rewrite !validateUuid_valid by assumption.
  rewrite try_rethrow.
  rewrite query_available by (eapply available_at; [exact Hav|simpl; lia]).
  unfold select_message_chat. rewrite Hpm, Hhead.
  rewrite isUserInChat_eq.
  rewrite query_available by (eapply available_at; [exact Hav|simpl; lia]).
  unfold select_participant. rewrite Hco, Huo. cbn [w_db log_action with_db sent].
  rewrite Hmem. cbn [negb].
  rewrite query_available by (eapply available_at; [exact Hav|simpl; lia]).
  unfold insert_reaction. rewrite Hpm, Hpu, Hnul.
  cbn [pg_param w_db log_action with_db sent].
  rewrite Hlen, Hex. cbn [ret head].
  eexists. split; reflexivity.
Qed.

(** C8.  Adding the same reaction (message, principal, symbol) a second time
    succeeds without writing anything: the call returns [undefined], the
    database is unchanged and exactly one row is stored for the triple. *)
Theorem addMessageReaction_idempotent E w messageId userId reaction res1 w1 :
  reactions_key_ok (w_db w) ->
  addMessageReaction messageId userId reaction E w = (Return res1, w1) ->
  available E (w_stmt w1) 3 ->
  exists m u txt r w2,
    uuid_param messageId = Return (Some m) /\
    uuid_param userId = Return (Some u) /\
    reaction = JStr txt /\ varchar 50 txt = Some r /\
    addMessageReaction messageId userId reaction E w1 = (Return None, w2) /\
    w_db w2 = w_db w1 /\
    length (reaction_rows (w_db w2) m u r) = 1%nat.
Proof.
  intros Hkey H1 Hav.
  unfold addMessageReaction in H1.
  apply bind_returns in H1. destruct H1 as ([] & wa & Hv1 & H1).
  apply validateUuid_returns in Hv1. destruct Hv1 as [-> Hvm].
  apply bind_returns in H1. destruct H1 as ([] & wa & Hv2 & H1).
  apply validateUuid_returns in Hv2. destruct Hv2 as [-> Hvu].
  rewrite try_rethrow in H1.
  apply bind_returns in H1. destruct H1 as (message & wb & Hq & H1).
  apply query_returns in Hq. destruct Hq as (Hf0 & db' & Hst & ->).
  unfold select_message_chat in Hst.
  destruct (uuid_param messageId) as [mo|] eqn:Hpm; [|discriminate].
  injection Hst as <- <-.
  destruct (head _) as [c|] eqn:Hhead in H1; [|discriminate].
  apply bind_returns in H1. destruct H1 as (canReact & wc & Hin & H1).
  apply isUserInChat_returns in Hin. destruct Hin as (Hf1 & co & uo & Hco & Huo & -> & ->).
  cbn [w_db log_action with_db sent] in H1.
  destruct (0 <? length _)%nat eqn:Hmem in H1; [|discriminate].
  cbn [negb] in H1.
  apply bind_returns in H1. destruct H1 as (result & wd & Hq & H1).
  apply query_returns in Hq. destruct Hq as (Hf2 & db1 & Hst & ->).
  injection H1 as <- <-.
  apply insert_reaction_returns in Hst.
  destruct Hst as (m & u & txt & r & Hpm' & Hpu & -> & Hnul & Hlen & Hins).
  cbn [w_db log_action with_db sent] in Hins.
  rewrite Hpm in Hpm'. injection Hpm' as ->.
  exists m, u, txt, r.
  assert (Hdb1 : messages db1 = messages (w_db w) /\
                 chat_participants db1 = chat_participants (w_db w) /\
                 existsb (reaction_matches (Some m) (Some u) (Some r)) (message_reactions db1) = true /\
                 length (reaction_rows db1 m u r) = 1%nat).
  { destruct (existsb _ _) eqn:Hex in Hins.
    - destruct Hins as [-> ->]. repeat split; [assumption|].
      apply existsb_true_filter in Hex. specialize (Hkey m u r).
      unfold reaction_rows in *. lia.
    - destruct Hins as (-> & _ & _ & ->). cbn [messages chat_participants message_reactions].
      repeat split.
      + rewrite existsb_app. cbn [existsb]. rewrite reaction_matches_self.
        rewrite orb_true_r. reflexivity.
      + unfold reaction_rows. cbn [message_reactions]. rewrite filter_app.
        rewrite (existsb_false_filter _ _ Hex).
        rewrite filter_cons, decide_True by apply reaction_matches_self.
        reflexivity. }
  destruct Hdb1 as (Hmsgs & Hparts & Hex1 & Hone).
  destruct (addMessageReaction_present E
              (log_action (ActQuery SqlInsertReaction true)
                 (with_db db1
                    (sent (log_action (ActQuery SqlSelectParticipant true)
                             (sent (log_action (ActQuery SqlSelectMessageChat true)
                                      (with_db (w_db w) (sent w))))))))
              messageId userId m u txt r c co uo) as (w2 & Hrun & Hsame);
    try assumption.
  - cbn [w_db log_action with_db sent]. rewrite Hmsgs. exact Hhead.
  - cbn [w_db log_action with_db sent]. rewrite Hparts. exact Hmem.
  - exists w2. repeat split; try assumption.
    rewrite Hsame. exact Hone.
Qed.



(** C10.  [removeMessageReaction] checks neither membership nor existence:
    for all valid message and user UUIDs, every reaction the database can
    receive as a parameter (no zero byte) and every database (whether or not
    the user is a member of the message's conversation, whether or not the
    message or the reaction row exists), when the database can be reached
    the call returns after the single DELETE statement, which removes the
    matching rows and changes nothing when there is none.
    [addMessageReaction] in contrast fails with 404 when the message does
    not exist and with 403 when the user is not a member of its
    conversation. *)
Theorem removeMessageReaction_unchecked E w mid uid reaction :
  isValidUuid mid = true ->
  isValidUuid uid = true ->
  nul_in [reaction] = false ->
  fault E (w_stmt w) = false ->
  exists m u w',
    uuid_param (JStr mid) = Return (Some m) /\ uuid_param (JStr uid) = Return (Some u) /\
    removeMessageReaction (JStr mid) (JStr uid) reaction E w = (Return tt, w') /\
    added w w' = [ActQuery SqlDeleteReaction true] /\
    w_db w' =
      {| users := users (w_db w); chat_rooms := chat_rooms (w_db w);
         chat_participants := chat_participants (w_db w);
         messages := messages (w_db w);
         message_reactions :=
           filter (fun row => reaction_matches (Some m) (Some u) (pg_param reaction) row = false)
             (message_reactions (w_db w)) |} /\
    (existsb (reaction_matches (Some m) (Some u) (pg_param reaction))
       (message_reactions (w_db w)) = false -> w_db w' = w_db w) /\
    (message_exists (w_db w) m = false ->
     exists w'', addMessageReaction (JStr mid) (JStr uid) reaction E w =
                   (Throw (AppError "Message not found" 404), w'')) /\
    (forall c c',
       head (map m_chat_room_id
               (filter (fun row => eq_param (m_id row) (Some m) = true)
                  (messages (w_db w)))) = Some c ->
       uuid_param (JStr c) = Return (Some c') ->
       is_participant (w_db w) c' u = false ->
       fault E (S (w_stmt w)) = false ->
       exists w'', addMessageReaction (JStr mid) (JStr uid) reaction E w =
                     (Throw (AppError "Not authorized to react to message" 403), w'')).
Proof.
  intros Hm Hu Hnul Hf.
  destruct (valid_uuid_param _ Hm) as [m Hpm].
  destruct (valid_uuid_param _ Hu) as [u Hpu].
  exists m, u. eexists. split; [exact Hpm|]. split; [exact Hpu|].
  unfold removeMessageReaction, bind.
  rewrite !validateUuid_valid by assumption.
  rewrite try_rethrow. rewrite query_available by assumption.
  unfold delete_reaction. rewrite Hpm, Hpu, Hnul.
  cbn [ret]. split; [reflexivity|].
  split; [apply added_app; reflexivity|].
  cbn [w_db log_action with_db sent].
  split; [reflexivity|]. split.
  { intros Hnone. rewrite (existsb_false_keep _ _ Hnone). apply database_eta. }
  split.
  - intros Hmsg. unfold addMessageReaction, bind.
    rewrite !validateUuid_valid by assumption.
    rewrite try_rethrow. rewrite query_available by assumption.
    unfold select_message_chat. rewrite Hpm.
    assert (Hnil : filter (fun row => eq_param (m_id row) (Some m) = true)
                     (messages (w_db w)) = []).
    { apply existsb_false_filter. exact Hmsg. }
    rewrite Hnil. cbn [map head]. unfold throw. eauto.
  - intros c c' Hhead Hpc Hnot Hf1. unfold addMessageReaction, bind.
    rewrite !validateUuid_valid by assumption.
    rewrite try_rethrow. rewrite query_available by assumption.
    unfold select_message_chat. rewrite Hpm, Hhead.
    rewrite (isUserInChat_available _ _ c' u) by assumption.
    cbn [w_db log_action with_db sent]. rewrite Hnot. cbn [negb]. unfold throw. eauto.
Qed.


Lemma is_participant_In db c u :
  is_participant db c u = true ->
  exists r, In r (chat_participants db) /\ cp_chat_room_id r = c /\ cp_user_id r = u.
Proof.
  unfold is_participant. intros Hp. apply existsb_exists in Hp.
  destruct Hp as (r & Hin & Hr). apply andb_prop in Hr. destruct Hr as [Hc Hu].
  apply String.eqb_eq in Hc, Hu. eauto.
Qed.

Lemma pg_param_or_null v : pg_param (or_default v JNull) = pg_param v.
Proof. destruct v; reflexivity. Qed.


Lemma uuid_param_throws v e : uuid_param v = Throw e -> exists code, e = DbError code.
Proof.
  unfold uuid_param. destruct (pg_param v) as [s|]; [|discriminate].
  destruct (has_nul s); [intros [= <-]; unfold character_not_in_repertoire; eauto|].
  destruct (pg_uuid_in s); [discriminate|].
  intros [= <-]. unfold invalid_text_representation. eauto.
Qed.

Lemma select_participant_errors c u : db_errors (select_participant c u).
Proof.
  intros db e. unfold select_participant.
  destruct (uuid_param c) eqn:Hc; destruct (uuid_param u) eqn:Hu; try discriminate;
    intros [= <-]; (apply uuid_param_throws in Hc || apply uuid_param_throws in Hu);
    assumption.
Qed.

Lemma insert_message_errors now gen c s txt ty mu :
  db_errors (insert_message now gen c s txt ty mu).
Proof.
  intros db e. unfold insert_message.
  destruct (uuid_param c) as [co|] eqn:Hc; destruct (uuid_param s) as [so|] eqn:Hs;
    try (intros [= <-]; (apply uuid_param_throws in Hc || apply uuid_param_throws in Hs);
         assumption).
  destruct (nul_in _);
    [intros [= <-]; unfold character_not_in_repertoire; eauto|].
  destruct co, so, (pg_param txt), (pg_param ty) as [ty0|];
    try (intros [= <-]; unfold not_null_violation; eauto; fail).
  destruct (varchar 20 ty0);
    [|intros [= <-]; unfold string_data_right_truncation; eauto].
  repeat match goal with
         | |- context [if ?b then _ else _] => destruct b
         end;
    intros [= <-] || discriminate;
    unfold unique_violation, foreign_key_violation; eauto.
Qed.

Lemma touch_chat_room_errors now c : db_errors (touch_chat_room now c).
Proof.
  intros db e. unfold touch_chat_room.
  destruct (uuid_param c) eqn:Hc; [discriminate|].
  intros [= <-]. apply uuid_param_throws in Hc. exact Hc.
Qed.

Lemma query_throws {A} q (st : Z -> string -> statement A) E w e w1 :
  (forall now gen, db_errors (st now gen)) ->
  query q st E w = (Throw e, w1) ->
  (exists code, e = DbError code) /\ w_db w1 = w_db w.
Proof.
  intros Herr. unfold query. destruct (fault E (w_stmt w)).
  - intros [= <- <-]. unfold connection_failure. eauto.
  - destruct (st _ _ _) as [[a db']|e'] eqn:Hst; [discriminate|].
    intros [= <- <-]. split; [|reflexivity]. eapply Herr, Hst.
Qed.

Lemma split_chars_fits n s :
  (char_length s <= n)%nat -> split_chars n s = (s, EmptyString).
Proof.
  revert n. induction s as [|c rest IH]; intros n Hlen; [reflexivity|].
  cbn [char_length split_chars] in *. destruct (is_continuation c).
  - rewrite IH by exact Hlen. reflexivity.
  - destruct n as [|n']; [lia|]. rewrite IH by lia. reflexivity.
Qed.

(** A string that fits in a [VARCHAR(n)] column is stored as it is. *)
Lemma varchar_fits n s : (char_length s <= n)%nat -> varchar n s = Some s.
Proof. intros Hlen. unfold varchar. rewrite split_chars_fits by exact Hlen. reflexivity. Qed.

(** A member's message is stored whatever its content and media reference. *)
Lemma saveMessage_stores E w chatId senderId content contentType mediaUrl c s txt ty :
  js_isValidUuid chatId = true ->
  js_isValidUuid senderId = true ->
  uuid_param chatId = Return (Some c) ->
  uuid_param senderId = Return (Some s) ->
  participants_fk_ok (w_db w) ->
  is_participant (w_db w) c s = true ->
  content = JStr txt ->
  or_default contentType (JStr "text") = JStr ty ->
  nul_in [content; JStr ty; mediaUrl] = false ->
  (char_length ty <= 20)%nat ->
  message_exists (w_db w) (pg_uuid E (S (w_stmt w))) = false ->
  available E (w_stmt w) 3 ->
  let row := {| m_id := pg_uuid E (S (w_stmt w)); m_chat_room_id := c; m_sender_id := s;
                m_content := txt; m_content_type := ty; m_media_url := pg_param mediaUrl;
                m_created_at := timestamp_at E (w_txn w) (S (w_stmt w));
                m_updated_at := timestamp_at E (w_txn w) (S (w_stmt w));
                m_is_edited := false; m_is_deleted := false |} in
  exists w',
    saveMessage chatId senderId content contentType mediaUrl E w = (Return (Some row), w') /\
    messages (w_db w') = (messages (w_db w) ++ [row])%list /\
    added w w' = [ActQuery SqlSelectParticipant true; ActQuery SqlInsertMessage true;
                  ActQuery SqlTouchChatRoom true].
Proof.
  intros Hvc Hvs Hpc Hps Hfk Hmem -> Hty Hnul Hlen Hfresh Hav row.
  assert (Hnul' : nul_in [JStr txt; JStr ty; or_default mediaUrl JNull] = false)
    by (destruct mediaUrl; exact Hnul).
  destruct (is_participant_In _ _ _ Hmem) as (r & Hin & Hrc & Hrs).
  destruct (Hfk r Hin) as [Hroom Huser]. rewrite Hrc in Hroom. rewrite Hrs in Huser.
  apply varchar_fits in Hlen.
  unfold saveMessage, bind.
  rewrite !validateUuid_valid by assumption.
  rewrite try_rethrow.
  rewrite (isUserInChat_available _ _ c s)
    by (first [assumption | eapply available_at; [exact Hav|lia]]).
  rewrite Hmem. cbn [negb].
  rewrite query_available by (eapply available_at; [exact Hav|simpl; lia]).
  cbn [w_db w_stmt w_txn log_action with_db sent].
  unfold insert_message. rewrite Hpc, Hps, Hty, Hnul'. cbn [pg_param].
  rewrite Hlen, Hfresh, Hroom, Huser. cbn [negb].
  rewrite query_available by (eapply available_at; [exact Hav|simpl; lia]).
  unfold touch_chat_room. rewrite Hpc. cbn [ret head w_db log_action with_db sent].
  rewrite pg_param_or_null.
  eexists. split; [reflexivity|]. split; [reflexivity|].
  apply added_app. cbn [w_trace log_action with_db sent].
  rewrite <- !app_assoc. reflexivity.
Qed.


(** Without a transaction, a failure of the second statement leaves the
    effect of the first: the message row stays, the chat room is not
    updated, and the call throws. *)
Lemma saveMessage_keeps_row_when_update_fails
    E w chatId senderId content contentType mediaUrl c s txt ty :
  js_isValidUuid chatId = true ->
  js_isValidUuid senderId = true ->
  uuid_param chatId = Return (Some c) ->
  uuid_param senderId = Return (Some s) ->
  participants_fk_ok (w_db w) ->
  is_participant (w_db w) c s = true ->
  content = JStr txt ->
  or_default contentType (JStr "text") = JStr ty ->
  nul_in [content; JStr ty; mediaUrl] = false ->
  (char_length ty <= 20)%nat ->
  message_exists (w_db w) (pg_uuid E (S (w_stmt w))) = false ->
  available E (w_stmt w) 2 ->
  fault E (S (S (w_stmt w))) = true ->
  exists row w',
    saveMessage chatId senderId content contentType mediaUrl E w =
      (Throw connection_failure, w') /\
    m_content row = txt /\
    messages (w_db w') = (messages (w_db w) ++ [row])%list /\
    chat_rooms (w_db w') = chat_rooms (w_db w).
Proof.
  intros Hvc Hvs Hpc Hps Hfk Hmem -> Hty Hnul Hlen Hfresh Hav Hfault.
  assert (Hnul' : nul_in [JStr txt; JStr ty; or_default mediaUrl JNull] = false)
    by (destruct mediaUrl; exact Hnul).
  destruct (is_participant_In _ _ _ Hmem) as (r & Hin & Hrc & Hrs).
  destruct (Hfk r Hin) as [Hroom Huser]. rewrite Hrc in Hroom. rewrite Hrs in Huser.
  apply varchar_fits in Hlen.
  unfold saveMessage, bind.
  rewrite !validateUuid_valid by assumption.
  rewrite try_rethrow.
  rewrite (isUserInChat_available _ _ c s)
    by (first [assumption | eapply available_at; [exact Hav|lia]]).
  rewrite Hmem. cbn [negb].
  rewrite query_available by (eapply available_at; [exact Hav|simpl; lia]).
  cbn [w_db w_stmt w_txn log_action with_db sent].
  unfold insert_message. rewrite Hpc, Hps, Hty, Hnul'. cbn [pg_param].
  rewrite Hlen, Hfresh, Hroom, Huser. cbn [negb].
  unfold query. cbn [w_stmt log_action with_db sent]. rewrite Hfault.
  do 2 eexists. split; [reflexivity|].
  cbn [w_db log_action with_db sent messages chat_rooms].
  split; [|split]. 2: reflexivity. all: reflexivity.
Qed.

Lemma bind_throws {A B} (m : M A) (k : A -> M B) E w e w2 :
  bind m k E w = (Throw e, w2) ->
  m E w = (Throw e, w2) \/ exists a w1, m E w = (Return a, w1) /\ k a E w1 = (Throw e, w2).
Proof.
  unfold bind. destruct (m E w) as [[a|e'] w1]; [eauto|]. intros [= <- <-]. auto.
Qed.

Lemma isUserInChat_throws chatId userId E w e w1 :
  isUserInChat chatId userId E w = (Throw e, w1) -> exists code, e = DbError code.
Proof.
  rewrite isUserInChat_eq.
  destruct (query _ _ E w) as [[rows|e'] w'] eqn:Hq; [discriminate|].
  intros [= <- <-]. eapply query_throws in Hq; [apply Hq|].
  intros now gen. apply select_participant_errors.
Qed.

(** C4 (amended).  [saveMessage] validates the identifiers only.  It fails
    with a validation error (status 400) exactly when the chat id or the
    sender id is not a valid UUID string, and then nothing is written.  It
    does not validate the content or the media reference: for a sender who
    is a member, any string content (the empty string included) and any
    media reference (a missing one included, also for contentType image)
    that the database can receive (no zero byte) are accepted, and exactly
    one message row is created. *)
Theorem saveMessage_checks_identifiers_only E w chatId senderId content contentType mediaUrl :
  (forall msg w',
     saveMessage chatId senderId content contentType mediaUrl E w =
       (Throw (AppError msg 400), w') ->
     js_isValidUuid chatId && js_isValidUuid senderId = false /\ w' = w) /\
  (js_isValidUuid chatId && js_isValidUuid senderId = false ->
   exists msg,
     saveMessage chatId senderId content contentType mediaUrl E w =
       (Throw (AppError msg 400), w)) /\
  (forall c s txt ty,
     js_isValidUuid chatId = true ->
     js_isValidUuid senderId = true ->
     uuid_param chatId = Return (Some c) ->
     uuid_param senderId = Return (Some s) ->
     participants_fk_ok (w_db w) ->
     is_participant (w_db w) c s = true ->
     content = JStr txt ->
     or_default contentType (JStr "text") = JStr ty ->
     nul_in [content; JStr ty; mediaUrl] = false ->
     (char_length ty <= 20)%nat ->
     message_exists (w_db w) (pg_uuid E (S (w_stmt w))) = false ->
     available E (w_stmt w) 3 ->
     exists row w',
       saveMessage chatId senderId content contentType mediaUrl E w =
         (Return (Some row), w') /\
       m_content row = txt /\ m_content_type row = ty /\
       m_media_url row = pg_param mediaUrl /\
       messages (w_db w') = (messages (w_db w) ++ [row])%list).
Proof.
  split; [|split].
  - intros msg w' Hthrow. unfold saveMessage in Hthrow.
    destruct (js_isValidUuid chatId) eqn:Hvc.
    2:{ destruct (validateUuid_invalid chatId "Chat ID" E w Hvc) as [m1 Hx].
        unfold bind in Hthrow. rewrite Hx in Hthrow. injection Hthrow as _ <-. auto. }
    destruct (js_isValidUuid senderId) eqn:Hvs.
    2:{ destruct (validateUuid_invalid senderId "Sender ID" E w Hvs) as [m1 Hx].
        unfold bind in Hthrow. rewrite validateUuid_valid in Hthrow by assumption.
        rewrite Hx in Hthrow. injection Hthrow as _ <-. auto. }
    exfalso. unfold bind at 1 2 in Hthrow.
    rewrite !validateUuid_valid in Hthrow by assumption.
    rewrite try_rethrow in Hthrow.
    apply bind_throws in Hthrow. destruct Hthrow as [Hin|(canSend & w1 & Hin & Hthrow)].
    { apply isUserInChat_throws in Hin. destruct Hin as [code Hin]. discriminate. }
    destruct canSend; cbn [negb] in Hthrow; [|discriminate].
    apply bind_throws in Hthrow. destruct Hthrow as [Hq|(result & w2 & Hq & Hthrow)].
    { eapply query_throws in Hq; [destruct Hq as [[code Hq] _]; discriminate|].
      intros now gen. apply insert_message_errors. }
    apply bind_throws in Hthrow. destruct Hthrow as [Hq2|(n & w3 & Hq2 & Hthrow)].
    { eapply query_throws in Hq2; [destruct Hq2 as [[code Hq2] _]; discriminate|].
      intros now gen. apply touch_chat_room_errors. }
    discriminate.
  - intros Hinv. unfold saveMessage, bind.
    destruct (js_isValidUuid chatId) eqn:Hvc.
    + cbn [andb] in Hinv. rewrite validateUuid_valid by assumption.
      destruct (validateUuid_invalid senderId "Sender ID" E w Hinv) as [m1 ->]. eauto.
    + destruct (validateUuid_invalid chatId "Chat ID" E w Hvc) as [m1 ->]. eauto.
  - intros c s txt ty Hvc Hvs Hpc Hps Hfk Hmem Htxt Hty Hnul Hlen Hfresh Hav.
    destruct (saveMessage_stores E w chatId senderId content contentType mediaUrl
                c s txt ty Hvc Hvs Hpc Hps Hfk Hmem Htxt Hty Hnul Hlen Hfresh Hav)
      as (w' & Hrun & Hmsgs & _).
    eexists. exists w'. split; [exact Hrun|]. repeat split. exact Hmsgs.
Qed.


End Services.

(* ===================================================================== *)
(** ** Creation of conversations *)
(* ===================================================================== *)

Section Chats.


Lemma transaction_returns {A} (callback : M A) E w a w' :
  transaction callback E w = (Return a, w') ->
  let wb := log_action (ActQuery SqlBegin true)
              (with_txn (Some (w_db w, clock E (S (w_stmt w))))
                 (sent (log_action (ActQuery SqlConnect true) (sent w)))) in
  exists wc,
    callback E wb = (Return a, wc) /\
    w' = log_action (ActQuery SqlCommit true) (with_txn None (sent wc)).
Proof.
  unfold transaction. intros Hrun.
  apply bind_returns in Hrun. destruct Hrun as ([] & w1 & Hg & Hrun).
  unfold getClient in Hg. destruct (fault E (w_stmt w)); [discriminate|].
  injection Hg as <-.
  unfold try_finally in Hrun.
  destruct (try_catch _ _ E _) as [r wt] eqn:Htc in Hrun.
  cbn [release ret snd] in Hrun. injection Hrun as -> ->.
  unfold try_catch in Htc.
  destruct (bind begin_txn _ E _) as [[a'|e] wx] eqn:Hb in Htc.
  - injection Htc as -> ->.
    apply bind_returns in Hb. destruct Hb as ([] & w2 & Hbegin & Hb).
    unfold begin_txn in Hbegin.
    destruct (fault E _) in Hbegin; [discriminate|]. injection Hbegin as <-.
    apply bind_returns in Hb. destruct Hb as (result & wc & Hcb & Hb).
    apply bind_returns in Hb. destruct Hb as ([] & w3 & Hcommit & Hb).
    injection Hb as -> ->.
    unfold commit_txn in Hcommit.
    destruct (fault E _) in Hcommit; [discriminate|]. injection Hcommit as <-.
    exists wc. split; [exact Hcb|reflexivity].
  - unfold bind, throw in Htc.
    destruct (rollback_txn E wx) as [[[]|e'] wr]; discriminate.
Qed.

Lemma insert_chat_room_returns now id name type creatorId db rows db' :
  insert_chat_room now id name type creatorId db = Return (rows, db') ->
  exists i ty ty' name' c,
    uuid_param id = Return (Some i) /\ pg_param type = Some ty /\
    varchar 20 ty = Some ty' /\
    uuid_param creatorId = Return (Some c) /\
    chat_room_exists db i = false /\
    let row := {| cr_id := i; cr_name := name'; cr_type := ty';
                  cr_creator_id := c; cr_created_at := now; cr_updated_at := now |} in
    rows = [row] /\
    db' = {| users := users db; chat_rooms := (chat_rooms db ++ [row])%list;
             chat_participants := chat_participants db; messages := messages db;
             message_reactions := message_reactions db |}.
Proof.
  unfold insert_chat_room.
  destruct (uuid_param id) as [[i|]|]; destruct (nul_in [name; type]);
    try discriminate; destruct (uuid_param creatorId) as [[c|]|];
    try discriminate; destruct (pg_param type) as [ty|]; try discriminate.
  destruct (match pg_param name with Some n => _ | None => _ end) as [name'|];
    [|discriminate].
  destruct (varchar 20 ty) as [ty'|] eqn:Hty; [|discriminate].
  destruct (chat_room_exists db i) eqn:Hex; [discriminate|].
  destruct (user_exists db c); [|discriminate].
  intros [= <- <-]. exists i, ty, ty', name', c.
  repeat split; first [reflexivity|assumption].
Qed.

Lemma insert_participant_returns now chatId userId role db x db' :
  insert_participant now chatId userId role db = Return (x, db') ->
  exists c u ro ro',
    uuid_param chatId = Return (Some c) /\ uuid_param userId = Return (Some u) /\
    pg_param role = Some ro /\ varchar 20 ro = Some ro' /\
    db' = {| users := users db; chat_rooms := chat_rooms db;
             chat_participants :=
               (chat_participants db ++
                [{| cp_chat_room_id := c; cp_user_id := u; cp_role := ro';
                    cp_joined_at := now |}])%list;
             messages := messages db; message_reactions := message_reactions db |}.
Proof.
  unfold insert_participant.
  destruct (uuid_param chatId) as [[c|]|]; destruct (uuid_param userId) as [[u|]|];
    try discriminate; destruct (nul_in [role]); try discriminate;
    destruct (pg_param role) as [ro|]; try discriminate.
  destruct (varchar 20 ro) as [ro'|] eqn:Hro; [|discriminate].
  destruct (existsb _ _); [discriminate|].
  destruct (chat_room_exists db c); [|discriminate].
  destruct (user_exists db u); [|discriminate].
  intros [= <- <-]. exists c, u, ro, ro'. repeat split; first [reflexivity|assumption].
Qed.

(** The loop over the other participants only adds membership rows. *)
Lemma add_other_participants_returns chatId creatorId ids E w w' :
  add_other_participants chatId creatorId ids E w = (Return tt, w') ->
  exists rows, chat_participants (w_db w') = (chat_participants (w_db w) ++ rows)%list.
Proof.
  revert w. induction ids as [|p rest IH]; intros w Hrun.
  - injection Hrun as <-. exists []. rewrite app_nil_r. reflexivity.
  - cbn [add_other_participants] in Hrun.
    apply bind_returns in Hrun. destruct Hrun as ([] & w1 & Hp & Hrun).
    apply IH in Hrun. destruct Hrun as [rows Hrows].
    destruct (negb (jsval_eqb p creatorId)).
    + apply query_returns in Hp. destruct Hp as (_ & db' & Hst & ->).
      apply insert_participant_returns in Hst.
      destruct Hst as (c & u & ro & ro' & _ & _ & _ & _ & ->).
      cbn [w_db log_action with_db sent chat_participants] in Hrows.
      rewrite Hrows, <- app_assoc. eauto.
    + injection Hp as <-. eauto.
Qed.

Lemma draw_uuidv4_eq E w : draw_uuidv4 E w = (Return (uuidv4 E (w_draw w)), drawn w).
Proof. reflexivity. Qed.

Lemma members_of_app db c rows :
  filter (fun r => String.eqb (cp_chat_room_id r) c = true)
    (chat_participants db ++ rows)%list =
  (members_of db c ++ filter (fun r => String.eqb (cp_chat_room_id r) c = true) rows)%list.
Proof. unfold members_of. apply filter_app. Qed.

(** The creator of a group is one of its members, with role creator. *)
Lemma createGroupChat_creator E w name creatorId ids chat w' :
  createGroupChat name creatorId ids E w = (Return (Some chat), w') ->
  exists r u,
    In r (members_of (w_db w') (cr_id chat)) /\
    cp_role r = "creator" /\ cp_user_id r = u /\
    uuid_param creatorId = Return (Some u).
Proof.
  intros Hrun. unfold createGroupChat in Hrun.
  apply bind_returns in Hrun. destruct Hrun as ([] & wa & Hv & Hrun).
  apply validateUuid_returns in Hv. destruct Hv as [-> Hvc].
  apply bind_returns in Hrun. destruct Hrun as ([] & wa & _ & Hrun).
  destruct (299 <? length ids)%nat; [discriminate|].
  apply transaction_returns in Hrun. destruct Hrun as (wc & Hcb & ->).
  rewrite try_rethrow in Hcb.
  apply bind_returns in Hcb. destruct Hcb as (chatId & w1 & Hd & Hcb).
  rewrite draw_uuidv4_eq in Hd. injection Hd as <- <-.
  apply bind_returns in Hcb. destruct Hcb as (rows & w2 & Hq & Hcb).
  apply query_returns in Hq. destruct Hq as (_ & db2 & Hst & ->).
  apply insert_chat_room_returns in Hst.
  destruct Hst as (i & ty & ty' & name' & c & Hi & _ & _ & Hc & _ & -> & ->).
  apply bind_returns in Hcb. destruct Hcb as ([] & w3 & Hq & Hcb).
  apply query_returns in Hq. destruct Hq as (_ & db3 & Hst & ->).
  apply insert_participant_returns in Hst.
  destruct Hst as (i' & u & ro & ro' & Hi' & Hu & Hro & Hro' & ->).
  rewrite Hi in Hi'. injection Hi' as <-. rewrite Hc in Hu. injection Hu as <-.
  injection Hro as <-. injection Hro' as <-.
  apply bind_returns in Hcb. destruct Hcb as ([] & w4 & Hloop & Hcb).
  injection Hcb as <- <-.
  apply add_other_participants_returns in Hloop. destruct Hloop as [more Hmore].
  cbn [w_db log_action with_db with_txn sent chat_participants] in Hmore.
  eexists {| cp_chat_room_id := i; cp_user_id := c; cp_role := "creator";
              cp_joined_at := _ |}.
  exists c. split; [|split; [reflexivity|split; [reflexivity|exact Hc]]].
  unfold members_of. cbn [w_db log_action with_db with_txn sent head cr_id].
  rewrite Hmore. apply list_elem_of_In, list_elem_of_filter.
  split; [cbn [cp_chat_room_id]; apply String.eqb_refl|].
  apply list_elem_of_In. apply in_or_app. left. apply in_or_app. right. left. reflexivity.
Qed.


Lemma query_all2_returns qa qb a b E w w' :
  query_all2 qa qb a b E w = (Return tt, w') ->
  exists w1, query qa a E w = (Return tt, w1) /\ query qb b E w1 = (Return tt, w').
Proof.
  unfold query_all2. intros Hrun.
  apply bind_returns in Hrun. destruct Hrun as ([] & w1 & Hfirst & Hsecond).
  exists w1. split; [|exact Hsecond].
  unfold try_catch in Hfirst.
  destruct (query qa a E w) as [[[]|e] wq]; [exact Hfirst|].
  unfold bind, throw in Hfirst.
  destruct (match query qb _ E wq with (Return x, w2) => _ | (Throw e0, w2) => _ end)
    as [[[]|e'] wr]; discriminate.
Qed.

Lemma chat_room_exists_In db chat :
  In chat (chat_rooms db) -> chat_room_exists db (cr_id chat) = true.
Proof.
  intros Hin. unfold chat_room_exists. apply existsb_exists.
  exists chat. split; [exact Hin|apply String.eqb_refl].
Qed.

Lemma select_direct_chat_returns u1 u2 db rows db' chat :
  select_direct_chat u1 u2 db = Return (rows, db') ->
  head rows = Some chat ->
  In chat (chat_rooms db) /\ cr_type chat = "direct".
Proof.
  unfold select_direct_chat.
  destruct (uuid_param u1) as [o1|]; destruct (uuid_param u2) as [o2|]; try discriminate.
  intros [= <- <-] Hhead.
  apply head_Some_elem_of, elem_of_take in Hhead.
  destruct Hhead as (n & Hlook & _).
  apply list_elem_of_lookup_2, list_elem_of_filter in Hlook.
  destruct Hlook as [Hp Hin]. apply list_elem_of_In in Hin.
  apply andb_prop in Hp. destruct Hp as [Hty _]. apply String.eqb_eq in Hty. auto.
Qed.

(** No membership row refers to a chat room that does not exist. *)
Lemma members_of_absent db c :
  participants_fk_ok db -> chat_room_exists db c = false -> members_of db c = [].
Proof.
  intros Hfk Habs. unfold members_of.
  assert (Hall : forall r, In r (chat_participants db) ->
                   chat_room_exists db (cp_chat_room_id r) = true)
    by (intros r Hr; apply Hfk, Hr).
  induction (chat_participants db) as [|r l IH]; [reflexivity|].
  rewrite filter_cons. destruct (String.eqb_spec (cp_chat_room_id r) c) as [Heq|Hne].
  - specialize (Hall r (or_introl eq_refl)). congruence.
  - rewrite decide_False by discriminate. apply IH.
    intros r' Hr'. apply Hall. right. exact Hr'.
Qed.

(** A direct chat that [createDirectChat] creates has exactly its two users
    as members, both with role member. *)
Lemma createDirectChat_members E w userId1 userId2 chat w' :
  participants_fk_ok (w_db w) ->
  createDirectChat userId1 userId2 E w = (Return (Some chat), w') ->
  chat_room_exists (w_db w) (cr_id chat) = false ->
  exists u1 u2 t1 t2,
    uuid_param userId1 = Return (Some u1) /\
    uuid_param userId2 = Return (Some u2) /\
    cr_type chat = "direct" /\
    members_of (w_db w') (cr_id chat) =
      [ {| cp_chat_room_id := cr_id chat; cp_user_id := u1; cp_role := "member";
           cp_joined_at := t1 |};
        {| cp_chat_room_id := cr_id chat; cp_user_id := u2; cp_role := "member";
           cp_joined_at := t2 |} ].
Proof.
  intros Hfk Hrun Hnew. unfold createDirectChat in Hrun.
  apply bind_returns in Hrun. destruct Hrun as ([] & wa & Hv & Hrun).
  apply validateUuid_returns in Hv. destruct Hv as [-> Hv1].
  apply bind_returns in Hrun. destruct Hrun as ([] & wa & Hv & Hrun).
  apply validateUuid_returns in Hv. destruct Hv as [-> Hv2].
  destruct (jsval_eqb userId1 userId2); [discriminate|].
  apply transaction_returns in Hrun. destruct Hrun as (wc & Hcb & ->).
  rewrite try_rethrow in Hcb.
  apply bind_returns in Hcb. destruct Hcb as (existing & w1 & Hq & Hcb).
  apply query_returns in Hq. destruct Hq as (_ & db1 & Hsel & ->).
  cbn [w_db log_action with_db with_txn sent] in Hsel.
  destruct (0 <? length existing)%nat.
  { injection Hcb as Hhead _.
    destruct (select_direct_chat_returns _ _ _ _ _ _ Hsel Hhead) as [Hin _].
    apply chat_room_exists_In in Hin. congruence. }
  assert (Hdb1 : db1 = w_db w).
  { unfold select_direct_chat in Hsel.
    destruct (uuid_param userId1); destruct (uuid_param userId2); try discriminate.
    injection Hsel as _ <-. reflexivity. }
  subst db1.
  apply bind_returns in Hcb. destruct Hcb as (chatId & w2 & Hd & Hcb).
  rewrite draw_uuidv4_eq in Hd. injection Hd as <- <-.
  apply bind_returns in Hcb. destruct Hcb as (rows & w3 & Hq & Hcb).
  apply query_returns in Hq. destruct Hq as (_ & db3 & Hst & ->).
  apply insert_chat_room_returns in Hst.
  destruct Hst as (i & ty & ty' & name' & c & Hi & Hty & Hty' & Hc & _ & -> & ->).
  injection Hty as <-. injection Hty' as <-.
  apply bind_returns in Hcb. destruct Hcb as ([] & w4 & Hboth & Hcb).
  injection Hcb as <- <-.
  apply query_all2_returns in Hboth. destruct Hboth as (w5 & Hq1 & Hq2).
  apply query_returns in Hq1. destruct Hq1 as (_ & db5 & Hst1 & ->).
  apply insert_participant_returns in Hst1.
  destruct Hst1 as (i1 & u1 & ro1 & ro1' & Hi1 & Hu1 & Hro1 & Hro1' & ->).
  apply query_returns in Hq2. destruct Hq2 as (_ & db6 & Hst2 & ->).
  apply insert_participant_returns in Hst2.
  destruct Hst2 as (i2 & u2 & ro2 & ro2' & Hi2 & Hu2 & Hro2 & Hro2' & ->).
  rewrite Hi in Hi1, Hi2. injection Hi1 as <-. injection Hi2 as <-.
  injection Hro1 as <-. injection Hro2 as <-.
  injection Hro1' as <-. injection Hro2' as <-.
  cbn [cr_id] in Hnew.
  exists u1, u2. do 2 eexists.
  split; [exact Hu1|]. split; [exact Hu2|]. split; [reflexivity|].
  unfold members_of.
  cbn [w_db log_action with_db with_txn sent drawn chat_participants cr_id].
  rewrite <- app_assoc. rewrite filter_app.
  change (filter _ (chat_participants (w_db w))) with (members_of (w_db w) i).
  rewrite (members_of_absent _ _ Hfk Hnew). cbn [app].
  rewrite !filter_cons, filter_nil. cbn [cp_chat_room_id].
  rewrite !decide_True by apply String.eqb_refl. reflexivity.
Qed.


(** C9 (amended).  After [createGroupChat] the conversation has a member
    with role creator, its creator.  After [createDirectChat] has created a
    conversation, its members are exactly the two users, both with role
    member (so that a direct conversation has no member with role creator
    or admin). *)
Theorem chat_creation_roles E w :
  (forall name creatorId ids chat w',
     createGroupChat name creatorId ids E w = (Return (Some chat), w') ->
     exists r u,
       In r (members_of (w_db w') (cr_id chat)) /\
       cp_role r = "creator" /\ cp_user_id r = u /\
       uuid_param creatorId = Return (Some u)) /\
  (forall userId1 userId2 chat w',
     participants_fk_ok (w_db w) ->
     createDirectChat userId1 userId2 E w = (Return (Some chat), w') ->
     chat_room_exists (w_db w) (cr_id chat) = false ->
     exists u1 u2 t1 t2,
       uuid_param userId1 = Return (Some u1) /\
       uuid_param userId2 = Return (Some u2) /\
       cr_type chat = "direct" /\
       members_of (w_db w') (cr_id chat) =
         [ {| cp_chat_room_id := cr_id chat; cp_user_id := u1; cp_role := "member";
              cp_joined_at := t1 |};
           {| cp_chat_room_id := cr_id chat; cp_user_id := u2; cp_role := "member";
              cp_joined_at := t2 |} ]).
Proof.
  split.
  - intros name creatorId ids chat w'. apply createGroupChat_creator.
  - intros userId1 userId2 chat w'. apply createDirectChat_members.
Qed.

Lemma db0_participants_fk_ok : participants_fk_ok db0.
Proof.
  intros r [<-|[<-|[]]]; split; reflexivity.
Qed.

(** The two parts of [chat_creation_roles] on the deployment. *)
Lemma chat_creation_roles_witness :
  (exists chat w' r,
     createGroupChat (JStr "Plans") (JStr alice) [JStr bob; JStr carol] calm w0 =
       (Return (Some chat), w') /\
     In r (members_of (w_db w') (cr_id chat)) /\ cp_role r = "creator") /\
  (exists chat w' u1 u2 t1 t2,
     createDirectChat (JStr alice) (JStr carol) calm w0 = (Return (Some chat), w') /\
     members_of (w_db w') (cr_id chat) =
       [ {| cp_chat_room_id := cr_id chat; cp_user_id := u1; cp_role := "member";
            cp_joined_at := t1 |};
         {| cp_chat_room_id := cr_id chat; cp_user_id := u2; cp_role := "member";
            cp_joined_at := t2 |} ]).
Proof.
  destruct (chat_creation_roles calm w0) as [Hgroup Hdirect].
  split.
  - destruct (createGroupChat (JStr "Plans") (JStr alice) [JStr bob; JStr carol] calm w0)
      as [[[chat|]|e] w'] eqn:Hrun; try (vm_compute in Hrun; discriminate).
    destruct (Hgroup _ _ _ _ _ Hrun) as (r & u & Hin & Hrole & _).
    exists chat, w', r. auto.
  - destruct (createDirectChat (JStr alice) (JStr carol) calm w0)
      as [[[chat|]|e] w'] eqn:Hrun; try (vm_compute in Hrun; discriminate).
    assert (Hnew : chat_room_exists (w_db w0) (cr_id chat) = false).
    { vm_compute in Hrun. injection Hrun as <- _. reflexivity. }
    destruct (Hdirect _ _ _ _ db0_participants_fk_ok Hrun Hnew)
      as (u1 & u2 & t1 & t2 & _ & _ & _ & Hmembers).
    exists chat, w', u1, u2, t1, t2. auto.
Defined.

(** C9 as stated fails: the direct chat that [createDirectChat] creates for
    alice and carol has no member with role creator or admin. *)
Lemma direct_chat_without_creator_or_admin :
  exists chat w',
    createDirectChat (JStr alice) (JStr carol) calm w0 = (Return (Some chat), w') /\
    ~ exists r, In r (members_of (w_db w') (cr_id chat)) /\ is_creator_or_admin r = true.
Proof.
  eexists. eexists. split; [vm_compute; reflexivity|].
  vm_compute. intros (r & [<-|[<-|[]]] & Hrole); discriminate.
Qed.


End Chats.

(* ===================================================================== *)
(** ** The services on the concrete deployment *)
(* ===================================================================== *)

Section Evaluations.

Lemma calm_available n k : available calm n k.
Proof. intros i _. reflexivity. Qed.

Lemma db0_reactions_key_ok : reactions_key_ok db0.
Proof. intros m u r. cbn. lia. Qed.

(** Bob reacts twice to alice's message. *)
Lemma addMessageReaction_idempotent_witness :
  exists m u txt r w2,
    uuid_param (JStr hello) = Return (Some m) /\
    uuid_param (JStr bob) = Return (Some u) /\
    JStr "like" = JStr txt /\ varchar 50 txt = Some r /\
    addMessageReaction (JStr hello) (JStr bob) (JStr "like") calm
      (snd (addMessageReaction (JStr hello) (JStr bob) (JStr "like") calm w0)) =
      (Return None, w2) /\
    w_db w2 = w_db (snd (addMessageReaction (JStr hello) (JStr bob) (JStr "like") calm w0)) /\
    length (reaction_rows (w_db w2) m u r) = 1%nat.
Proof.
  eapply (addMessageReaction_idempotent calm w0 (JStr hello) (JStr bob) (JStr "like")).
  - exact db0_reactions_key_ok.
  - vm_compute. reflexivity.
  - apply calm_available.
Defined.

(** Carol, who is in no chat, removes a reaction that does not exist. *)
Lemma removeMessageReaction_unchecked_witness :
  exists w',
    removeMessageReaction (JStr hello) (JStr carol) (JStr "like") calm w0 = (Return tt, w') /\
    w_db w' = w_db w0.
Proof.
  destruct (removeMessageReaction_unchecked calm w0 hello carol (JStr "like"))
    as (m & u & w' & _ & _ & Hrun & _ & _ & Hsame & _); try reflexivity.
  exists w'. split; [exact Hrun|]. apply Hsame.
  vm_compute. reflexivity.
Defined.

(** C3 fails on the code.  [saveMessage] sends the INSERT and the UPDATE as
    two statements outside any transaction.  When the connection is lost at
    the UPDATE (the third statement of the call), the call throws, the
    message row of the INSERT is stored, and the chat room's [updated_at]
    is unchanged. *)
Theorem saveMessage_partial_write :
  let r := saveMessage (JStr team) (JStr alice) (JStr "hi") JUndefined JUndefined
             (failing_at 2) w0 in
  fst r = Throw connection_failure /\
  added w0 (snd r) = [ActQuery SqlSelectParticipant true; ActQuery SqlInsertMessage true;
                      ActQuery SqlTouchChatRoom false] /\
  map m_content (messages (w_db (snd r))) = ["Hello everyone!"; "hi"] /\
  chat_rooms (w_db (snd r)) = chat_rooms db0 /\
  map cr_updated_at (chat_rooms (w_db (snd r))) = [20].
Proof. vm_compute. repeat split. Qed.

(** C4 as stated fails: a text message with empty content and an image
    message without media reference are both stored. *)
Lemma saveMessage_without_content_or_media :
  (exists row w',
     saveMessage (JStr team) (JStr alice) (JStr "") (JStr "text") JUndefined calm w0 =
       (Return (Some row), w') /\
     m_content row = "" /\ m_content_type row = "text" /\
     messages (w_db w') = (messages db0 ++ [row])%list) /\
  (exists row w',
     saveMessage (JStr team) (JStr alice) (JStr "sunset") (JStr "image") JUndefined calm w0 =
       (Return (Some row), w') /\
     m_content_type row = "image" /\ m_media_url row = None /\
     messages (w_db w') = (messages db0 ++ [row])%list).
Proof. split; vm_compute; do 2 eexists; repeat split. Qed.

(** A malformed chat id is refused; an image without content and without
    media reference is stored. *)
Lemma saveMessage_checks_identifiers_only_witness :
  (exists msg,
     saveMessage (JStr "team") (JStr alice) (JStr "") (JStr "text") JUndefined calm w0 =
       (Throw (AppError msg 400), w0)) /\
  (exists row w',
     saveMessage (JStr team) (JStr alice) (JStr "") (JStr "image") JUndefined calm w0 =
       (Return (Some row), w') /\
     m_content row = "" /\ m_content_type row = "image" /\ m_media_url row = None /\
     messages (w_db w') = (messages (w_db w0) ++ [row])%list).
Proof.
  split.
  - destruct (saveMessage_checks_identifiers_only calm w0 (JStr "team") (JStr alice)
                (JStr "") (JStr "text") JUndefined) as (_ & Hinvalid & _).
    apply Hinvalid. reflexivity.
  - destruct (saveMessage_checks_identifiers_only calm w0 (JStr team) (JStr alice)
                (JStr "") (JStr "image") JUndefined) as (_ & _ & Hstores).
    apply (Hstores team alice "" "image"); try reflexivity.
    + exact db0_participants_fk_ok.
    + apply Nat.leb_le. reflexivity.
    + apply calm_available.
Defined.

End Evaluations.

(* ===================================================================== *)
(** ** The socket handlers *)
(* ===================================================================== *)

Section Handlers.

Lemma query_trace {A} q (st : Z -> string -> statement A) E w r w' :
  query q st E w = (r, w') ->
  w_io w' = w_io w /\ w_txn w' = w_txn w /\ w_stmt w' = S (w_stmt w) /\
  w_trace w' = (w_trace w ++ [ActQuery q (returned r)])%list.
Proof.
  unfold query. destruct (fault E (w_stmt w)).
  - intros [= <- <-]. auto.
  - destruct (st _ _ _) as [[a db']|e]; intros [= <- <-]; auto.
Qed.

Lemma isUserInChat_trace chatId userId E w r w' :
  isUserInChat chatId userId E w = (r, w') ->
  w_io w' = w_io w /\ w_db w' = w_db w /\ w_txn w' = w_txn w /\
  w_stmt w' = S (w_stmt w) /\
  w_trace w' = (w_trace w ++ [ActQuery SqlSelectParticipant (returned r)])%list.
Proof.
  rewrite isUserInChat_eq.
  destruct (query _ _ E w) as [[rows|e] w1] eqn:Hq; intros [= <- <-].
  - destruct (query_trace _ _ _ _ _ _ Hq) as (Hio & Htxn & Hn & Htr).
    apply query_returns in Hq. destruct Hq as (_ & db' & Hst & ->).
    unfold select_participant in Hst.
    destruct (uuid_param chatId); destruct (uuid_param userId); try discriminate.
    injection Hst as _ <-. auto.
  - destruct (query_trace _ _ _ _ _ _ Hq) as (Hio & Htxn & Hn & Htr).
    eapply query_throws in Hq; [|intros now gen; apply select_participant_errors].
    destruct Hq as [_ Hdb]. auto.
Qed.

Lemma insert_message_returns now gen chatId senderId content contentType mediaUrl db rows db' :
  insert_message now gen chatId senderId content contentType mediaUrl db = Return (rows, db') ->
  exists row ty,
    rows = [row] /\ m_id row = gen /\ m_created_at row = now /\
    uuid_param chatId = Return (Some (m_chat_room_id row)) /\
    uuid_param senderId = Return (Some (m_sender_id row)) /\
    pg_param content = Some (m_content row) /\
    pg_param contentType = Some ty /\ varchar 20 ty = Some (m_content_type row) /\
    m_media_url row = pg_param mediaUrl /\
    message_exists db gen = false /\
    db' = {| users := users db; chat_rooms := chat_rooms db;
             chat_participants := chat_participants db;
             messages := (messages db ++ [row])%list;
             message_reactions := message_reactions db |}.
Proof.
  unfold insert_message.
  destruct (uuid_param chatId) as [[c|]|]; destruct (uuid_param senderId) as [[s|]|];
    try discriminate;
    destruct (nul_in [content; contentType; mediaUrl]); try discriminate;
    destruct (pg_param content) as [txt|]; try discriminate;
    destruct (pg_param contentType) as [ty|]; try discriminate.
  destruct (varchar 20 ty) as [ty'|] eqn:Hty; [|discriminate].
  destruct (message_exists db gen) eqn:Hfresh; [discriminate|].
  destruct (chat_room_exists db c); [|discriminate].
  destruct (user_exists db s); [|discriminate].
  intros [= <- <-]. eexists. exists ty. repeat split; first [reflexivity|assumption].
Qed.

Lemma touch_chat_room_returns now chatId db n db' :
  touch_chat_room now chatId db = Return (n, db') ->
  messages db' = messages db /\ chat_participants db' = chat_participants db.
Proof.
  unfold touch_chat_room. destruct (uuid_param chatId); [|discriminate].
  intros [= _ <-]. auto.
Qed.

(** What a call of [saveMessage] that returns has done. *)
Lemma saveMessage_returns chatId senderId content contentType mediaUrl E w res w' :
  saveMessage chatId senderId content contentType mediaUrl E w = (Return res, w') ->
  exists row,
    res = Some row /\
    messages (w_db w') = (messages (w_db w) ++ [row])%list /\
    m_id row = pg_uuid E (S (w_stmt w)) /\
    m_created_at row = timestamp_at E (w_txn w) (S (w_stmt w)) /\
    pg_param content = Some (m_content row) /\
    w_io w' = w_io w /\
    w_trace w' = (w_trace w ++ [ActQuery SqlSelectParticipant true;
                                ActQuery SqlInsertMessage true;
                                ActQuery SqlTouchChatRoom true])%list.
Proof.
  intros Hrun. unfold saveMessage in Hrun.
  apply bind_returns in Hrun. destruct Hrun as ([] & wa & Hv & Hrun).
  apply validateUuid_returns in Hv. destruct Hv as [-> _].
  apply bind_returns in Hrun. destruct Hrun as ([] & wa & Hv & Hrun).
  apply validateUuid_returns in Hv. destruct Hv as [-> _].
  rewrite try_rethrow in Hrun.
  apply bind_returns in Hrun. destruct Hrun as (canSend & w1 & Hin & Hrun).
  apply isUserInChat_trace in Hin. destruct Hin as (Hio1 & Hdb1 & Htxn1 & Hn1 & Htr1).
  destruct canSend; [|discriminate]. cbn [negb] in Hrun.
  apply bind_returns in Hrun. destruct Hrun as (rows & w2 & Hq & Hrun).
  destruct (query_trace _ _ _ _ _ _ Hq) as (Hio2 & Htxn2 & Hn2 & Htr2).
  apply query_returns in Hq. destruct Hq as (_ & db2 & Hst & ->).
  apply insert_message_returns in Hst.
  destruct Hst as (row & ty & -> & Hid & Hat & _ & _ & Htxt & _ & _ & _ & _ & ->).
  apply bind_returns in Hrun. destruct Hrun as (n & w3 & Hq & Hrun).
  destruct (query_trace _ _ _ _ _ _ Hq) as (Hio3 & Htxn3 & Hn3 & Htr3).
  apply query_returns in Hq. destruct Hq as (_ & db3 & Hst & ->).
  apply touch_chat_room_returns in Hst. destruct Hst as [Hmsgs _].
  injection Hrun as <- <-. exists row.
  cbn [w_db w_io w_trace w_stmt w_txn log_action with_db sent returned messages] in *.
  split; [reflexivity|]. split; [rewrite Hmsgs, Hdb1; reflexivity|].
  split; [rewrite Hid, Hn1; reflexivity|].
  split; [rewrite Hat, Hn1, Htxn1; reflexivity|].
  split; [exact Htxt|]. split; [exact Hio1|].
  rewrite Htr1, <- !app_assoc. reflexivity.
Qed.

(** A call of [saveMessage] sends statements and emits nothing; when it
    throws, the update of the chat room has not succeeded. *)
Lemma saveMessage_throws chatId senderId content contentType mediaUrl E w e w' :
  saveMessage chatId senderId content contentType mediaUrl E w = (Throw e, w') ->
  w_io w' = w_io w /\
  exists stmts,
    w_trace w' = (w_trace w ++ stmts)%list /\
    Forall (fun a => is_emit a = false) stmts /\
    ~ In (ActQuery SqlTouchChatRoom true) stmts.
Proof.
  intros Hrun. unfold saveMessage in Hrun.
  apply bind_throws in Hrun. destruct Hrun as [Hv|([] & wa & Hv & Hrun)].
  { destruct (js_isValidUuid chatId) eqn:Hvc.
    - rewrite validateUuid_valid in Hv by assumption. discriminate.
    - destruct (validateUuid_invalid chatId "Chat ID" E w Hvc) as [msg Hx].
      rewrite Hx in Hv. injection Hv as _ <-.
      split; [reflexivity|]. exists []. rewrite app_nil_r. auto. }
  apply validateUuid_returns in Hv. destruct Hv as [-> _].
  apply bind_throws in Hrun. destruct Hrun as [Hv|([] & wa & Hv & Hrun)].
  { destruct (js_isValidUuid senderId) eqn:Hvc.
    - rewrite validateUuid_valid in Hv by assumption. discriminate.
    - destruct (validateUuid_invalid senderId "Sender ID" E w Hvc) as [msg Hx].
      rewrite Hx in Hv. injection Hv as _ <-.
      split; [reflexivity|]. exists []. rewrite app_nil_r. auto. }
  apply validateUuid_returns in Hv. destruct Hv as [-> _].
  rewrite try_rethrow in Hrun.
  apply bind_throws in Hrun. destruct Hrun as [Hin|(canSend & w1 & Hin & Hrun)].
  { apply isUserInChat_trace in Hin. destruct Hin as (Hio & _ & _ & _ & Htr).
    split; [exact Hio|]. eexists. split; [exact Htr|].
    split; [repeat constructor|]. intros [Hx|[]]. discriminate. }
  apply isUserInChat_trace in Hin. destruct Hin as (Hio1 & _ & _ & _ & Htr1).
  destruct canSend; cbn [negb] in Hrun.
  2:{ injection Hrun as _ <-. split; [exact Hio1|]. eexists. split; [exact Htr1|].
      split; [repeat constructor|]. intros [Hx|[]]. discriminate. }
  apply bind_throws in Hrun. destruct Hrun as [Hq|(rows & w2 & Hq & Hrun)].
  { apply query_trace in Hq. destruct Hq as (Hio2 & _ & _ & Htr2).
    split; [congruence|]. eexists. split; [rewrite Htr2, Htr1, <- app_assoc; reflexivity|].
    split; [repeat constructor|]. intros [Hx|[Hx|[]]]; discriminate. }
  apply query_trace in Hq. destruct Hq as (Hio2 & _ & _ & Htr2).
  apply bind_throws in Hrun. destruct Hrun as [Hq|(n & w3 & Hq & Hrun)]; [|discriminate].
  apply query_trace in Hq. destruct Hq as (Hio3 & _ & _ & Htr3).
  split; [congruence|]. eexists.
  split; [rewrite Htr3, Htr2, Htr1, <- !app_assoc; reflexivity|].
  split; [repeat constructor|]. intros [Hx|[Hx|[Hx|[]]]]; discriminate.
Qed.


Lemma emit_eq to ev E w :
  emit to ev E w = (Return tt, log_action (ActEmit to (recipients to (w_io w)) ev) w).
Proof. reflexivity. Qed.

(** C1.  The handler of [message:new] always completes.  Either the
    persistence call [saveMessage] has returned a row: then the trace added
    by the handler is the membership checks, the successful INSERT and
    UPDATE, and last the broadcast to the room of the chat of exactly that
    row, which is stored in [messages] and carries the identifier and the
    timestamp that the database generated.  Or the persistence has not
    completed: then nothing is broadcast and the only emission is an error
    to the sending socket. *)
Theorem message_new_broadcast_is_persisted E w sid userId data :
  let chatId := md_chatId data in
  let room := chat_room_of chatId in
  exists w' acts,
    on_message_new sid userId data E w = (Return tt, w') /\
    w_trace w' = (w_trace w ++ acts)%list /\
    ((exists row w1 w2,
        isUserInChat chatId (JStr userId) E w = (Return true, w1) /\
        saveMessage chatId (JStr userId) (md_content data)
          (or_default (md_contentType data) (JStr "text"))
          (or_default (md_mediaUrl data) JNull) E w1 = (Return (Some row), w2) /\
        acts = [ActQuery SqlSelectParticipant true; ActQuery SqlSelectParticipant true;
                ActQuery SqlInsertMessage true; ActQuery SqlTouchChatRoom true;
                ActEmit (ToRoom room) (in_room room (w_io w)) (EvMessageNew (Some row))] /\
        messages (w_db w') = (messages (w_db w) ++ [row])%list /\
        m_id row = pg_uuid E (w_stmt w + 2) /\
        m_created_at row = timestamp_at E (w_txn w) (w_stmt w + 2))
     \/
     (exists stmts msg,
        acts = (stmts ++ [ActEmit (ToSocket sid) {[sid]} (EvError msg)])%list /\
        Forall (fun a => is_emit a = false) stmts /\
        ~ In (ActQuery SqlTouchChatRoom true) stmts)).
Proof.
  intros chatId room. unfold on_message_new, try_catch, bind.
  fold chatId.
  destruct (isUserInChat chatId (JStr userId) E w) as [[canSend|e] w1] eqn:Hin.
  - destruct (isUserInChat_trace _ _ _ _ _ _ Hin) as (Hio1 & Hdb1 & Htxn1 & Hn1 & Htr1).
    cbn [returned] in Htr1.
    destruct canSend; cbn [negb].
    + destruct (saveMessage _ _ _ _ _ E w1) as [[res|e] w2] eqn:Hsave.
      * destruct (saveMessage_returns _ _ _ _ _ _ _ _ _ Hsave)
          as (row & -> & Hmsgs & Hid & Hat & _ & Hio2 & Htr2).
        rewrite emit_eq. do 2 eexists. split; [reflexivity|].
        split; [cbn [w_trace log_action]; rewrite Htr2, Htr1, <- !app_assoc; reflexivity|].
        left. exists row, w1, w2. split; [reflexivity|]. split; [exact Hsave|].
        cbn [recipients w_db log_action]. fold room.
        rewrite Hio2, Hio1. split; [reflexivity|].
        split; [rewrite Hmsgs, Hdb1; reflexivity|].
        rewrite Hid, Hat, Hn1, Htxn1.
        replace (w_stmt w + 2)%nat with (S (S (w_stmt w))) by lia.
        auto.
      * destruct (saveMessage_throws _ _ _ _ _ _ _ _ _ Hsave)
          as (Hio2 & stmts & Htr2 & Hq & Hno).
        rewrite emit_eq. do 2 eexists. split; [reflexivity|].
        split; [cbn [w_trace log_action]; rewrite Htr2, Htr1, <- !app_assoc; reflexivity|].
        right. exists (ActQuery SqlSelectParticipant true :: stmts). eexists.
        split; [reflexivity|]. split; [constructor; [reflexivity|exact Hq]|].
        intros [Hx|Hx]; [discriminate|auto].
    + rewrite emit_eq. do 2 eexists. split; [reflexivity|].
      split; [cbn [w_trace log_action]; rewrite Htr1, <- !app_assoc; reflexivity|].
      right. exists [ActQuery SqlSelectParticipant true]. eexists.
      split; [reflexivity|]. split; [repeat constructor|].
      intros [Hx|[]]. discriminate.
  - destruct (isUserInChat_trace _ _ _ _ _ _ Hin) as (Hio1 & Hdb1 & Htxn1 & Hn1 & Htr1).
    rewrite emit_eq. do 2 eexists. split; [reflexivity|].
    split; [cbn [w_trace log_action]; rewrite Htr1, <- !app_assoc; reflexivity|].
    right. exists [ActQuery SqlSelectParticipant false]. eexists.
    split; [reflexivity|]. split; [repeat constructor|].
    intros [Hx|[]]. discriminate.
Qed.


End Handlers.

(* ===================================================================== *)
(** ** Runs of the server *)
(* ===================================================================== *)

Section Steps.

Lemma query_effects {A} q (st : Z -> string -> statement A) E w r w' :
  (forall now gen db a db', st now gen db = Return (a, db') ->
     chat_participants db' = chat_participants db) ->
  query q st E w = (r, w') ->
  w_io w' = w_io w /\
  chat_participants (w_db w') = chat_participants (w_db w) /\
  w_trace w' = (w_trace w ++ [ActQuery q (returned r)])%list.
Proof.
  intros Hkeep. unfold query. destruct (fault E (w_stmt w)).
  - intros [= <- <-]. auto.
  - destruct (st _ _ _) as [[a db']|e] eqn:Hst; intros [= <- <-]; [|auto].
    apply Hkeep in Hst. auto.
Qed.

Lemma bind_cases {A B} (m : M A) (k : A -> M B) E w r w2 :
  bind m k E w = (r, w2) ->
  (exists e, m E w = (Throw e, w2) /\ r = Throw e) \/
  (exists a w1, m E w = (Return a, w1) /\ k a E w1 = (r, w2)).
Proof.
  unfold bind. destruct (m E w) as [[a|e] w1]; [eauto|]. intros [= <- <-]. eauto.
Qed.

(** Whatever its outcome, [saveMessage] emits nothing and leaves the server
    and the membership rows as they are. *)
Lemma saveMessage_effects chatId senderId content contentType mediaUrl E w r w' :
  saveMessage chatId senderId content contentType mediaUrl E w = (r, w') ->
  w_io w' = w_io w /\
  chat_participants (w_db w') = chat_participants (w_db w) /\
  exists stmts, w_trace w' = (w_trace w ++ stmts)%list /\
                Forall (fun a => is_emit a = false) stmts.
Proof.
  intros Hrun. unfold saveMessage in Hrun.
  assert (Hnone : forall v f w1 r1 w2, validateUuid v f E w1 = (r1, w2) -> w2 = w1).
  { intros v f w1 r1 w2. destruct (js_isValidUuid v) eqn:Hv.
    - rewrite validateUuid_valid by assumption. congruence.
    - destruct (validateUuid_invalid v f E w1 Hv) as [msg ->]. congruence. }
  apply bind_cases in Hrun. destruct Hrun as [(e & Hv & _)|([] & wa & Hv & Hrun)].
  { apply Hnone in Hv. subst. repeat split. exists []. rewrite app_nil_r. auto. }
  apply Hnone in Hv. subst wa.
  apply bind_cases in Hrun. destruct Hrun as [(e & Hv & _)|([] & wa & Hv & Hrun)].
  { apply Hnone in Hv. subst. repeat split. exists []. rewrite app_nil_r. auto. }
  apply Hnone in Hv. subst wa.
  rewrite try_rethrow in Hrun.
  apply bind_cases in Hrun. destruct Hrun as [(e & Hin & _)|(canSend & w1 & Hin & Hrun)].
  { apply isUserInChat_trace in Hin. destruct Hin as (Hio & Hdb & _ & _ & Htr).
    rewrite Hdb. repeat split; [exact Hio|]. eexists. split; [exact Htr|repeat constructor]. }
  apply isUserInChat_trace in Hin. destruct Hin as (Hio1 & Hdb1 & _ & _ & Htr1).
  destruct canSend; cbn [negb] in Hrun.
  2:{ injection Hrun as _ <-. rewrite Hdb1. repeat split; [exact Hio1|].
      eexists. split; [exact Htr1|repeat constructor]. }
  apply bind_cases in Hrun. destruct Hrun as [(e & Hq & _)|(rows & w2 & Hq & Hrun)].
  { apply query_effects in Hq.
    - destruct Hq as (Hio2 & Hp2 & Htr2). rewrite Hp2, Hdb1, Hio2.
      repeat split; [exact Hio1|]. eexists.
      split; [rewrite Htr2, Htr1, <- app_assoc; reflexivity|repeat constructor].
    - intros now gen db a db' Hst. apply insert_message_returns in Hst.
      destruct Hst as (row & ty & _ & _ & _ & _ & _ & _ & _ & _ & _ & _ & ->).
      reflexivity. }
  apply query_effects in Hq.
  2:{ intros now gen db a db' Hst. apply insert_message_returns in Hst.
      destruct Hst as (row & ty & _ & _ & _ & _ & _ & _ & _ & _ & _ & _ & ->).
      reflexivity. }
  destruct Hq as (Hio2 & Hp2 & Htr2).
  assert (Htouch : forall now (gen : string) db a db',
            touch_chat_room now chatId db = Return (a, db') ->
            chat_participants db' = chat_participants db).
  { intros now gen db a db' Hst. apply touch_chat_room_returns in Hst. apply Hst. }
  apply bind_cases in Hrun. destruct Hrun as [(e & Hq & _)|(n & w3 & Hq & Hrun)].
  - apply query_effects in Hq; [|exact Htouch].
    destruct Hq as (Hio3 & Hp3 & Htr3). rewrite Hp3, Hp2, Hdb1, Hio3, Hio2.
    repeat split; [exact Hio1|]. eexists.
    split; [rewrite Htr3, Htr2, Htr1, <- !app_assoc; reflexivity|repeat constructor].
  - apply query_effects in Hq; [|exact Htouch].
    destruct Hq as (Hio3 & Hp3 & Htr3). injection Hrun as _ <-.
    rewrite Hp3, Hp2, Hdb1, Hio3, Hio2.
    repeat split; [exact Hio1|]. eexists.
    split; [rewrite Htr3, Htr2, Htr1, <- !app_assoc; reflexivity|repeat constructor].
Qed.


Lemma markMessageAsRead_effects messageId userId E w r w' :
  markMessageAsRead messageId userId E w = (r, w') -> w' = w.
Proof.
  unfold markMessageAsRead, bind, try_catch, ret.
  destruct (js_isValidUuid messageId) eqn:Hm.
  - rewrite validateUuid_valid by assumption.
    destruct (js_isValidUuid userId) eqn:Hu.
    + rewrite validateUuid_valid by assumption. congruence.
    + destruct (validateUuid_invalid userId "User ID" E w Hu) as [msg ->]. congruence.
  - destruct (validateUuid_invalid messageId "Message ID" E w Hm) as [msg ->]. congruence.
Qed.

(** The handler of [message:new] sends statements and ends with one
    emission: the message to the room, or an error to the sender. *)
Lemma on_message_new_effects sid userId data E w :
  exists w' stmts to ev,
    on_message_new sid userId data E w = (Return tt, w') /\
    w_io w' = w_io w /\
    chat_participants (w_db w') = chat_participants (w_db w) /\
    w_trace w' = (w_trace w ++ stmts ++ [ActEmit to (recipients to (w_io w)) ev])%list /\
    Forall (fun a => is_emit a = false) stmts /\
    emission_of (InMessageNew sid data) to ev.
Proof.
  unfold on_message_new, try_catch, bind.
  destruct (isUserInChat (md_chatId data) (JStr userId) E w) as [[canSend|e] w1] eqn:Hin;
    destruct (isUserInChat_trace _ _ _ _ _ _ Hin) as (Hio1 & Hdb1 & _ & _ & Htr1);
    cbn [returned] in Htr1.
  - destruct canSend; cbn [negb].
    + destruct (saveMessage _ _ _ _ _ E w1) as [[res|e] w2] eqn:Hsave;
        destruct (saveMessage_effects _ _ _ _ _ _ _ _ _ Hsave)
          as (Hio2 & Hp2 & stmts & Htr2 & Hq);
        rewrite emit_eq; eexists.
      * exists (ActQuery SqlSelectParticipant true :: stmts),
          (ToRoom (chat_room_of (md_chatId data))), (EvMessageNew res).
        split; [reflexivity|].
        cbn [w_io w_db w_trace log_action]. rewrite Hio2, Hio1, Hp2, Hdb1, Htr2, Htr1.
        split; [reflexivity|]. split; [reflexivity|].
        split; [rewrite <- !app_assoc; reflexivity|].
        split; [constructor; [reflexivity|exact Hq]|]. cbn [emission_of]. eauto.
      * exists (ActQuery SqlSelectParticipant true :: stmts),
          (ToSocket sid), (EvError "Failed to send message").
        split; [reflexivity|].
        cbn [w_io w_db w_trace log_action]. rewrite Hio2, Hio1, Hp2, Hdb1, Htr2, Htr1.
        split; [reflexivity|]. split; [reflexivity|].
        split; [rewrite <- !app_assoc; reflexivity|].
        split; [constructor; [reflexivity|exact Hq]|]. cbn [emission_of]. eauto.
    + rewrite emit_eq. eexists.
      exists [ActQuery SqlSelectParticipant true], (ToSocket sid),
        (EvError "Not authorized to send message").
      split; [reflexivity|].
      cbn [w_io w_db w_trace log_action]. rewrite Hio1, Hdb1, Htr1.
      split; [reflexivity|]. split; [reflexivity|].
      split; [rewrite <- !app_assoc; reflexivity|].
      split; [repeat constructor|]. cbn [emission_of]. eauto.
  - rewrite emit_eq. eexists.
    exists [ActQuery SqlSelectParticipant false], (ToSocket sid),
      (EvError "Failed to send message").
    split; [reflexivity|].
    cbn [w_io w_db w_trace log_action]. rewrite Hio1, Hdb1, Htr1.
    split; [reflexivity|]. split; [reflexivity|].
    split; [rewrite <- !app_assoc; reflexivity|].
    split; [repeat constructor|]. cbn [emission_of]. eauto.
Qed.

Lemma Forall_action_of_queries i srv stmts :
  Forall (fun a => is_emit a = false) stmts -> Forall (action_of i srv) stmts.
Proof.
  intros Hq. eapply Forall_impl; [exact Hq|].
  intros [q ok|to rc ev]; [constructor|discriminate].
Qed.

(** The effects of a handler that has been reduced to one emission. *)
Ltac single_emission :=
  do 2 eexists; split; [reflexivity|];
  cbn [w_trace w_db w_io log_action with_io];
  split; [reflexivity|]; split; [reflexivity|];
  constructor; [|constructor].

(** Every input is handled without an exception; its handler extends the
    trace with statements and with its own emissions, and writes no
    membership row. *)
Lemma step_effects i E w :
  exists w' acts,
    step i E w = (Return tt, w') /\
    w_trace w' = (w_trace w ++ acts)%list /\
    chat_participants (w_db w') = chat_participants (w_db w) /\
    Forall (action_of i (w_io w)) acts.
Proof.
  assert (Hidle : exists w' acts,
            (Return tt, w) = (Return tt, w') /\
            w_trace w' = (w_trace w ++ acts)%list /\
            chat_participants (w_db w') = chat_participants (w_db w) /\
            Forall (action_of i (w_io w)) acts).
  { exists w, []. rewrite app_nil_r. auto. }
  destruct i as [sid u|sid c|sid c|sid data|sid c|sid c|sid d|sid|ms];
    unfold step, with_socket, bind, get_io; cbn [ret];
    try (destruct (sockets (w_io w) !! sid) as [sk|]; [|exact Hidle]);
    try exact Hidle.
  - destruct (negb (truthy (JStr u))); [exact Hidle|]. cbv beta iota.
    destruct (sockets (w_io w) !! sid); [exact Hidle|].
    unfold on_connection, bind, modify_io, emit. single_emission.
    split; [split; reflexivity|]. intros Hne. exfalso. apply Hne. reflexivity.
  - unfold on_chat_join, try_catch, bind, modify_io, ret.
    destruct (isUserInChat c (JStr (sk_user sk)) E w) as [[[]|e] w1] eqn:Hin;
      destruct (isUserInChat_trace _ _ _ _ _ _ Hin) as (Hio1 & Hdb1 & _ & _ & Htr1);
      do 2 eexists; (split; [reflexivity|]);
      cbn [w_trace w_db w_io log_action with_io]; rewrite Hdb1;
      (split; [exact Htr1|]); (split; [reflexivity|]); repeat constructor.
  - unfold on_chat_leave, modify_io.
    do 2 eexists. split; [reflexivity|].
    cbn [w_trace w_db w_io log_action with_io].
    split; [symmetry; apply app_nil_r|]. auto.
  - destruct (on_message_new_effects sid (sk_user sk) data E w)
      as (w' & stmts & to & ev & Hrun & Hio & Hp & Htr & Hq & Hev).
    do 2 eexists. split; [exact Hrun|]. split; [exact Htr|]. split; [exact Hp|].
    apply Forall_app. split; [apply Forall_action_of_queries, Hq|].
    constructor; [|constructor]. split; [exact Hev|]. intros _. reflexivity.
  - unfold on_typing_start, emit. single_emission.
    split; [split; eauto|]. intros _. reflexivity.
  - unfold on_typing_stop, emit. single_emission.
    split; [split; eauto|]. intros _. reflexivity.
  - unfold on_message_read, try_catch, bind.
    destruct (markMessageAsRead _ _ E w) as [[[]|e] w1] eqn:Hread;
      apply markMessageAsRead_effects in Hread; subst w1; [|exact Hidle].
    unfold emit. single_emission.
    split; [split; eauto|]. intros _. reflexivity.
  - unfold on_disconnect, bind, modify_io, emit. single_emission.
    split; [split; eauto|]. intros Hne. exfalso. apply Hne. reflexivity.
Qed.


(** The traces of a run: every emission is an emission of one of the inputs. *)
Lemma run_effects ins E w :
  exists w' acts,
    run ins E w = (Return tt, w') /\
    w_trace w' = (w_trace w ++ acts)%list /\
    chat_participants (w_db w') = chat_participants (w_db w) /\
    forall to rc ev, In (ActEmit to rc ev) acts ->
      exists i, In i ins /\ emission_of i to ev.
Proof.
  revert w. induction ins as [|i rest IH]; intros w.
  - exists w, []. rewrite app_nil_r. repeat split. intros to rc ev [].
  - destruct (step_effects i E w) as (w1 & acts1 & Hstep & Htr1 & Hp1 & Hacts1).
    destruct (IH w1) as (w2 & acts2 & Hrun & Htr2 & Hp2 & Hacts2).
    exists w2, (acts1 ++ acts2)%list.
    cbn [run]. unfold bind. rewrite Hstep.
    split; [exact Hrun|]. split; [rewrite Htr2, Htr1, app_assoc; reflexivity|].
    split; [congruence|].
    intros to rc ev Hin. apply in_app_or in Hin. destruct Hin as [Hin|Hin].
    + rewrite Forall_forall in Hacts1. apply list_elem_of_In, Hacts1 in Hin.
      destruct Hin as [Hev _]. exists i. split; [left; reflexivity|exact Hev].
    + destruct (Hacts2 _ _ _ Hin) as (i' & Hi' & Hev). exists i'. split; [right|]; assumption.
Qed.

(** A connection is announced to every connected socket, whoever its user
    is. *)
Lemma connection_is_announced_to_everyone E w sid userId :
  userId <> "" ->
  sockets (w_io w) !! sid = None ->
  exists w',
    step (InConnect sid userId) E w = (Return tt, w') /\
    w_trace w' =
      (w_trace w ++ [ActEmit ToAll ({[sid]} ∪ dom (sockets (w_io w)))
                       (EvUserStatus userId "online")])%list /\
    activeUsers (w_io w') = <[userId := sid]> (activeUsers (w_io w)).
Proof.
  intros Huser Hnew.
  assert (Hid : negb (truthy (JStr userId)) = false).
  { cbn [truthy]. destruct (String.eqb_spec userId ""); [contradiction|reflexivity]. }
  unfold step. rewrite Hid. unfold bind, get_io. cbn [ret]. rewrite Hnew.
  unfold on_connection, bind, modify_io, emit.
  eexists. split; [reflexivity|].
  cbn [w_trace w_io log_action with_io recipients].
  split; [|reflexivity].
  unfold socket_join, set_activeUsers, set_sockets. cbn [sockets].
  rewrite dom_alter_L, dom_insert_L. reflexivity.
Qed.

(** The closing of a socket is announced as the user going offline and
    removes the user from [activeUsers], also when another socket of the
    same user stays connected. *)
Lemma disconnection_is_announced_as_offline E w sid sk :
  sockets (w_io w) !! sid = Some sk ->
  exists w',
    step (InDisconnect sid) E w = (Return tt, w') /\
    w_trace w' =
      (w_trace w ++ [ActEmit ToAll (dom (sockets (w_io w)) ∖ {[sid]})
                       (EvUserStatus (sk_user sk) "offline")])%list /\
    activeUsers (w_io w') !! sk_user sk = None /\
    forall sid', sid' <> sid -> sockets (w_io w') !! sid' = sockets (w_io w) !! sid'.
Proof.
  intros Hsk. unfold step, with_socket, bind, get_io. cbn [ret]. rewrite Hsk.
  unfold on_disconnect, bind, modify_io, emit.
  eexists. split; [reflexivity|].
  cbn [w_trace w_io log_action with_io recipients].
  unfold set_activeUsers, set_sockets. cbn [sockets activeUsers].
  split; [rewrite dom_delete_L; reflexivity|].
  split; [apply lookup_delete_eq|].
  intros sid' Hne. apply lookup_delete_ne. congruence.
Qed.

(** C7 (amended).  The server keeps no typing state and sets no timer: in
    every run, of any inputs and any length of time, a [typing:stop] event
    is emitted for a chat only when a client has sent [typing:stop] for
    that chat; and a [typing:stop] sent by a connected socket is relayed at
    once to the other sockets of the room. *)
Theorem typing_stop_only_on_request E w ins :
  exists w' acts,
    run ins E w = (Return tt, w') /\
    w_trace w' = (w_trace w ++ acts)%list /\
    (forall to rc u c,
       In (ActEmit to rc (EvTypingStop u c)) acts ->
       exists sid, In (InTypingStop sid c) ins) /\
    (forall sid sk c,
       sockets (w_io w) !! sid = Some sk ->
       let room := chat_room_of c in
       step (InTypingStop sid c) E w =
         (Return tt,
          log_action (ActEmit (ToRoomExcept sid room) (in_room room (w_io w) ∖ {[sid]})
                        (EvTypingStop (sk_user sk) c)) w)).
Proof.
  destruct (run_effects ins E w) as (w' & acts & Hrun & Htr & _ & Hacts).
  exists w', acts. split; [exact Hrun|]. split; [exact Htr|]. split.
  - intros to rc u c Hin. destruct (Hacts _ _ _ Hin) as (i & Hi & Hev).
    destruct i as [sid u'|sid c'|sid c'|sid data|sid c'|sid c'|sid d|sid|ms];
      cbn [emission_of] in Hev.
    + destruct Hev as [_ Hev]. discriminate.
    + contradiction.
    + contradiction.
    + destruct Hev as [[_ [m Hev]]|[_ [msg Hev]]]; discriminate.
    + destruct Hev as [_ [u' Hev]]. discriminate.
    + destruct Hev as [_ [u' Hev]]. injection Hev as _ <-. exists sid. exact Hi.
    + destruct Hev as [_ [u' Hev]]. discriminate.
    + destruct Hev as [_ [u' Hev]]. discriminate.
    + contradiction.
  - intros sid sk c Hsk room. unfold step, with_socket, bind, get_io. cbn [ret].
    rewrite Hsk. reflexivity.
Qed.


Lemma elem_of_in_room sid room srv :
  sid ∈ in_room room srv <->
  exists sk, sockets srv !! sid = Some sk /\ room ∈ sk_rooms sk.
Proof.
  unfold in_room. rewrite elem_of_dom. unfold is_Some.
  split.
  - intros [sk Hsk]. apply map_lookup_filter_Some in Hsk. destruct Hsk as [Hsk Hin].
    exists sk. auto.
  - intros (sk & Hsk & Hin). exists sk. apply map_lookup_filter_Some. auto.
Qed.

(** The membership test of the handlers is membership in the database. *)
Lemma isUserInChat_member chatId userId E w b w1 :
  isUserInChat chatId (JStr userId) E w = (Return b, w1) ->
  b = member (w_db w) chatId userId.
Proof.
  intros Hin. apply isUserInChat_returns in Hin.
  destruct Hin as (_ & c & u & Hc & Hu & -> & _).
  unfold member. rewrite Hc, Hu.
  destruct c as [c|]; [destruct u as [u|]|].
  - apply select_participant_rows.
  - unfold participant_matches, eq_param.
    induction (chat_participants (w_db w)) as [|r l IH]; [reflexivity|].
    rewrite filter_cons, andb_false_r, decide_False by discriminate. exact IH.
  - unfold participant_matches, eq_param.
    induction (chat_participants (w_db w)) as [|r l IH]; [reflexivity|].
    rewrite filter_cons. cbn [andb]. rewrite decide_False by discriminate. exact IH.
Qed.

Lemma member_participants db db' chatId userId :
  chat_participants db' = chat_participants db ->
  member db' chatId userId = member db chatId userId.
Proof. unfold member, is_participant. intros ->. reflexivity. Qed.

(** Identifiers that name the same room denote the same conversation. *)
Lemma member_same_room db a b userId :
  chat_room_of a = chat_room_of b -> member db a userId = member db b userId.
Proof.
  unfold chat_room_of. intros Hroom. injection Hroom as Hs.
  destruct a as [| |x], b as [| |y]; cbv [String.append to_string] in Hs;
    try discriminate; try reflexivity; subst; reflexivity.
Qed.


Lemma sockets_socket_join sid room srv sid' :
  sockets (socket_join sid room srv) !! sid' =
    if decide (sid = sid') then
      (fun sk => {| sk_user := sk_user sk; sk_rooms := {[room]} ∪ sk_rooms sk |})
        <$> sockets srv !! sid
    else sockets srv !! sid'.
Proof. unfold socket_join, set_sockets. cbn [sockets]. apply lookup_alter. Qed.

Lemma sockets_socket_leave sid room srv sid' :
  sockets (socket_leave sid room srv) !! sid' =
    if decide (sid = sid') then
      (fun sk => {| sk_user := sk_user sk; sk_rooms := sk_rooms sk ∖ {[room]} |})
        <$> sockets srv !! sid
    else sockets srv !! sid'.
Proof. unfold socket_leave, set_sockets. cbn [sockets]. apply lookup_alter. Qed.

(** The event of a socket that is not connected runs nothing: what remains
    is the case of a connected socket [sk0]. *)
Ltac connected_socket s Hstep Hout :=
  destruct (sockets _ !! s) as [sk0|] eqn:Hs; [|injection Hstep as <-; exact Hout].

(** A socket joins the room of a conversation only when its user is a
    member: a step keeps a socket of a non-member outside the room. *)
Lemma step_outside i E w w' sid userId chatId :
  outside (w_io w) sid userId (chat_room_of chatId) ->
  member (w_db w) chatId userId = false ->
  (forall u, i <> InConnect sid u) ->
  step i E w = (Return tt, w') ->
  outside (w_io w') sid userId (chat_room_of chatId).
Proof.
  intros Hout Hmem Hne Hstep.
  destruct i as [s u|s c|s c|s data|s c|s c|s d|s|ms];
    unfold step, with_socket, bind, get_io in Hstep; cbn [ret] in Hstep.
  - destruct (negb (truthy (JStr u))); [injection Hstep as <-; exact Hout|].
    cbv beta iota in Hstep.
    destruct (sockets (w_io w) !! s) eqn:Hs; [injection Hstep as <-; exact Hout|].
    unfold on_connection, bind, modify_io, emit in Hstep. injection Hstep as <-.
    cbn [w_io log_action with_io]. intros sk.
    assert (s <> sid) by (intros ->; apply (Hne u); reflexivity).
    rewrite sockets_socket_join, decide_False by assumption.
    unfold set_activeUsers, set_sockets. cbn [sockets].
    rewrite lookup_insert_ne by assumption. apply Hout.
  - connected_socket s Hstep Hout.
    unfold on_chat_join, try_catch, bind, modify_io, ret in Hstep.
    destruct (isUserInChat c (JStr (sk_user sk0)) E w) as [[[]|e] w1] eqn:Hin;
      destruct (isUserInChat_trace _ _ _ _ _ _ Hin) as (Hio1 & _);
      injection Hstep as <-; cbn [w_io with_io]; rewrite Hio1; [|exact Hout|exact Hout].
    apply isUserInChat_member in Hin.
    intros sk. rewrite sockets_socket_join. destruct (decide (s = sid)) as [->|Hother].
    + rewrite Hs. cbn [fmap option_fmap option_map]. intros [= <-]. cbn [sk_user sk_rooms].
      destruct (Hout sk0 Hs) as [Huser Hroom]. split; [exact Huser|].
      intros Hjoined. apply elem_of_union in Hjoined. destruct Hjoined as [Hnew|Hold].
      * apply elem_of_singleton in Hnew.
        rewrite (member_same_room _ _ _ _ Hnew) in Hmem. rewrite Huser in Hin. congruence.
      * contradiction.
    + apply Hout.
  - connected_socket s Hstep Hout.
    unfold on_chat_leave, modify_io in Hstep. injection Hstep as <-.
    cbn [w_io with_io]. intros sk. rewrite sockets_socket_leave.
    destruct (decide (s = sid)) as [->|Hother]; [|apply Hout].
    rewrite Hs. cbn [fmap option_fmap option_map]. intros [= <-]. cbn [sk_user sk_rooms].
    destruct (Hout sk0 Hs) as [Huser Hroom]. split; [exact Huser|].
    intros Hin. apply elem_of_difference in Hin. destruct Hin as [Hin _]. contradiction.
  - connected_socket s Hstep Hout.
    destruct (on_message_new_effects s (sk_user sk0) data E w)
      as (w2 & stmts & to & ev & Hrun & Hio & _).
    rewrite Hrun in Hstep. injection Hstep as <-. rewrite Hio. exact Hout.
  - destruct (sockets (w_io w) !! s) as [sk0|] eqn:Hs; injection Hstep as <-; exact Hout.
  - destruct (sockets (w_io w) !! s) as [sk0|] eqn:Hs; injection Hstep as <-; exact Hout.
  - connected_socket s Hstep Hout.
    unfold on_message_read, try_catch, bind in Hstep.
    destruct (markMessageAsRead _ _ E w) as [[[]|e] w1] eqn:Hread;
      apply markMessageAsRead_effects in Hread; subst w1;
      injection Hstep as <-; exact Hout.
  - connected_socket s Hstep Hout.
    unfold on_disconnect, bind, modify_io, emit in Hstep. injection Hstep as <-.
    cbn [w_io log_action with_io]. intros sk.
    unfold set_activeUsers, set_sockets. cbn [sockets].
    rewrite lookup_delete. destruct (decide (s = sid)); [discriminate|apply Hout].
  - injection Hstep as <-. exact Hout.
Qed.


Lemma outside_not_recipient srv sid userId room to :
  outside srv sid userId room -> to_room room to = true -> sid ∉ recipients to srv.
Proof.
  intros Hout Hto Hin.
  assert (Hroom : sid ∈ in_room room srv).
  { destruct to as [|r|s r|s]; cbn [to_room] in Hto; try discriminate;
      apply String.eqb_eq in Hto; subst r; cbn [recipients] in Hin.
    - exact Hin.
    - apply elem_of_difference in Hin. apply Hin. }
  apply elem_of_in_room in Hroom. destruct Hroom as (sk & Hsk & Hjoined).
  destruct (Hout sk Hsk) as [_ Hnot]. contradiction.
Qed.

(** In a run, a socket of a non-member that starts outside the room of a
    conversation receives none of the events sent to that room. *)
Lemma run_outside ins E w sid userId chatId :
  outside (w_io w) sid userId (chat_room_of chatId) ->
  member (w_db w) chatId userId = false ->
  (forall u, ~ In (InConnect sid u) ins) ->
  exists w' acts,
    run ins E w = (Return tt, w') /\
    w_trace w' = (w_trace w ++ acts)%list /\
    forall to rc ev,
      In (ActEmit to rc ev) acts -> to_room (chat_room_of chatId) to = true -> sid ∉ rc.
Proof.
  revert w. induction ins as [|i rest IH]; intros w Hout Hmem Hfresh.
  - exists w, []. rewrite app_nil_r. repeat split. intros to rc ev [].
  - destruct (step_effects i E w) as (w1 & acts1 & Hstep & Htr1 & Hp1 & Hacts1).
    assert (Hout1 : outside (w_io w1) sid userId (chat_room_of chatId)).
    { eapply step_outside; [exact Hout|exact Hmem| |exact Hstep].
      intros u ->. apply (Hfresh u). left. reflexivity. }
    assert (Hmem1 : member (w_db w1) chatId userId = false).
    { rewrite (member_participants _ _ _ _ Hp1). exact Hmem. }
    destruct (IH w1 Hout1 Hmem1) as (w2 & acts2 & Hrun & Htr2 & Hacts2).
    { intros u Hin. apply (Hfresh u). right. exact Hin. }
    exists w2, (acts1 ++ acts2)%list.
    cbn [run]. unfold bind. rewrite Hstep.
    split; [exact Hrun|]. split; [rewrite Htr2, Htr1, app_assoc; reflexivity|].
    intros to rc ev Hin Hto. apply in_app_or in Hin. destruct Hin as [Hin|Hin].
    + rewrite Forall_forall in Hacts1. apply list_elem_of_In, Hacts1 in Hin.
      destruct Hin as [_ Hrc]. rewrite Hrc.
      * eapply outside_not_recipient; eassumption.
      * intros ->. discriminate.
    + eapply Hacts2; eassumption.
Qed.

(** C2 (amended).  When the user of a socket is not a member of the
    conversation, a [chat:join] request of that socket is silently dropped:
    the handler sends the membership query and emits nothing (no error
    event, to the socket or to anyone else), and leaves the server and the
    database unchanged.  The socket stays outside the room, and in every
    later run in which the socket id is not connected anew, no event sent
    to the room of the conversation reaches the socket. *)
Theorem join_by_non_member_is_dropped E w sid sk chatId ins :
  sockets (w_io w) !! sid = Some sk ->
  member (w_db w) chatId (sk_user sk) = false ->
  chat_room_of chatId ∉ sk_rooms sk ->
  (forall u, ~ In (InConnect sid u) ins) ->
  exists w1 ok w2 acts,
    step (InChatJoin sid chatId) E w = (Return tt, w1) /\
    w_io w1 = w_io w /\
    w_db w1 = w_db w /\
    w_trace w1 = (w_trace w ++ [ActQuery SqlSelectParticipant ok])%list /\
    run ins E w1 = (Return tt, w2) /\
    w_trace w2 = (w_trace w1 ++ acts)%list /\
    forall to rc ev,
      In (ActEmit to rc ev) acts -> to_room (chat_room_of chatId) to = true -> sid ∉ rc.
Proof.
  intros Hsk Hmem Hroom Hfresh.
  assert (Hout : outside (w_io w) sid (sk_user sk) (chat_room_of chatId)).
  { intros sk' Hsk'. rewrite Hsk in Hsk'. injection Hsk' as <-. auto. }
  assert (Hjoin : exists w1 ok,
            step (InChatJoin sid chatId) E w = (Return tt, w1) /\
            w_io w1 = w_io w /\ w_db w1 = w_db w /\
            w_trace w1 = (w_trace w ++ [ActQuery SqlSelectParticipant ok])%list).
  { unfold step, with_socket, bind, get_io. cbn [ret]. rewrite Hsk.
    unfold on_chat_join, try_catch, bind, modify_io, ret.
    destruct (isUserInChat chatId (JStr (sk_user sk)) E w) as [[canJoin|e] w1] eqn:Hin;
      destruct (isUserInChat_trace _ _ _ _ _ _ Hin) as (Hio1 & Hdb1 & _ & _ & Htr1).
    - apply isUserInChat_member in Hin. rewrite Hmem in Hin. subst canJoin.
      exists w1. eexists. repeat split; eassumption.
    - exists w1. eexists. repeat split; eassumption. }
  destruct Hjoin as (w1 & ok & Hstep & Hio1 & Hdb1 & Htr1).
  destruct (run_outside ins E w1 sid (sk_user sk) chatId) as (w2 & acts & Hrun & Htr2 & Hacts).
  - rewrite Hio1. exact Hout.
  - rewrite Hdb1. exact Hmem.
  - exact Hfresh.
  - exists w1, ok, w2, acts. repeat split; assumption.
Qed.

End Steps.

(* ===================================================================== *)
(** ** The handlers on the concrete deployment *)
(* ===================================================================== *)

Section Closed.

Lemma carol_is_in_no_chat c : is_participant db0 c carol = false.
Proof.
  unfold is_participant. cbn [db0 chat_participants existsb cp_user_id cp_chat_room_id].
  replace (String.eqb alice carol) with false by reflexivity.
  replace (String.eqb bob carol) with false by reflexivity.
  rewrite !andb_false_r. reflexivity.
Qed.

(** C5 fails on the code.  Carol shares no conversation with alice, and
    her socket receives both the online and the offline event of alice:
    presence events are sent with [io.emit] to every connected socket. *)
Theorem presence_reaches_strangers :
  let w := after calm [InConnect "s-carol" carol; InConnect "s-alice" alice;
                       InDisconnect "s-alice"] in
  (forall c, is_participant db0 c alice = true -> is_participant db0 c carol = false) /\
  w_trace w =
    [ActEmit ToAll {["s-carol"]} (EvUserStatus carol "online");
     ActEmit ToAll {["s-carol"; "s-alice"]} (EvUserStatus alice "online");
     ActEmit ToAll {["s-carol"]} (EvUserStatus alice "offline")].
Proof.
  split.
  - intros c _. apply carol_is_in_no_chat.
  - vm_compute. reflexivity.
Qed.

(** C6 fails on the code.  Alice is connected from two devices; when the
    first one disconnects, the offline event of alice is emitted (to her
    other device and to bob) and alice is removed from [activeUsers],
    although her second socket is still connected. *)
Theorem offline_with_live_connection :
  let w := after calm [InConnect "phone" alice; InConnect "laptop" alice;
                       InConnect "s-bob" bob; InDisconnect "phone"] in
  last (w_trace w) =
    Some (ActEmit ToAll {["laptop"; "s-bob"]} (EvUserStatus alice "offline")) /\
  sk_user <$> sockets (w_io w) !! "laptop" = Some alice /\
  activeUsers (w_io w) !! alice = None.
Proof. vm_compute. repeat split. Qed.

(** C7 as stated fails: alice starts typing, bob is told so, and an hour
    later no [typing:stop] has been emitted. *)
Lemma typing_never_expires :
  let w := after calm [InConnect "s-alice" alice; InConnect "s-bob" bob;
                       InChatJoin "s-alice" (JStr team); InChatJoin "s-bob" (JStr team);
                       InTypingStart "s-alice" (JStr team); InTick 3600000] in
  In (ActEmit (ToRoomExcept "s-alice" (chat_room_of (JStr team))) {["s-bob"]}
        (EvTypingStart alice (JStr team))) (w_trace w) /\
  ~ exists to rc u c, In (ActEmit to rc (EvTypingStop u c)) (w_trace w).
Proof.
  split.
  - vm_compute. do 4 right. left. reflexivity.
  - vm_compute. intros (to & rc & u & c & Hin).
    repeat (destruct Hin as [Hin|Hin]; [discriminate|]). exact Hin.
Qed.

(** C2 as stated fails: carol is not a member of [team]; her request to
    join runs the membership query and no error event is emitted. *)
Lemma join_by_non_member_emits_no_error :
  let w := after calm [InConnect "s-carol" carol] in
  let w' := snd (step (InChatJoin "s-carol" (JStr team)) calm w) in
  member (w_db w) (JStr team) carol = false /\
  added w w' = [ActQuery SqlSelectParticipant true] /\
  ~ exists to rc msg, In (ActEmit to rc (EvError msg)) (w_trace w').
Proof.
  split; [vm_compute; reflexivity|]. split; [vm_compute; reflexivity|].
  vm_compute. intros (to & rc & msg & Hin).
  repeat (destruct Hin as [Hin|Hin]; [discriminate|]). exact Hin.
Qed.

(** The broadcast of C1 on the deployment: alice's message reaches the
    sockets of alice and bob, who joined the room, and not carol's. *)
Lemma message_new_broadcast_example :
  let data := {| md_chatId := JStr team; md_content := JStr "hi";
                 md_contentType := JUndefined; md_mediaUrl := JUndefined |} in
  let w := after calm [InConnect "s-alice" alice; InConnect "s-bob" bob;
                       InConnect "s-carol" carol;
                       InChatJoin "s-alice" (JStr team); InChatJoin "s-bob" (JStr team);
                       InChatJoin "s-carol" (JStr team)] in
  let w' := snd (step (InMessageNew "s-alice" data) calm w) in
  exists row,
    last (w_trace w') =
      Some (ActEmit (ToRoom (chat_room_of (JStr team))) {["s-alice"; "s-bob"]}
              (EvMessageNew (Some row))) /\
    In row (messages (w_db w')) /\
    m_content row = "hi" /\ m_sender_id row = alice /\ m_chat_room_id row = team.
Proof. vm_compute. eexists. split; [reflexivity|]. repeat split. right. left. reflexivity. Qed.


(** Carol asks to join [team]; then alice posts, bob types and carol asks
    again. *)
Lemma join_by_non_member_is_dropped_witness :
  exists w1 ok w2 acts,
    step (InChatJoin "s-carol" (JStr team)) calm lobby = (Return tt, w1) /\
    w_io w1 = w_io lobby /\
    w_db w1 = w_db lobby /\
    w_trace w1 = (w_trace lobby ++ [ActQuery SqlSelectParticipant ok])%list /\
    run chatter calm w1 = (Return tt, w2) /\
    w_trace w2 = (w_trace w1 ++ acts)%list /\
    forall to rc ev,
      In (ActEmit to rc ev) acts -> to_room (chat_room_of (JStr team)) to = true ->
      "s-carol" ∉ rc.
Proof.
  apply (join_by_non_member_is_dropped calm lobby "s-carol"
           {| sk_user := carol; sk_rooms := {["s-carol"; user_room_of carol]} |}).
  - vm_compute. reflexivity.
  - vm_compute. reflexivity.
  - apply (bool_decide_unpack _). vm_compute. exact I.
  - intros u [Hin|[Hin|[Hin|[]]]]; discriminate.
Defined.


(** A run in which bob stops typing: the event in the trace goes back to
    his request. *)
Lemma typing_stop_only_on_request_witness :
  exists sid, In (InTypingStop sid (JStr team)) [InTypingStop "s-bob" (JStr team)].
Proof.
  destruct (typing_stop_only_on_request calm lobby [InTypingStop "s-bob" (JStr team)])
    as (w' & acts & Hrun & Htr & Honly & _).
  apply (Honly (ToRoomExcept "s-bob" (chat_room_of (JStr team))) {["s-alice"]} bob).
  assert (Hacts : acts = added lobby w') by (symmetry; apply added_app; exact Htr).
  rewrite Hacts.
  assert (Hw' : w' = snd (run [InTypingStop "s-bob" (JStr team)] calm lobby))
    by (rewrite Hrun; reflexivity).
  rewrite Hw'. vm_compute. left. reflexivity.
Defined.

End Closed.

(* ===================================================================== *)
(** ** The other statements: how they run *)
(* ===================================================================== *)

Section Statements.

Lemma run_query_available {A} (st : Z -> string -> statement A) E w :
  fault E (w_stmt w) = false ->
  run_query st E w =
    match st (timestamp_at E (w_txn w) (w_stmt w)) (pg_uuid E (w_stmt w)) (w_db w) with
    | Return (a, db') => (Return a, with_db db' (sent w))
    | Throw e => (Throw e, sent w)
    end.
Proof. intros Hf. unfold run_query. rewrite Hf. reflexivity. Qed.

Lemma run_query_returns {A} (st : Z -> string -> statement A) E w a w1 :
  run_query st E w = (Return a, w1) ->
  fault E (w_stmt w) = false /\
  exists db', st (timestamp_at E (w_txn w) (w_stmt w)) (pg_uuid E (w_stmt w)) (w_db w) =
                Return (a, db') /\
              w1 = with_db db' (sent w).
Proof.
  unfold run_query. destruct (fault E (w_stmt w)); [discriminate|].
  destruct (st _ _ _) as [[a' db']|e]; [|discriminate].
  intros [= <- <-]. eauto.
Qed.

Lemma run_query_throws {A} (st : Z -> string -> statement A) E w e w1 :
  run_query st E w = (Throw e, w1) -> w1 = sent w.
Proof.
  unfold run_query. destruct (fault E (w_stmt w)); [intros [= _ <-]; reflexivity|].
  destruct (st _ _ _) as [[a' db']|e']; [discriminate|].
  intros [= _ <-]. reflexivity.
Qed.

(** What a statement leaves alone when it fails or only reads. *)
Lemma run_query_reads {A} (st : Z -> string -> statement A) E w r w1 :
  (forall now gen db a db', st now gen db = Return (a, db') -> db' = db) ->
  run_query st E w = (r, w1) -> w1 = sent w.
Proof.
  intros Hread. unfold run_query. destruct (fault E (w_stmt w)); [intros [= _ <-]; reflexivity|].
  destruct (st _ _ _) as [[a' db']|e'] eqn:Hst; intros [= _ <-]; [|reflexivity].
  apply Hread in Hst. subst db'. destruct w; reflexivity.
Qed.


Lemma run_query_error {A} (st : Z -> string -> statement A) E w e w1 :
  (forall now gen, db_errors (st now gen)) ->
  run_query st E w = (Throw e, w1) -> exists code, e = DbError code.
Proof.
  intros Herr. unfold run_query. destruct (fault E (w_stmt w)).
  - intros [= <- _]. unfold connection_failure. eauto.
  - destruct (st _ _ _) as [[a db']|e'] eqn:Hst; [discriminate|].
    intros [= <- _]. eapply Herr, Hst.
Qed.

Lemma select_message_errors messageId : db_errors (select_message messageId).
Proof.
  intros db e. unfold select_message.
  destruct (uuid_param messageId) eqn:Hm; [discriminate|].
  intros [= <-]. apply uuid_param_throws in Hm. exact Hm.
Qed.

Lemma mark_message_deleted_errors now messageId :
  db_errors (mark_message_deleted now messageId).
Proof.
  intros db e. unfold mark_message_deleted.
  destruct (uuid_param messageId) eqn:Hm; [discriminate|].
  intros [= <-]. apply uuid_param_throws in Hm. exact Hm.
Qed.

Lemma select_message_rows messageId db rows db' :
  select_message messageId db = Return (rows, db') ->
  db' = db /\ exists m, uuid_param messageId = Return m /\
    rows = filter (fun r => eq_param (m_id r) m = true) (messages db).
Proof.
  unfold select_message. destruct (uuid_param messageId) as [m|]; [|discriminate].
  intros [= <- <-]. eauto.
Qed.

End Statements.

(* ===================================================================== *)
(** ** Deletion of a message *)
(* ===================================================================== *)

Section Deletion.

(** X1.  Only the sender deletes a message: when the message exists and its
    [sender_id], as the database returns it, is not strictly equal to the
    user id given (another user, or the sender's id written differently, in
    upper case for instance), [deleteMessage] throws a 403 error and the
    database is unchanged. *)
Theorem deleteMessage_only_by_sender E w messageId userId m row :
  fault E (w_stmt w) = false ->
  uuid_param messageId = Return m ->
  head (filter (fun r => eq_param (m_id r) m = true) (messages (w_db w))) = Some row ->
  jsval_eqb (JStr (m_sender_id row)) userId = false ->
  exists w',
    deleteMessage messageId userId E w =
      (Throw (AppError "Not authorized to delete message" 403), w') /\
    w_db w' = w_db w.
Proof.
  intros Hf Hm Hhead Hne. unfold deleteMessage. rewrite try_rethrow.
  unfold bind. rewrite run_query_available by exact Hf.
  unfold select_message. rewrite Hm, Hhead, Hne. cbn [negb]. unfold throw.
  eexists. split; [reflexivity|]. destruct w; reflexivity.
Qed.

(** X2.  A message is deleted softly: when the sender deletes their message
    and the database can be reached, the call returns, no row is removed,
    the rows with the id of the message keep their id, chat room, sender and
    creation time, hold the text [[Message deleted]] in place of their
    content and are marked as deleted, and every other row of every table is
    unchanged (the reactions to the message included). *)
Theorem deleteMessage_keeps_the_row E w messageId userId m row :
  available E (w_stmt w) 2 ->
  uuid_param messageId = Return m ->
  head (filter (fun r => eq_param (m_id r) m = true) (messages (w_db w))) = Some row ->
  jsval_eqb (JStr (m_sender_id row)) userId = true ->
  exists w',
    deleteMessage messageId userId E w = (Return tt, w') /\
    messages (w_db w') =
      map (fun r =>
             if eq_param (m_id r) m then
               {| m_id := m_id r; m_chat_room_id := m_chat_room_id r;
                  m_sender_id := m_sender_id r; m_content := "[Message deleted]";
                  m_content_type := m_content_type r; m_media_url := m_media_url r;
                  m_created_at := m_created_at r;
                  m_updated_at := timestamp_at E (w_txn w) (S (w_stmt w));
                  m_is_edited := m_is_edited r; m_is_deleted := true |}
             else r)
        (messages (w_db w)) /\
    map m_id (messages (w_db w')) = map m_id (messages (w_db w)) /\
    message_reactions (w_db w') = message_reactions (w_db w) /\
    chat_participants (w_db w') = chat_participants (w_db w) /\
    chat_rooms (w_db w') = chat_rooms (w_db w) /\
    users (w_db w') = users (w_db w).
Proof.
  intros Hav Hm Hhead Heq. unfold deleteMessage. rewrite try_rethrow.
  unfold bind. rewrite run_query_available by (eapply available_at; [exact Hav|lia]).
  unfold select_message. rewrite Hm, Hhead, Heq. cbn [negb].
  rewrite run_query_available by (eapply available_at; [exact Hav|simpl; lia]).
  unfold mark_message_deleted. rewrite Hm.
  eexists. split; [reflexivity|].
  cbn [w_db w_txn w_stmt with_db sent messages message_reactions chat_participants
       chat_rooms users].
  split; [reflexivity|]. split; [|auto].
  rewrite map_map. apply map_ext. intros r. destruct (eq_param (m_id r) m); reflexivity.
Qed.

(** X3.  [deleteMessage] validates nothing and never writes when it fails:
    whenever it throws, the database is unchanged, and the error is the 404
    of a missing message, the 403 of a user who is not the sender, or an
    error of the database (as for a message id that is not a UUID, which
    the other functions refuse with status 400). *)
Theorem deleteMessage_failures E w messageId userId e w' :
  deleteMessage messageId userId E w = (Throw e, w') ->
  w_db w' = w_db w /\
  (e = AppError "Message not found" 404 \/
   e = AppError "Not authorized to delete message" 403 \/
   exists code, e = DbError code).
Proof.
  unfold deleteMessage. rewrite try_rethrow. intros Hrun.
  apply bind_throws in Hrun. destruct Hrun as [Hq|(message & w1 & Hq & Hrun)].
  - split; [apply run_query_throws in Hq; subst w'; reflexivity|].
    right. right. eapply run_query_error; [|exact Hq].
    intros now gen. apply select_message_errors.
  - apply run_query_returns in Hq. destruct Hq as (_ & db' & Hst & ->).
    unfold select_message in Hst.
    destruct (uuid_param messageId); [|discriminate]. injection Hst as _ <-.
    destruct (head message) as [row|].
    + destruct (negb _).
      * injection Hrun as <- <-. auto.
      * apply bind_throws in Hrun. destruct Hrun as [Hq|(n & w2 & _ & Hrun)]; [|discriminate].
        split; [apply run_query_throws in Hq; subst w'; reflexivity|].
        right. right. eapply run_query_error; [|exact Hq].
        intros now gen. apply mark_message_deleted_errors.
    + injection Hrun as <- <-. auto.
Qed.

End Deletion.

Section Deletion_examples.

(** The sender's own id in upper case is refused. *)
Lemma deleteMessage_only_by_sender_witness :
  exists w',
    deleteMessage (JStr hello) (JStr "AAAAAAAA-AAAA-4AAA-8AAA-AAAAAAAAAAAA") calm w0 =
      (Throw (AppError "Not authorized to delete message" 403), w') /\
    w_db w' = w_db w0.
Proof.
  eapply (deleteMessage_only_by_sender calm w0 (JStr hello) _ (Some hello));
    reflexivity.
Defined.

Lemma deleteMessage_keeps_the_row_witness :
  exists w',
    deleteMessage (JStr hello) (JStr alice) calm w0 = (Return tt, w') /\
    map m_content (messages (w_db w')) = ["[Message deleted]"] /\
    map m_id (messages (w_db w')) = map m_id (messages (w_db w0)).
Proof.
  edestruct (deleteMessage_keeps_the_row calm w0 (JStr hello) (JStr alice) (Some hello))
    as (w' & Hrun & Hrows & Hids & _);
    [apply calm_available | reflexivity | reflexivity | reflexivity |].
  exists w'. split; [exact Hrun|]. split; [rewrite Hrows; reflexivity|exact Hids].
Defined.

(** A message id that is not a UUID is refused by the database. *)
Lemma deleteMessage_failures_witness :
  snd (deleteMessage (JStr "nonsense") (JStr alice) calm w0) = sent w0 /\
  w_db (sent w0) = w_db w0 /\
  (invalid_text_representation = AppError "Message not found" 404 \/
   invalid_text_representation = AppError "Not authorized to delete message" 403 \/
   exists code, invalid_text_representation = DbError code).
Proof.
  split; [reflexivity|].
  apply (deleteMessage_failures calm w0 (JStr "nonsense") (JStr alice)). reflexivity.
Defined.

End Deletion_examples.

(* ===================================================================== *)
(** ** Transactions: all or nothing *)
(* ===================================================================== *)

Create HintDb txn discriminated.

Lemma keeps_txn_ret {A} (a : A) : keeps_txn (ret a).
Proof. intros E w r w' [= _ <-]. reflexivity. Qed.

Lemma keeps_txn_throw {A} e : keeps_txn (@throw A e).
Proof. intros E w r w' [= _ <-]. reflexivity. Qed.

Lemma keeps_txn_bind {A B} (m : M A) (k : A -> M B) :
  keeps_txn m -> (forall a, keeps_txn (k a)) -> keeps_txn (bind m k).
Proof.
  intros Hm Hk E w r w'. unfold bind.
  destruct (m E w) as [[a|e] w1] eqn:Hrun; specialize (Hm _ _ _ _ Hrun).
  - intros Hrest. apply Hk in Hrest. congruence.
  - intros [= _ <-]. exact Hm.
Qed.

Lemma keeps_txn_try_catch {A} (m : M A) h :
  keeps_txn m -> (forall e, keeps_txn (h e)) -> keeps_txn (try_catch m h).
Proof.
  intros Hm Hh E w r w'. unfold try_catch.
  destruct (m E w) as [[a|e] w1] eqn:Hrun; specialize (Hm _ _ _ _ Hrun).
  - intros [= _ <-]. exact Hm.
  - intros Hrest. apply Hh in Hrest. congruence.
Qed.

Lemma keeps_txn_query {A} q (st : Z -> string -> statement A) : keeps_txn (query q st).
Proof. intros E w r w' Hq. apply query_trace in Hq. apply Hq. Qed.

Lemma keeps_txn_run_query {A} (st : Z -> string -> statement A) : keeps_txn (run_query st).
Proof.
  intros E w r w'. unfold run_query. destruct (fault E (w_stmt w)); [intros [= _ <-]; reflexivity|].
  destruct (st _ _ _) as [[a db']|e]; intros [= _ <-]; reflexivity.
Qed.

Lemma keeps_txn_draw_uuidv4 : keeps_txn draw_uuidv4.
Proof. intros E w r w' [= _ <-]. reflexivity. Qed.

Lemma keeps_txn_validateUuid id f : keeps_txn (validateUuid id f).
Proof.
  unfold validateUuid. destruct (_ || _); [apply keeps_txn_throw|].
  destruct (negb _); [apply keeps_txn_throw|apply keeps_txn_ret].
Qed.

Lemma keeps_txn_if {A} (b : bool) (m1 m2 : M A) :
  keeps_txn m1 -> keeps_txn m2 -> keeps_txn (if b then m1 else m2).
Proof. destruct b; auto. Qed.

#[local] Hint Resolve keeps_txn_ret keeps_txn_throw keeps_txn_query keeps_txn_run_query
  keeps_txn_draw_uuidv4 keeps_txn_validateUuid : txn.
#[local] Hint Extern 2 (keeps_txn (bind _ _)) => apply keeps_txn_bind; [|intros ?] : txn.
#[local] Hint Extern 2 (keeps_txn (try_catch _ _)) =>
  apply keeps_txn_try_catch; [|intros ?] : txn.
#[local] Hint Extern 2 (keeps_txn (if _ then _ else _)) => apply keeps_txn_if : txn.
#[local] Hint Extern 3 (keeps_txn (match ?x with _ => _ end)) => destruct x : txn.

Lemma keeps_txn_query_all2 qa qb a b : keeps_txn (query_all2 qa qb a b).
Proof. unfold query_all2. auto 10 with txn. Qed.

Lemma keeps_txn_add_other_participants chatId creatorId ids :
  keeps_txn (add_other_participants chatId creatorId ids).
Proof.
  induction ids as [|p rest IH]; cbn [add_other_participants]; auto 10 with txn.
Qed.

Lemma keeps_txn_getChatById chatId : keeps_txn (getChatById chatId).
Proof. unfold getChatById. auto 10 with txn. Qed.

(** When [transaction] throws, the database is the one before the call:
    [BEGIN] was not reached, or [ROLLBACK] has undone what the callback and
    [COMMIT] left. *)
Lemma transaction_throws {A} (callback : M A) E w e w' :
  w_txn w = None ->
  keeps_txn callback ->
  transaction callback E w = (Throw e, w') ->
  w_db w' = w_db w /\ w_txn w' = None.
Proof.
  intros Hnone Hcb. unfold transaction, bind at 1, getClient.
  destruct (fault E (w_stmt w)); [intros [= _ <-]; auto|].
  unfold try_finally, try_catch, release. cbn [ret snd].
  unfold bind at 1, begin_txn. cbn [w_stmt log_action sent].
  destruct (fault E (S (w_stmt w))).
  { unfold bind, rollback_txn, throw. cbn [w_txn w_stmt log_action sent]. rewrite Hnone.
    destruct (fault E _); intros [= _ <-]; auto. }
  unfold bind at 1.
  destruct (callback E _) as [[a|e1] wc] eqn:Hrun; apply Hcb in Hrun;
    cbn [w_txn log_action with_txn sent] in Hrun.
  - unfold bind at 1, commit_txn.
    destruct (fault E (w_stmt wc)); [|discriminate].
    unfold bind, rollback_txn, throw. cbn [w_txn w_stmt w_db log_action sent]. rewrite Hrun.
    destruct (fault E _); intros [= _ <-]; auto.
  - unfold bind, rollback_txn, throw. rewrite Hrun.
    destruct (fault E _); intros [= _ <-]; auto.
Qed.

#[local] Hint Resolve keeps_txn_query_all2 keeps_txn_add_other_participants
  keeps_txn_getChatById : txn.

(* ===================================================================== *)
(** ** Access to a chat and to its participants *)
(* ===================================================================== *)

Section Access.

Lemma joined_participants_nil db cr :
  members_of db (cr_id cr) = [] -> joined_participants db cr = [].
Proof.
  unfold members_of, joined_participants.
  induction (chat_participants db) as [|cp l IH]; [reflexivity|].
  rewrite filter_cons. cbn [flat_map]. rewrite (String.eqb_sym (cr_id cr)).
  destruct (String.eqb (cp_chat_room_id cp) (cr_id cr)).
  - rewrite decide_True by reflexivity. discriminate.
  - rewrite decide_False by discriminate. exact IH.
Qed.

Lemma select_chat_details_none chatId c db :
  uuid_param chatId = Return (Some c) ->
  members_of db c = [] ->
  select_chat_details chatId db = Return ([], db).
Proof.
  intros Hc Hnone. unfold select_chat_details. rewrite Hc. f_equal. f_equal.
  induction (chat_rooms db) as [|cr l IH]; [reflexivity|].
  cbn [flat_map]. rewrite IH, app_nil_r. cbn [eq_param].
  destruct (String.eqb_spec (cr_id cr) c) as [Heq|Hne]; [|reflexivity].
  rewrite joined_participants_nil; [reflexivity|]. rewrite Heq. exact Hnone.
Qed.

Lemma select_chat_details_head chatId db rows db' chat :
  select_chat_details chatId db = Return (rows, db') ->
  head rows = Some chat ->
  db' = db /\ In (cd_chat chat) (chat_rooms db) /\
  uuid_param chatId = Return (Some (cr_id (cd_chat chat))) /\
  cd_participants chat = joined_participants db (cd_chat chat) /\
  cd_participants chat <> [].
Proof.
  unfold select_chat_details. destruct (uuid_param chatId) as [c|]; [|discriminate].
  intros [= <- <-] Hhead. split; [reflexivity|]. revert Hhead.
  induction (chat_rooms db) as [|cr l IH]; [discriminate|].
  cbn [flat_map]. destruct (eq_param (cr_id cr) c) eqn:Hhit.
  - destruct (joined_participants db cr) as [|p ps] eqn:Hj.
    + cbn [app]. intros Hhead. destruct (IH Hhead) as (Hin & Hrest). split; [right; exact Hin|exact Hrest].
    + cbn [app head]. intros [= <-]. cbn [cd_chat cd_participants].
      split; [left; reflexivity|]. split; [|split; [symmetry; exact Hj|discriminate]].
      destruct c as [c|]; [|discriminate]. cbn [eq_param] in Hhit.
      apply String.eqb_eq in Hhit. subst c. reflexivity.
  - cbn [app]. intros Hhead. destruct (IH Hhead) as (Hin & Hrest). split; [right; exact Hin|exact Hrest].
Qed.

Lemma select_chat_details_reads chatId db rows db' :
  select_chat_details chatId db = Return (rows, db') -> db' = db.
Proof.
  unfold select_chat_details. destruct (uuid_param chatId); [|discriminate].
  intros [= _ <-]. reflexivity.
Qed.

Lemma getChatById_effects chatId E w r w' :
  getChatById chatId E w = (r, w') ->
  w_db w' = w_db w /\ w_txn w' = w_txn w /\ w_io w' = w_io w.
Proof.
  unfold getChatById. intros Hrun.
  apply bind_cases in Hrun. destruct Hrun as [(e & Hv & _)|([] & w1 & Hv & Hrun)].
  - unfold validateUuid in Hv. destruct (_ || _); [injection Hv as _ <-; auto|].
    destruct (negb _); injection Hv as _ <-; auto.
  - apply validateUuid_returns in Hv. destruct Hv as [-> _].
    rewrite try_rethrow in Hrun.
    apply bind_cases in Hrun. destruct Hrun as [(e & Hq & _)|(rows & w2 & Hq & Hrun)].
    + apply run_query_throws in Hq. subst w'. auto.
    + injection Hrun as _ <-.
      eapply run_query_reads in Hq; [subst w2; auto|].
      intros now gen db a db'. apply select_chat_details_reads.
Qed.

Lemma getChatById_returns chatId E w res w' :
  getChatById chatId E w = (Return res, w') ->
  js_isValidUuid chatId = true /\
  exists rows, select_chat_details chatId (w_db w) = Return (rows, w_db w) /\
               res = head rows /\ w' = sent w.
Proof.
  unfold getChatById. intros Hrun.
  apply bind_returns in Hrun. destruct Hrun as ([] & w1 & Hv & Hrun).
  apply validateUuid_returns in Hv. destruct Hv as [-> Hvalid].
  rewrite try_rethrow in Hrun.
  apply bind_returns in Hrun. destruct Hrun as (rows & w2 & Hq & Hrun).
  injection Hrun as <- <-.
  apply run_query_returns in Hq. destruct Hq as (_ & db' & Hst & ->).
  pose proof (select_chat_details_reads _ _ _ _ Hst) as ->.
  split; [exact Hvalid|]. exists rows. split; [exact Hst|]. split; [reflexivity|].
  destruct w; reflexivity.
Qed.

Lemma getChatById_available chatId E w :
  js_isValidUuid chatId = true ->
  fault E (w_stmt w) = false ->
  exists rows, select_chat_details chatId (w_db w) = Return (rows, w_db w) /\
               getChatById chatId E w = (Return (head rows), sent w).
Proof.
  intros Hvalid Hf. destruct (valid_js_uuid _ Hvalid) as (s & c & -> & _ & Hc).
  unfold getChatById, bind. rewrite validateUuid_valid by exact Hvalid.
  rewrite try_rethrow. rewrite run_query_available by exact Hf.
  unfold select_chat_details. rewrite Hc. eexists. split; [reflexivity|].
  cbn [ret]. destruct w; reflexivity.
Qed.

Lemma insert_participant_inserts now chatId userId role db x db' :
  insert_participant now chatId userId role db = Return (x, db') ->
  exists c u ro ro',
    uuid_param chatId = Return (Some c) /\ uuid_param userId = Return (Some u) /\
    role = JStr ro /\ varchar 20 ro = Some ro' /\
    is_participant db c u = false /\
    chat_room_exists db c = true /\ user_exists db u = true /\
    db' = {| users := users db; chat_rooms := chat_rooms db;
             chat_participants :=
               (chat_participants db ++
                [{| cp_chat_room_id := c; cp_user_id := u; cp_role := ro';
                    cp_joined_at := now |}])%list;
             messages := messages db; message_reactions := message_reactions db |}.
Proof.
  unfold insert_participant.
  destruct (uuid_param chatId) as [[c|]|]; destruct (uuid_param userId) as [[u|]|];
    try discriminate; destruct (nul_in [role]); try discriminate;
    destruct role as [| |ro]; try discriminate. cbn [pg_param].
  destruct (varchar 20 ro) as [ro'|] eqn:Hro; [|discriminate].
  destruct (existsb _ _) eqn:Hex; [discriminate|].
  destruct (chat_room_exists db c) eqn:Hroom; [|discriminate].
  destruct (user_exists db u) eqn:Huser; [|discriminate].
  intros [= <- <-]. exists c, u, ro, ro'.
  repeat split; first [reflexivity|assumption].
Qed.

Lemma existsb_filter_false {A} (f : A -> bool) l :
  existsb f (filter (fun x => f x = false) l) = false.
Proof.
  induction l as [|x l IH]; [reflexivity|]. rewrite filter_cons.
  destruct (f x) eqn:Hx.
  - rewrite decide_False by discriminate. exact IH.
  - rewrite decide_True by reflexivity. cbn [existsb]. rewrite Hx. exact IH.
Qed.


(** What [addChatParticipant] has found and done when it returns. *)
Lemma addChatParticipant_returns E w chatId userId role res w' :
  addChatParticipant chatId userId role E w = (Return res, w') ->
  let now := clock E (S (w_stmt w)) in
  exists rows chat db',
    select_chat_details chatId (w_db w) = Return (rows, w_db w) /\
    head rows = Some chat /\
    cr_type (cd_chat chat) = "group" /\
    (length (cd_participants chat) < 300)%nat /\
    insert_participant now chatId userId (or_default role (JStr "member")) (w_db w) =
      Return (tt, db') /\
    res = head (skipn (length (chat_participants (w_db w))) (chat_participants db')) /\
    w_db w' = db'.
Proof.
  intros Hrun now. unfold addChatParticipant in Hrun.
  apply bind_returns in Hrun. destruct Hrun as ([] & wa & Hv & Hrun).
  apply validateUuid_returns in Hv. destruct Hv as [-> Hvc].
  apply bind_returns in Hrun. destruct Hrun as ([] & wa & Hv & Hrun).
  apply validateUuid_returns in Hv. destruct Hv as [-> Hvu].
  apply transaction_returns in Hrun. destruct Hrun as (wc & Hcb & ->).
  rewrite try_rethrow in Hcb.
  apply bind_returns in Hcb. destruct Hcb as (chat & w1 & Hg & Hcb).
  apply getChatById_returns in Hg. destruct Hg as (_ & rows & Hsel & -> & ->).
  cbn [w_db log_action with_txn sent] in Hsel.
  destruct (head rows) as [chat|] eqn:Hhead; [|discriminate].
  destruct (String.eqb (cr_type (cd_chat chat)) "group") eqn:Hty; [|discriminate].
  cbn [negb] in Hcb.
  destruct (300 <=? length (cd_participants chat))%nat eqn:Hfull; [discriminate|].
  apply bind_returns in Hcb. destruct Hcb as (result & w2 & Hq & Hcb).
  injection Hcb as <- <-.
  apply run_query_returns in Hq. destruct Hq as (_ & db' & Hst & ->).
  cbn [w_db w_txn w_stmt log_action with_txn with_db sent timestamp_at] in Hst.
  unfold insert_participant_returning in Hst.
  destruct (insert_participant _ _ _ _ _) as [[[] db'']|e] eqn:Hins; [|discriminate].
  injection Hst as <- <-.
  exists rows, chat, db''. split; [exact Hsel|].
  split; [exact Hhead|]. split; [apply String.eqb_eq, Hty|].
  split; [apply Nat.leb_gt, Hfull|]. split; [reflexivity|]. split; reflexivity.
Qed.

Lemma validateUuid_cases id f E w r w' :
  validateUuid id f E w = (r, w') -> w' = w.
Proof.
  unfold validateUuid. destruct (_ || _); [intros [= _ <-]; reflexivity|].
  destruct (negb _); intros [= _ <-]; reflexivity.
Qed.


(** X4.  [addChatParticipant] adds exactly one membership row, and only to
    a group that [getChatById] finds with fewer than 300 participants: when
    it returns, the user was not a member, the row returned is the one
    appended to [chat_participants], with the role as it was given (any
    text of at most 20 characters: the roles are not checked here), and no
    other row of the database has changed. *)
Theorem addChatParticipant_adds_one_member E w chatId userId role res w' :
  addChatParticipant chatId userId role E w = (Return res, w') ->
  exists cr c u ro ro' row,
    In cr (chat_rooms (w_db w)) /\ cr_id cr = c /\ cr_type cr = "group" /\
    (0 < length (joined_participants (w_db w) cr) < 300)%nat /\
    uuid_param chatId = Return (Some c) /\ uuid_param userId = Return (Some u) /\
    or_default role (JStr "member") = JStr ro /\ varchar 20 ro = Some ro' /\
    is_participant (w_db w) c u = false /\
    row = {| cp_chat_room_id := c; cp_user_id := u; cp_role := ro';
             cp_joined_at := clock E (S (w_stmt w)) |} /\
    res = Some row /\
    w_db w' = {| users := users (w_db w); chat_rooms := chat_rooms (w_db w);
                 chat_participants := (chat_participants (w_db w) ++ [row])%list;
                 messages := messages (w_db w);
                 message_reactions := message_reactions (w_db w) |}.
Proof.
  intros Hrun. apply addChatParticipant_returns in Hrun.
  destruct Hrun as (rows & chat & db' & Hsel & Hhead & Hty & Hfull & Hins & -> & ->).
  destruct (select_chat_details_head _ _ _ _ _ Hsel Hhead) as (_ & Hin & Hc & Hps & Hsome).
  apply insert_participant_inserts in Hins.
  destruct Hins as (c & u & ro & ro' & Hc' & Hu & Hro & Hlen & Hnew & _ & _ & ->).
  rewrite Hc in Hc'. injection Hc' as <-.
  exists (cd_chat chat), (cr_id (cd_chat chat)), u, ro, ro'. eexists.
  split; [exact Hin|]. split; [reflexivity|]. split; [exact Hty|].
  split. { rewrite <- Hps. split; [|exact Hfull].
           destruct (cd_participants chat); [contradiction|simpl; lia]. }
  split; [exact Hc|]. split; [exact Hu|]. split; [exact Hro|]. split; [exact Hlen|].
  split; [exact Hnew|]. split; [reflexivity|].
  cbn [chat_participants]. rewrite drop_app_length. split; reflexivity.
Qed.




(** X7.  A chat without participants cannot be found, although its row
    exists: [getChatById] returns [undefined] for it, so that
    [removeChatParticipant] and [addChatParticipant] answer that the chat
    is not found, and nobody can be added to it again. *)
Theorem chat_without_participants_is_not_found E w chatId userId role c :
  js_isValidUuid chatId = true ->
  uuid_param chatId = Return (Some c) ->
  members_of (w_db w) c = [] ->
  (fault E (w_stmt w) = false ->
   getChatById chatId E w = (Return None, sent w) /\
   removeChatParticipant chatId userId E w = (Throw (AppError "Chat not found" 404), sent w)) /\
  (js_isValidUuid userId = true -> w_txn w = None -> available E (w_stmt w) 4 ->
   exists w', addChatParticipant chatId userId role E w =
                (Throw (AppError "Chat not found" 404), w') /\
              w_db w' = w_db w).
Proof.
  intros Hvalid Hc Hnone.
  assert (Hget : forall w1, w_db w1 = w_db w -> fault E (w_stmt w1) = false ->
            getChatById chatId E w1 = (Return None, sent w1)).
  { intros w1 Hdb Hf. destruct (getChatById_available chatId E w1 Hvalid Hf)
      as (rows & Hsel & Hrun).
    rewrite Hdb, (select_chat_details_none _ _ _ Hc Hnone) in Hsel.
    injection Hsel as <-. exact Hrun. }
  split.
  - intros Hf. split; [apply Hget; [reflexivity|exact Hf]|].
    unfold removeChatParticipant. rewrite try_rethrow. unfold bind.
    rewrite Hget by (reflexivity || exact Hf). reflexivity.
  - intros Hvu Htxn Hav.
    destruct (addChatParticipant chatId userId role E w) as [r w'] eqn:Hrun.
    exists w'. unfold addChatParticipant, bind in Hrun.
    rewrite !validateUuid_valid in Hrun by assumption.
    unfold transaction, bind, getClient, try_finally, try_catch, begin_txn,
      release in Hrun.
    rewrite (available_at _ _ _ (w_stmt w) Hav) in Hrun by lia.
    cbn [w_stmt log_action sent ret snd] in Hrun.
    rewrite (available_at _ _ _ (S (w_stmt w)) Hav) in Hrun by lia.
    rewrite Hget in Hrun
      by (first [reflexivity | cbn [w_stmt log_action with_txn sent];
                                apply (available_at _ _ _ _ Hav); lia]).
    unfold throw, rollback_txn in Hrun.
    cbn [w_txn w_stmt w_db log_action with_txn with_db sent] in Hrun.
    rewrite (available_at _ _ _ (S (S (S (w_stmt w)))) Hav) in Hrun by lia.
    injection Hrun as <- <-. split; reflexivity.
Qed.

End Access.

(* ===================================================================== *)
(** ** Deletion of a chat *)
(* ===================================================================== *)

Section Chat_deletion.




End Chat_deletion.

Section Access_examples.


(** Carol is added to the group as a second creator. *)
Lemma addChatParticipant_adds_one_member_witness :
  exists row w',
    addChatParticipant (JStr team) (JStr carol) (JStr "creator") calm w0 =
      (Return (Some row), w') /\
    cp_user_id row = carol /\ cp_role row = "creator" /\
    chat_participants (w_db w') = (chat_participants db0 ++ [row])%list.
Proof.
  destruct (addChatParticipant (JStr team) (JStr carol) (JStr "creator") calm w0)
    as [[res|e] w'] eqn:Hrun; [|vm_compute in Hrun; discriminate].
  destruct (addChatParticipant_adds_one_member _ _ _ _ _ _ _ Hrun)
    as (cr & c & u & ro & ro' & row & _ & _ & _ & _ & _ & Hu & Hro & Hlen & _ & Hrow & -> & Hdb).
  exists row, w'. split; [reflexivity|].
  injection Hro as <-. vm_compute in Hlen. injection Hlen as <-.
  vm_compute in Hu. injection Hu as <-.
  rewrite Hdb, Hrow. repeat split.
Defined.



(** The group that alice and bob have left still has its row. *)
Lemma chat_without_participants_is_not_found_witness :
  chat_room_exists (w_db deserted) team = true /\
  getChatById (JStr team) calm deserted = (Return None, sent deserted) /\
  exists w', addChatParticipant (JStr team) (JStr alice) JUndefined calm deserted =
               (Throw (AppError "Chat not found" 404), w') /\
             w_db w' = w_db deserted.
Proof.
  destruct (chat_without_participants_is_not_found calm deserted (JStr team) (JStr alice)
              JUndefined team) as [Hget Hadd]; try reflexivity.
  split; [reflexivity|]. split.
  - apply Hget. reflexivity.
  - apply Hadd; [reflexivity|reflexivity|apply calm_available].
Defined.


End Access_examples.

(* ===================================================================== *)
(** ** Identifiers: validation and canonical text *)
(* ===================================================================== *)

Section Canonical.

Lemma in_cls_lower k c : in_cls k c = true -> in_cls k (lower c) = true /\ lower (lower c) = lower c.
Proof.
  destruct c as [b0 b1 b2 b3 b4 b5 b6 b7].
  destruct k, b0, b1, b2, b3, b4, b5, b6, b7; vm_compute; intros Hc;
    try discriminate; auto.
Qed.

Lemma matches_lower p l : matches p l = true -> matches p (map lower l) = true /\ map lower (map lower l) = map lower l.
Proof.
  revert l. induction p as [|k p IH]; intros [|c l] Hm; try discriminate.
  - auto.
  - apply matches_cons in Hm. destruct Hm as [Hc Hm].
    destruct (in_cls_lower _ _ Hc) as [Hc' Hl]. destruct (IH _ Hm) as [Hm' Hl'].
    cbn [map matches]. rewrite Hc', Hm', Hl, Hl'. auto.
Qed.

Lemma pattern_canonical l :
  matches uuid_pattern l = true ->
  exists ds, uuid_bytes 16 0 l = Some (ds, []) /\
             uuid_out ds = string_of_list_ascii (map lower l).
Proof.
  unfold uuid_pattern. cbn [repeat app].
  intros Hm.
  do 36 (destruct l as [|? l]; [exfalso; exact (matches_short _ _ Hm)|];
         apply matches_cons in Hm; destruct Hm as [?%cls_facts Hm]).
  destruct l; [|simpl in Hm; discriminate].
  cbn beta iota in *.
  repeat match goal with Hc : _ /\ _ |- _ => destruct Hc end.
  repeat match goal with Hc : Ascii.eqb _ "-"%char = true |- _ =>
    apply Ascii.eqb_eq in Hc; subst end.
  cbn [uuid_bytes].
  repeat (progress (repeat match goal with Hq : _ = _ |- _ => rewrite Hq end);
          cbn [andb Nat.odd Nat.ltb Nat.leb negb Nat.even Ascii.eqb Bool.eqb]).
  eexists. split; [reflexivity|]. reflexivity.
Qed.

Lemma valid_uuid_canonical s :
  isValidUuid s = true ->
  uuid_param (JStr s) = Return (Some (lower_string s)) /\
  isValidUuid (lower_string s) = true /\
  lower_string (lower_string s) = lower_string s.
Proof.
  unfold isValidUuid. intros Hv. apply orb_prop in Hv. destruct Hv as [Hp|Hn].
  - pose proof (valid_uuid_no_nul s) as Hnul. unfold isValidUuid in Hnul.
    rewrite Hp in Hnul. specialize (Hnul eq_refl).
    destruct (pattern_bytes _ Hp) as [_ Hb].
    destruct (pattern_canonical _ Hp) as (ds & Hds & Hout).
    destruct (matches_lower _ _ Hp) as [Hp' Hl].
    split; [|split].
    + unfold uuid_param. cbn [pg_param]. rewrite Hnul. unfold pg_uuid_in, lower_string.
      destruct (list_ascii_of_string s) as [|c r]; [discriminate|].
      rewrite Hb, Hds, Hout. reflexivity.
    + unfold lower_string. rewrite list_ascii_of_string_of_list_ascii, Hp'. reflexivity.
    + unfold lower_string. rewrite list_ascii_of_string_of_list_ascii, Hl. reflexivity.
  - apply String.eqb_eq in Hn. subst s. repeat split.
Qed.

(** X12.  An identifier that [validateUuid] accepts is a string that the
    database reads as a UUID, so that no statement fails for the syntax of a
    validated identifier; the database writes this UUID as the identifier
    in lower case, a text that [validateUuid] accepts in turn and that
    denotes the same UUID. *)
Theorem validated_id_denotes_a_uuid id fieldName E w w' :
  validateUuid id fieldName E w = (Return tt, w') ->
  exists s,
    id = JStr s /\ w' = w /\
    uuid_param id = Return (Some (lower_string s)) /\
    validateUuid (JStr (lower_string s)) fieldName E w = (Return tt, w) /\
    uuid_param (JStr (lower_string s)) = Return (Some (lower_string s)).
Proof.
  intros Hrun. apply validateUuid_returns in Hrun. destruct Hrun as [-> Hvalid].
  destruct id as [| |s]; try discriminate. cbn [js_isValidUuid] in Hvalid.
  destruct (valid_uuid_canonical s Hvalid) as (Hparam & Hvalid' & Hidem).
  destruct (valid_uuid_canonical _ Hvalid') as (Hparam' & _).
  exists s. split; [reflexivity|]. split; [reflexivity|]. split; [exact Hparam|].
  split; [apply validateUuid_valid; exact Hvalid'|].
  rewrite Hidem in Hparam'. exact Hparam'.
Qed.

End Canonical.

(* ===================================================================== *)
(** ** Creation of chats: atomicity and size *)
(* ===================================================================== *)

Section Creation.

Lemma validate_participants_cases index ids E w r w' :
  validate_participants index ids E w = (r, w') -> w' = w.
Proof.
  revert index. induction ids as [|id rest IH]; intros index; cbn [validate_participants].
  - intros [= _ <-]. reflexivity.
  - intros Hrun. apply bind_cases in Hrun.
    destruct Hrun as [(e & Hv & _)|([] & w1 & Hv & Hrun)];
      apply validateUuid_cases in Hv; subst; [reflexivity|].
    eapply IH, Hrun.
Qed.

Lemma transaction_closes {A} (callback : M A) E w r w' :
  w_txn w = None ->
  keeps_txn callback ->
  transaction callback E w = (r, w') ->
  w_txn w' = None /\ (forall e, r = Throw e -> w_db w' = w_db w).
Proof.
  intros Hnone Hcb Hrun. destruct r as [a|e].
  - apply transaction_returns in Hrun. destruct Hrun as (wc & _ & ->).
    split; [reflexivity|discriminate].
  - eapply transaction_throws in Hrun; [|exact Hnone|exact Hcb].
    destruct Hrun as [Hdb Htxn]. split; [exact Htxn|]. intros _ _. exact Hdb.
Qed.

(** X9.  The functions that write a chat inside [transaction] are atomic
    and leave no transaction open: whenever [createGroupChat],
    [createDirectChat] or [addChatParticipant] throws (a refused
    identifier, a participant listed twice, a user that does not exist, a
    lost connection, ...), the database is the one before the call, and
    after every call, whatever its outcome, no transaction is open. *)
Theorem chat_writes_are_atomic E w :
  w_txn w = None ->
  (forall name creatorId ids r w',
     createGroupChat name creatorId ids E w = (r, w') ->
     w_txn w' = None /\ (forall e, r = Throw e -> w_db w' = w_db w)) /\
  (forall userId1 userId2 r w',
     createDirectChat userId1 userId2 E w = (r, w') ->
     w_txn w' = None /\ (forall e, r = Throw e -> w_db w' = w_db w)) /\
  (forall chatId userId role r w',
     addChatParticipant chatId userId role E w = (r, w') ->
     w_txn w' = None /\ (forall e, r = Throw e -> w_db w' = w_db w)).
Proof.
  intros Hnone.
  assert (Hidle : forall (r : completion (option chat_room)),
            w_txn w = None /\ (forall e, r = Throw e -> w_db w = w_db w)) by auto.
  assert (Hidle' : forall (r : completion (option chat_participant)),
            w_txn w = None /\ (forall e, r = Throw e -> w_db w = w_db w)) by auto.
  split; [|split].
  - intros name creatorId ids r w' Hrun. unfold createGroupChat in Hrun.
    apply bind_cases in Hrun. destruct Hrun as [(e1 & Hv & _)|([] & wa & Hv & Hrun)];
      apply validateUuid_cases in Hv; subst; [apply Hidle|].
    apply bind_cases in Hrun. destruct Hrun as [(e1 & Hv & _)|([] & wa & Hv & Hrun)];
      apply validate_participants_cases in Hv; subst; [apply Hidle|].
    destruct (299 <? length ids)%nat; [injection Hrun as _ <-; apply Hidle|].
    eapply transaction_closes; [exact Hnone| |exact Hrun]. auto 12 with txn.
  - intros userId1 userId2 r w' Hrun. unfold createDirectChat in Hrun.
    apply bind_cases in Hrun. destruct Hrun as [(e1 & Hv & _)|([] & wa & Hv & Hrun)];
      apply validateUuid_cases in Hv; subst; [apply Hidle|].
    apply bind_cases in Hrun. destruct Hrun as [(e1 & Hv & _)|([] & wa & Hv & Hrun)];
      apply validateUuid_cases in Hv; subst; [apply Hidle|].
    destruct (jsval_eqb userId1 userId2); [injection Hrun as _ <-; apply Hidle|].
    eapply transaction_closes; [exact Hnone| |exact Hrun]. auto 12 with txn.
  - intros chatId userId role r w' Hrun. unfold addChatParticipant in Hrun.
    apply bind_cases in Hrun. destruct Hrun as [(e1 & Hv & _)|([] & wa & Hv & Hrun)];
      apply validateUuid_cases in Hv; subst; [apply Hidle'|].
    apply bind_cases in Hrun. destruct Hrun as [(e1 & Hv & _)|([] & wa & Hv & Hrun)];
      apply validateUuid_cases in Hv; subst; [apply Hidle'|].
    eapply transaction_closes; [exact Hnone| |exact Hrun]. auto 12 with txn.
Qed.

Lemma add_other_participants_stmts chatId creatorId ids E w w' :
  add_other_participants chatId creatorId ids E w = (Return tt, w') ->
  w_stmt w' = (w_stmt w + length (filter (fun p => jsval_eqb p creatorId = false) ids))%nat.
Proof.
  revert w. induction ids as [|p rest IH]; intros w Hrun.
  - injection Hrun as <-. cbn. lia.
  - cbn [add_other_participants] in Hrun.
    apply bind_returns in Hrun. destruct Hrun as ([] & w1 & Hp & Hrun).
    apply IH in Hrun. rewrite Hrun. rewrite filter_cons.
    destruct (jsval_eqb p creatorId) eqn:Hsame; cbn [negb] in Hp.
    + rewrite decide_False by discriminate. injection Hp as <-. reflexivity.
    + rewrite decide_True by reflexivity. apply query_trace in Hp.
      destruct Hp as (_ & _ & -> & _). cbn [length]. lia.
Qed.

Lemma add_other_participants_rows chatId creatorId ids E w w' :
  add_other_participants chatId creatorId ids E w = (Return tt, w') ->
  exists rows,
    w_db w' =
      {| users := users (w_db w); chat_rooms := chat_rooms (w_db w);
         chat_participants := (chat_participants (w_db w) ++ rows)%list;
         messages := messages (w_db w); message_reactions := message_reactions (w_db w) |} /\
    length rows = length (filter (fun p => jsval_eqb p creatorId = false) ids) /\
    Forall (fun r => uuid_param (JStr chatId) = Return (Some (cp_chat_room_id r)) /\
                     cp_role r = "member" /\
                     user_exists (w_db w) (cp_user_id r) = true) rows.
Proof.
  revert w. induction ids as [|p rest IH]; intros w Hrun.
  - injection Hrun as <-. exists []. rewrite app_nil_r, database_eta. auto.
  - cbn [add_other_participants] in Hrun.
    apply bind_returns in Hrun. destruct Hrun as ([] & w1 & Hp & Hrun).
    apply IH in Hrun. destruct Hrun as (rows & Hrows & Hlen & Hall).
    rewrite filter_cons. destruct (jsval_eqb p creatorId) eqn:Hsame; cbn [negb] in Hp.
    + rewrite decide_False by discriminate. injection Hp as <-. eauto.
    + rewrite decide_True by reflexivity.
      apply query_returns in Hp. destruct Hp as (_ & db' & Hst & ->).
      apply insert_participant_inserts in Hst.
      destruct Hst as (c & u & ro & ro' & Hc & _ & Hro & Hro' & _ & _ & Huser & ->).
      injection Hro as <-. injection Hro' as <-.
      cbn [w_db log_action with_db sent chat_participants users chat_rooms messages
           message_reactions] in Hrows, Hall.
      eexists (_ :: rows). rewrite Hrows, <- app_assoc. split; [reflexivity|].
      split; [cbn [length]; rewrite Hlen; reflexivity|].
      constructor; [|exact Hall]. split; [exact Hc|]. split; [reflexivity|exact Huser].
Qed.

(** What [createGroupChat] has written when it returns. *)
Lemma createGroupChat_returns E w name creatorId ids res w' :
  createGroupChat name creatorId ids E w = (Return res, w') ->
  exists i u name' others,
    let chat := {| cr_id := i; cr_name := name'; cr_type := "group"; cr_creator_id := u;
                   cr_created_at := clock E (S (w_stmt w));
                   cr_updated_at := clock E (S (w_stmt w)) |} in
    let creator := {| cp_chat_room_id := i; cp_user_id := u; cp_role := "creator";
                      cp_joined_at := clock E (S (w_stmt w)) |} in
    res = Some chat /\
    js_isValidUuid creatorId = true /\
    uuid_param (JStr (uuidv4 E (w_draw w))) = Return (Some i) /\
    uuid_param creatorId = Return (Some u) /\
    chat_room_exists (w_db w) i = false /\ user_exists (w_db w) u = true /\
    (length ids <= 299)%nat /\
    length others = length (filter (fun p => jsval_eqb p creatorId = false) ids) /\
    Forall (fun r => cp_chat_room_id r = i /\ cp_role r = "member" /\
                     user_exists (w_db w) (cp_user_id r) = true) others /\
    w_stmt w' = (w_stmt w + 5 + length others)%nat /\
    w_db w' =
      {| users := users (w_db w); chat_rooms := (chat_rooms (w_db w) ++ [chat])%list;
         chat_participants := (chat_participants (w_db w) ++ creator :: others)%list;
         messages := messages (w_db w); message_reactions := message_reactions (w_db w) |}.
Proof.
  intros Hrun. unfold createGroupChat in Hrun.
  apply bind_returns in Hrun. destruct Hrun as ([] & wa & Hv & Hrun).
  apply validateUuid_returns in Hv. destruct Hv as [-> Hvc].
  apply bind_returns in Hrun. destruct Hrun as ([] & wa & Hv & Hrun).
  apply validate_participants_cases in Hv. subst wa.
  destruct (299 <? length ids)%nat eqn:Hmany; [discriminate|].
  apply Nat.ltb_ge in Hmany.
  apply transaction_returns in Hrun. destruct Hrun as (wc & Hcb & ->).
  rewrite try_rethrow in Hcb.
  apply bind_returns in Hcb. destruct Hcb as (chatId & w1 & Hd & Hcb).
  rewrite draw_uuidv4_eq in Hd. injection Hd as <- <-.
  apply bind_returns in Hcb. destruct Hcb as (rows & w2 & Hq & Hcb).
  apply query_returns in Hq. destruct Hq as (_ & db2 & Hst & ->).
  apply insert_chat_room_returns in Hst.
  destruct Hst as (i & ty & ty' & name' & c & Hi & Hty & Hty' & Hc & Hnew & -> & ->).
  injection Hty as <-. injection Hty' as <-.
  apply bind_returns in Hcb. destruct Hcb as ([] & w3 & Hq & Hcb).
  apply query_returns in Hq. destruct Hq as (_ & db3 & Hst & ->).
  apply insert_participant_inserts in Hst.
  destruct Hst as (i' & u & ro & ro' & Hi' & Hu & Hro & Hro' & _ & _ & Huser & ->).
  rewrite Hi in Hi'. injection Hi' as <-. rewrite Hc in Hu. injection Hu as <-.
  injection Hro as <-. injection Hro' as <-.
  apply bind_returns in Hcb. destruct Hcb as ([] & w4 & Hloop & Hcb).
  injection Hcb as <- <-.
  pose proof (add_other_participants_stmts _ _ _ _ _ _ Hloop) as Hn.
  apply add_other_participants_rows in Hloop. destruct Hloop as (more & Hmore & Hlen & Hall).
  cbn [w_db w_txn w_stmt log_action with_db with_txn sent chat_participants drawn users
       chat_rooms messages message_reactions timestamp_at] in Hmore, Hnew, Huser, Hall, Hn.
  exists i, c, name', more. cbn zeta.
  cbn [w_db w_stmt log_action with_db with_txn sent head].
  split; [reflexivity|]. split; [exact Hvc|]. split; [exact Hi|]. split; [exact Hc|].
  split; [exact Hnew|]. split; [exact Huser|]. split; [exact Hmany|]. split; [exact Hlen|].
  split.
  { eapply Forall_impl; [exact Hall|]. intros r (Hr & Hrole & Hur).
    rewrite Hi in Hr. injection Hr as <-. auto. }
  split; [rewrite Hn, Hlen; lia|].
  rewrite Hmore, <- app_assoc. reflexivity.
Qed.

Lemma members_of_new db c rows :
  members_of db c = [] ->
  Forall (fun r => cp_chat_room_id r = c) rows ->
  filter (fun r => String.eqb (cp_chat_room_id r) c = true)
    (chat_participants db ++ rows)%list = rows.
Proof.
  intros Hnone Hall. rewrite filter_app.
  change (filter _ (chat_participants db)) with (members_of db c). rewrite Hnone. cbn [app].
  induction Hall as [|r l Hr _ IH]; [reflexivity|].
  rewrite filter_cons, decide_True by (rewrite Hr; apply String.eqb_refl).
  f_equal. exact IH.
Qed.

(** X10.  The members of a group that [createGroupChat] has created are the
    creator, with role creator, followed by one member with role member for
    each listed participant that is not the creator's own id: they are at
    most 300. *)
Theorem createGroupChat_members E w name creatorId ids res w' :
  participants_fk_ok (w_db w) ->
  createGroupChat name creatorId ids E w = (Return res, w') ->
  exists chat u others,
    res = Some chat /\ cr_type chat = "group" /\ cr_creator_id chat = u /\
    uuid_param creatorId = Return (Some u) /\
    members_of (w_db w') (cr_id chat) =
      {| cp_chat_room_id := cr_id chat; cp_user_id := u; cp_role := "creator";
         cp_joined_at := clock E (S (w_stmt w)) |} :: others /\
    Forall (fun r => cp_role r = "member") others /\
    length others = length (filter (fun p => jsval_eqb p creatorId = false) ids) /\
    (length (members_of (w_db w') (cr_id chat)) <= 300)%nat.
Proof.
  intros Hfk Hrun. apply createGroupChat_returns in Hrun.
  destruct Hrun as (i & u & name' & others & Hrun). cbn zeta in Hrun.
  destruct Hrun as (-> & _ & _ & Hu & Hnew & _ & Hmany & Hlen & Hall & _ & ->).
  assert (Hmembers :
    filter (fun r => String.eqb (cp_chat_room_id r) i = true)
      (chat_participants (w_db w) ++
       {| cp_chat_room_id := i; cp_user_id := u; cp_role := "creator";
          cp_joined_at := clock E (S (w_stmt w)) |} :: others)%list =
    {| cp_chat_room_id := i; cp_user_id := u; cp_role := "creator";
       cp_joined_at := clock E (S (w_stmt w)) |} :: others).
  { apply members_of_new; [apply members_of_absent; assumption|].
    constructor; [reflexivity|]. eapply Forall_impl; [exact Hall|]. intros r Hr. apply Hr. }
  assert (Hsize : (length ({| cp_chat_room_id := i; cp_user_id := u; cp_role := "creator";
                              cp_joined_at := clock E (S (w_stmt w)) |} :: others)
                   <= 300)%nat).
  { cbn [length]. rewrite Hlen.
    pose proof (length_filter (fun p => jsval_eqb p creatorId = false) ids). lia. }
  rewrite <- Hmembers in Hsize at 1.
  eexists. exists u, others. unfold members_of. cbn [cr_id cr_type cr_creator_id chat_participants].
  split; [reflexivity|]. split; [reflexivity|]. split; [reflexivity|]. split; [exact Hu|].
  split; [exact Hmembers|].
  split; [eapply Forall_impl; [exact Hall|]; intros r Hr; apply Hr|].
  split; [exact Hlen|exact Hsize].
Qed.


End Creation.

(* ===================================================================== *)
(** ** Direct chats: one per pair of users *)
(* ===================================================================== *)

Section Direct_chats.

Lemma existsb_ext' {A} (f g : A -> bool) l :
  (forall x, In x l -> f x = g x) -> existsb f l = existsb g l.
Proof.
  induction l as [|x l IH]; intros Hfg; [reflexivity|].
  cbn [existsb]. rewrite Hfg by (left; reflexivity).
  rewrite IH by (intros y Hy; apply Hfg; right; exact Hy). reflexivity.
Qed.

Lemma existsb_none {A} (f : A -> bool) l :
  (forall x, In x l -> f x = false) -> existsb f l = false.
Proof.
  induction l as [|x l IH]; intros Hf; [reflexivity|].
  cbn [existsb]. rewrite Hf by (left; reflexivity).
  apply IH. intros y Hy. apply Hf. right. exact Hy.
Qed.

Lemma filter_ext_in_bool {A} (f g : A -> bool) (l : list A) :
  (forall x, In x l -> f x = g x) ->
  filter (fun x => f x = true) l = filter (fun x => g x = true) l.
Proof.
  induction l as [|x l IH]; intros Hfg; [reflexivity|].
  rewrite !filter_cons, (Hfg x) by (left; reflexivity).
  rewrite IH by (intros y Hy; apply Hfg; right; exact Hy). reflexivity.
Qed.

Lemma select_direct_chat_eq userId1 userId2 o1 o2 db :
  uuid_param userId1 = Return o1 -> uuid_param userId2 = Return o2 ->
  select_direct_chat userId1 userId2 db =
    Return (firstn 1 (filter (fun cr => direct_between (chat_participants db) o1 o2 cr = true)
                        (chat_rooms db)), db).
Proof. intros H1 H2. unfold select_direct_chat. rewrite H1, H2. reflexivity. Qed.

Lemma direct_between_sym ps o1 o2 cr :
  direct_between ps o1 o2 cr = direct_between ps o2 o1 cr.
Proof.
  unfold direct_between. f_equal. apply existsb_ext'. intros cp1 _. f_equal.
  apply existsb_ext'. intros cp2 _. f_equal. apply orb_comm.
Qed.

(** Membership rows of another chat room do not count. *)
Lemma direct_between_other ps extra o1 o2 cr :
  (forall p, In p extra -> String.eqb (cr_id cr) (cp_chat_room_id p) = false) ->
  direct_between (ps ++ extra) o1 o2 cr = direct_between ps o1 o2 cr.
Proof.
  intros Hother. unfold direct_between. f_equal.
  rewrite existsb_app.
  rewrite (existsb_none _ extra) by (intros p Hp; rewrite (Hother p Hp); reflexivity).
  rewrite orb_false_r. apply existsb_ext'. intros cp1 _. f_equal.
  rewrite existsb_app.
  rewrite (existsb_none _ extra) by (intros p Hp; rewrite (Hother p Hp); reflexivity).
  apply orb_false_r.
Qed.

Lemma direct_between_members ps cr u1 u2 t1 t2 r1 r2 :
  cr_type cr = "direct" ->
  In {| cp_chat_room_id := cr_id cr; cp_user_id := u1; cp_role := r1; cp_joined_at := t1 |} ps ->
  In {| cp_chat_room_id := cr_id cr; cp_user_id := u2; cp_role := r2; cp_joined_at := t2 |} ps ->
  direct_between ps (Some u1) (Some u2) cr = true.
Proof.
  intros Hty H1 H2. unfold direct_between. rewrite Hty. cbn [String.eqb andb].
  apply andb_true_intro. split; [reflexivity|].
  apply existsb_exists. eexists. split; [exact H1|]. cbn [cp_chat_room_id cp_user_id].
  rewrite String.eqb_refl. cbn [andb].
  apply existsb_exists. eexists. split; [exact H2|]. cbn [cp_chat_room_id cp_user_id eq_param].
  rewrite !String.eqb_refl. reflexivity.
Qed.

Lemma jsval_eqb_sym a b : jsval_eqb a b = jsval_eqb b a.
Proof. destruct a, b; try reflexivity. apply String.eqb_sym. Qed.

(** [createDirectChat] when the direct chat of the two users exists. *)
Lemma createDirectChat_existing E w userId1 userId2 o1 o2 chat rest :
  js_isValidUuid userId1 = true -> js_isValidUuid userId2 = true ->
  jsval_eqb userId1 userId2 = false ->
  uuid_param userId1 = Return o1 -> uuid_param userId2 = Return o2 ->
  firstn 1 (filter (fun cr => direct_between (chat_participants (w_db w)) o1 o2 cr = true)
              (chat_rooms (w_db w))) = chat :: rest ->
  available E (w_stmt w) 4 ->
  exists w', createDirectChat userId1 userId2 E w = (Return (Some chat), w') /\
             w_db w' = w_db w.
Proof.
  intros Hv1 Hv2 Hne H1 H2 Hfound Hav.
  unfold createDirectChat, bind. rewrite !validateUuid_valid by assumption. rewrite Hne.
  unfold transaction, bind, getClient, try_finally, try_catch, begin_txn, release.
  rewrite (available_at _ _ _ (w_stmt w) Hav) by lia.
  cbn [w_stmt log_action sent ret snd].
  rewrite (available_at _ _ _ (S (w_stmt w)) Hav) by lia.
  rewrite query_available
    by (cbn [w_stmt log_action with_txn sent]; apply (available_at _ _ _ _ Hav); lia).
  rewrite (select_direct_chat_eq _ _ o1 o2) by assumption.
  cbn [w_db log_action with_txn with_db sent]. rewrite Hfound.
  cbn [length Nat.ltb Nat.leb head ret]. unfold commit_txn.
  cbn [w_stmt log_action with_txn with_db sent].
  rewrite (available_at _ _ _ (S (S (S (w_stmt w)))) Hav) by lia.
  eexists. split; [reflexivity|]. reflexivity.
Qed.

(** X11.  There is one direct chat per pair of users: after
    [createDirectChat] has returned a chat for two users, calling it again
    for the same two users, in either order, returns the same chat and
    writes nothing. *)
Theorem createDirectChat_is_idempotent E w userId1 userId2 res w1 :
  createDirectChat userId1 userId2 E w = (Return res, w1) ->
  available E (w_stmt w1) 4 ->
  exists chat w2 w3,
    res = Some chat /\
    createDirectChat userId1 userId2 E w1 = (Return (Some chat), w2) /\
    w_db w2 = w_db w1 /\
    createDirectChat userId2 userId1 E w1 = (Return (Some chat), w3) /\
    w_db w3 = w_db w1.
Proof.
  intros Hrun Hav. unfold createDirectChat in Hrun.
  apply bind_returns in Hrun. destruct Hrun as ([] & wa & Hv & Hrun).
  apply validateUuid_returns in Hv. destruct Hv as [-> Hv1].
  apply bind_returns in Hrun. destruct Hrun as ([] & wa & Hv & Hrun).
  apply validateUuid_returns in Hv. destruct Hv as [-> Hv2].
  destruct (jsval_eqb userId1 userId2) eqn:Hne; [discriminate|].
  destruct (valid_js_uuid _ Hv1) as (s1 & u1 & -> & _ & Hu1).
  destruct (valid_js_uuid _ Hv2) as (s2 & u2 & -> & _ & Hu2).
  assert (Hfound : exists chat,
            res = Some chat /\
            firstn 1 (filter (fun cr => direct_between (chat_participants (w_db w1))
                                          (Some u1) (Some u2) cr = true)
                        (chat_rooms (w_db w1))) = [chat]).
  { apply transaction_returns in Hrun. destruct Hrun as (wc & Hcb & ->).
    rewrite try_rethrow in Hcb.
    apply bind_returns in Hcb. destruct Hcb as (existing & wq & Hq & Hcb).
    apply query_returns in Hq. destruct Hq as (_ & db1 & Hsel & ->).
    rewrite (select_direct_chat_eq _ _ _ _ _ Hu1 Hu2) in Hsel.
    cbn [w_db log_action with_db with_txn sent] in Hsel. injection Hsel as <- <-.
    destruct (0 <? length (firstn 1 _))%nat eqn:Hany in Hcb.
    - injection Hcb as <- <-. cbn [w_db log_action with_db with_txn sent].
      destruct (filter _ (chat_rooms (w_db w))) as [|chat l]; [discriminate|].
      exists chat. split; reflexivity.
    - assert (Hnone : filter (fun cr => direct_between (chat_participants (w_db w))
                                          (Some u1) (Some u2) cr = true)
                         (chat_rooms (w_db w)) = []).
      { destruct (filter _ (chat_rooms (w_db w))); [reflexivity|discriminate]. }
      apply bind_returns in Hcb. destruct Hcb as (chatId & w2 & Hd & Hcb).
      rewrite draw_uuidv4_eq in Hd. injection Hd as <- <-.
      apply bind_returns in Hcb. destruct Hcb as (rows & w3 & Hq & Hcb).
      apply query_returns in Hq. destruct Hq as (_ & db3 & Hst & ->).
      apply insert_chat_room_returns in Hst.
      destruct Hst as (i & ty & ty' & name' & c & Hi & Hty & Hty' & Hc & Hnew & -> & ->).
      injection Hty as <-. injection Hty' as <-.
      apply bind_returns in Hcb. destruct Hcb as ([] & w4 & Hboth & Hcb).
      injection Hcb as <- <-.
      apply query_all2_returns in Hboth. destruct Hboth as (w5 & Hq1 & Hq2).
      apply query_returns in Hq1. destruct Hq1 as (_ & db5 & Hst1 & ->).
      apply insert_participant_returns in Hst1.
      destruct Hst1 as (i1 & v1 & ro1 & ro1' & Hi1 & Hv1' & Hro1 & Hro1' & ->).
      apply query_returns in Hq2. destruct Hq2 as (_ & db6 & Hst2 & ->).
      apply insert_participant_returns in Hst2.
      destruct Hst2 as (i2 & v2 & ro2 & ro2' & Hi2 & Hv2' & Hro2 & Hro2' & ->).
      rewrite Hi in Hi1, Hi2. injection Hi1 as <-. injection Hi2 as <-.
      rewrite Hu1 in Hv1'. injection Hv1' as <-. rewrite Hu2 in Hv2'. injection Hv2' as <-.
      cbn [w_db log_action with_db with_txn sent drawn chat_participants chat_rooms
           head] in *.
      eexists. split; [reflexivity|].
      assert (Hold : forall cr p, In cr (chat_rooms (w_db w)) ->
                In p [ {| cp_chat_room_id := i; cp_user_id := u1; cp_role := ro1';
                          cp_joined_at := timestamp_at E
                            (Some (w_db w, clock E (S (w_stmt w)))) (S (S (S (S (w_stmt w))))) |};
                       {| cp_chat_room_id := i; cp_user_id := u2; cp_role := ro2';
                          cp_joined_at := timestamp_at E
                            (Some (w_db w, clock E (S (w_stmt w))))
                            (S (S (S (S (S (w_stmt w)))))) |} ] ->
                String.eqb (cr_id cr) (cp_chat_room_id p) = false).
      { intros cr p Hin Hp. apply not_true_is_false. intros Heq. apply String.eqb_eq in Heq.
        assert (Hid : cp_chat_room_id p = i) by (destruct Hp as [<-|[<-|[]]]; reflexivity).
        rewrite Hid in Heq. rewrite <- Heq, (chat_room_exists_In _ _ Hin) in Hnew.
        discriminate. }
      rewrite <- app_assoc. cbn [app]. rewrite filter_app.
      rewrite (filter_ext_in_bool _
                 (direct_between (chat_participants (w_db w)) (Some u1) (Some u2)))
        by (intros cr Hin; apply direct_between_other; intros p Hp; apply (Hold _ _ Hin Hp)).
      rewrite Hnone. cbn [app].
      rewrite filter_cons, filter_nil, decide_True; [reflexivity|].
      eapply direct_between_members; [reflexivity| |].
      + apply in_or_app. right. left. reflexivity.
      + apply in_or_app. right. right. left. reflexivity. }
  destruct Hfound as (chat & -> & Hfound).
  destruct (createDirectChat_existing E w1 (JStr s1) (JStr s2) (Some u1) (Some u2) chat [])
    as (w2 & Hrun2 & Hdb2); try assumption.
  destruct (createDirectChat_existing E w1 (JStr s2) (JStr s1) (Some u2) (Some u1) chat [])
    as (w3 & Hrun3 & Hdb3); try assumption.
  { rewrite jsval_eqb_sym. exact Hne. }
  { rewrite <- Hfound. f_equal. apply filter_ext_in_bool.
    intros cr _. apply direct_between_sym. }
  exists chat, w2, w3. auto.
Qed.

End Direct_chats.

(* ===================================================================== *)
(** ** The rooms and the active users of the socket server *)
(* ===================================================================== *)

Section Rooms.

(** The server after the handler of an input. *)
Lemma step_io i E w w' :
  step i E w = (Return tt, w') ->
  chat_participants (w_db w') = chat_participants (w_db w) /\
  match i with
  | InConnect sid u =>
      w_io w' = w_io w \/
      (sockets (w_io w) !! sid = None /\
       w_io w' =
         socket_join sid (user_room_of u)
           (set_activeUsers (insert u sid)
              (set_sockets (insert sid {| sk_user := u; sk_rooms := {[sid]} |}) (w_io w))))
  | InChatJoin sid c =>
      w_io w' = w_io w \/
      (exists sk, sockets (w_io w) !! sid = Some sk /\
                  member (w_db w) c (sk_user sk) = true /\
                  w_io w' = socket_join sid (chat_room_of c) (w_io w))
  | InChatLeave sid c =>
      w_io w' = w_io w \/ w_io w' = socket_leave sid (chat_room_of c) (w_io w)
  | InDisconnect sid =>
      w_io w' = w_io w \/
      (exists sk, sockets (w_io w) !! sid = Some sk /\
                  w_io w' = set_activeUsers (delete (sk_user sk))
                              (set_sockets (delete sid) (w_io w)))
  | _ => w_io w' = w_io w
  end.
Proof.
  intros Hstep.
  destruct (step_effects i E w) as (w1 & acts & Hstep1 & _ & Hp & _).
  rewrite Hstep in Hstep1. injection Hstep1 as <-. split; [exact Hp|]. clear Hp.
  destruct i as [s u|s c|s c|s data|s c|s c|s d|s|ms];
    unfold step, with_socket, bind, get_io in Hstep; cbn [ret] in Hstep.
  - destruct (negb (truthy (JStr u))); [injection Hstep as <-; left; reflexivity|].
    cbv beta iota in Hstep.
    destruct (sockets (w_io w) !! s) eqn:Hs; [injection Hstep as <-; left; reflexivity|].
    unfold on_connection, bind, modify_io, emit in Hstep. injection Hstep as <-.
    right. split; reflexivity.
  - destruct (sockets (w_io w) !! s) as [sk0|] eqn:Hs; [|injection Hstep as <-; left; reflexivity].
    unfold on_chat_join, try_catch, bind, modify_io, ret in Hstep.
    destruct (isUserInChat c (JStr (sk_user sk0)) E w) as [[[]|e] w1] eqn:Hin;
      destruct (isUserInChat_trace _ _ _ _ _ _ Hin) as (Hio1 & _);
      injection Hstep as <-; cbn [w_io with_io]; rewrite Hio1;
      [|left; reflexivity|left; reflexivity].
    apply isUserInChat_member in Hin. right. exists sk0. auto.
  - destruct (sockets (w_io w) !! s) as [sk0|] eqn:Hs; [|injection Hstep as <-; left; reflexivity].
    unfold on_chat_leave, modify_io in Hstep. injection Hstep as <-. right. reflexivity.
  - destruct (sockets (w_io w) !! s) as [sk0|] eqn:Hs; [|injection Hstep as <-; reflexivity].
    destruct (on_message_new_effects s (sk_user sk0) data E w)
      as (w2 & stmts & to & ev & Hrun & Hio & _).
    rewrite Hrun in Hstep. injection Hstep as <-. exact Hio.
  - destruct (sockets (w_io w) !! s) as [sk0|] eqn:Hs; injection Hstep as <-; reflexivity.
  - destruct (sockets (w_io w) !! s) as [sk0|] eqn:Hs; injection Hstep as <-; reflexivity.
  - destruct (sockets (w_io w) !! s) as [sk0|] eqn:Hs; [|injection Hstep as <-; reflexivity].
    unfold on_message_read, try_catch, bind in Hstep.
    destruct (markMessageAsRead _ _ E w) as [[[]|e] w1] eqn:Hread;
      apply markMessageAsRead_effects in Hread; subst w1;
      injection Hstep as <-; reflexivity.
  - destruct (sockets (w_io w) !! s) as [sk0|] eqn:Hs; [|injection Hstep as <-; left; reflexivity].
    unfold on_disconnect, bind, modify_io, emit in Hstep. injection Hstep as <-.
    right. exists sk0. split; reflexivity.
  - injection Hstep as <-. reflexivity.
Qed.

Lemma rooms_ok_participants db db' srv :
  chat_participants db' = chat_participants db -> rooms_ok db srv -> rooms_ok db' srv.
Proof.
  intros Hp Hok sid sk room Hsk Hroom.
  destruct (Hok sid sk room Hsk Hroom) as [H|[H|(chatId & H & Hm)]]; auto.
  right. right. exists chatId. split; [exact H|].
  rewrite (member_participants _ _ _ _ Hp). exact Hm.
Qed.

Lemma chat_room_is_no_user_room chatId userId : chat_room_of chatId <> user_room_of userId.
Proof. unfold chat_room_of, user_room_of. cbn [String.append]. discriminate. Qed.

Lemma step_rooms i E w w' :
  step i E w = (Return tt, w') ->
  rooms_ok (w_db w) (w_io w) /\ user_rooms_ok (w_io w) /\ active_ok (w_io w) ->
  rooms_ok (w_db w') (w_io w') /\ user_rooms_ok (w_io w') /\ active_ok (w_io w').
Proof.
  intros Hstep (Hrooms & Huser & Hactive).
  destruct (step_io _ _ _ _ Hstep) as [Hp Hio].
  assert (Hsame : w_io w' = w_io w ->
            rooms_ok (w_db w') (w_io w') /\ user_rooms_ok (w_io w') /\ active_ok (w_io w')).
  { intros ->. split; [eapply rooms_ok_participants; eassumption|auto]. }
  destruct i as [s u|s c|s c|s data|s c|s c|s d|s|ms]; try (apply Hsame; exact Hio).
  - destruct Hio as [Hio|[Hnew Hio]]; [apply Hsame, Hio|]. rewrite Hio. clear Hsame.
    split; [|split].
    + apply (rooms_ok_participants (w_db w)); [exact Hp|].
      intros sid sk room. rewrite sockets_socket_join.
      unfold set_activeUsers, set_sockets. cbn [sockets].
      destruct (decide (s = sid)) as [->|Hother].
      * rewrite lookup_insert_eq. cbn [fmap option_fmap option_map]. intros [= <-]. cbn [sk_user sk_rooms].
        intros Hin. apply elem_of_union in Hin. destruct Hin as [Hin|Hin];
          apply elem_of_singleton in Hin; auto.
      * rewrite lookup_insert_ne by exact Hother. apply Hrooms.
    + intros sid sk. rewrite sockets_socket_join.
      unfold set_activeUsers, set_sockets. cbn [sockets].
      destruct (decide (s = sid)) as [->|Hother].
      * rewrite lookup_insert_eq. cbn [fmap option_fmap option_map]. intros [= <-]. cbn [sk_user sk_rooms].
        apply elem_of_union. left. apply elem_of_singleton. reflexivity.
      * rewrite lookup_insert_ne by exact Hother. apply Huser.
    + intros userId sid. unfold socket_join, set_activeUsers, set_sockets.
      cbn [sockets activeUsers]. intros Hact.
      destruct (decide (u = userId)) as [->|Hother].
      * rewrite lookup_insert_eq in Hact. injection Hact as <-.
        rewrite lookup_alter_eq, lookup_insert_eq. cbn [fmap option_fmap option_map]. eauto.
      * rewrite lookup_insert_ne in Hact by exact Hother.
        destruct (Hactive _ _ Hact) as (sk & Hsk & Hu).
        assert (s <> sid) by congruence.
        rewrite lookup_alter_ne, lookup_insert_ne by assumption. eauto.
  - destruct Hio as [Hio|(sk0 & Hs & Hmem & Hio)]; [apply Hsame, Hio|]. rewrite Hio. clear Hsame.
    split; [|split].
    + apply (rooms_ok_participants (w_db w)); [exact Hp|].
      intros sid sk room. rewrite sockets_socket_join.
      destruct (decide (s = sid)) as [->|Hother]; [|apply Hrooms].
      rewrite Hs. cbn [fmap option_fmap option_map]. intros [= <-]. cbn [sk_user sk_rooms].
      intros Hin. apply elem_of_union in Hin. destruct Hin as [Hin|Hin].
      * apply elem_of_singleton in Hin. right. right. eauto.
      * apply (Hrooms _ _ _ Hs Hin).
    + intros sid sk. rewrite sockets_socket_join.
      destruct (decide (s = sid)) as [->|Hother]; [|apply Huser].
      rewrite Hs. cbn [fmap option_fmap option_map]. intros [= <-]. cbn [sk_user sk_rooms].
      apply elem_of_union. right. apply (Huser _ _ Hs).
    + intros userId sid Hact. cbn [socket_join set_sockets activeUsers] in Hact.
      destruct (Hactive _ _ Hact) as (sk & Hsk & Hu).
      rewrite sockets_socket_join. destruct (decide (s = sid)) as [->|Hother]; [|eauto].
      rewrite Hsk. cbn [fmap option_fmap option_map]. eauto.
  - destruct Hio as [Hio|Hio]; [apply Hsame, Hio|]. rewrite Hio. clear Hsame.
    split; [|split].
    + apply (rooms_ok_participants (w_db w)); [exact Hp|].
      intros sid sk room. rewrite sockets_socket_leave.
      destruct (decide (s = sid)) as [->|Hother]; [|apply Hrooms].
      destruct (sockets (w_io w) !! sid) as [sk0|] eqn:Hs; [|discriminate].
      cbn [fmap option_fmap option_map]. intros [= <-]. cbn [sk_user sk_rooms].
      intros Hin. apply elem_of_difference in Hin. destruct Hin as [Hin _].
      apply (Hrooms _ _ _ Hs Hin).
    + intros sid sk. rewrite sockets_socket_leave.
      destruct (decide (s = sid)) as [->|Hother]; [|apply Huser].
      destruct (sockets (w_io w) !! sid) as [sk0|] eqn:Hs; [|discriminate].
      cbn [fmap option_fmap option_map]. intros [= <-]. cbn [sk_user sk_rooms].
      apply elem_of_difference. split; [apply (Huser _ _ Hs)|].
      intros Hin. apply elem_of_singleton in Hin.
      symmetry in Hin. exact (chat_room_is_no_user_room _ _ Hin).
    + intros userId sid Hact. cbn [socket_leave set_sockets activeUsers] in Hact.
      destruct (Hactive _ _ Hact) as (sk & Hsk & Hu).
      rewrite sockets_socket_leave. destruct (decide (s = sid)) as [->|Hother]; [|eauto].
      rewrite Hsk. cbn [fmap option_fmap option_map]. eauto.
  - destruct Hio as [Hio|(sk0 & Hs & Hio)]; [apply Hsame, Hio|]. rewrite Hio. clear Hsame.
    unfold set_activeUsers, set_sockets. cbn [sockets activeUsers].
    split; [|split].
    + apply (rooms_ok_participants (w_db w)); [exact Hp|].
      intros sid sk room. cbn [sockets]. rewrite lookup_delete.
      destruct (decide (s = sid)); [discriminate|apply Hrooms].
    + intros sid sk. cbn [sockets]. rewrite lookup_delete.
      destruct (decide (s = sid)); [discriminate|apply Huser].
    + intros userId sid. cbn [sockets activeUsers]. rewrite lookup_delete.
      destruct (decide (sk_user sk0 = userId)) as [Heq|Hother]; [discriminate|].
      intros Hact. destruct (Hactive _ _ Hact) as (sk & Hsk & Hu).
      assert (s <> sid) by (intros ->; rewrite Hs in Hsk; injection Hsk as <-; contradiction).
      rewrite lookup_delete_ne by assumption. eauto.
Qed.

Lemma run_rooms ins E w :
  rooms_ok (w_db w) (w_io w) /\ user_rooms_ok (w_io w) /\ active_ok (w_io w) ->
  exists w', run ins E w = (Return tt, w') /\
    rooms_ok (w_db w') (w_io w') /\ user_rooms_ok (w_io w') /\ active_ok (w_io w').
Proof.
  revert w. induction ins as [|i rest IH]; intros w Hok.
  - exists w. split; [reflexivity|exact Hok].
  - destruct (step_effects i E w) as (w1 & acts1 & Hstep & _).
    destruct (IH w1 (step_rooms _ _ _ _ Hstep Hok)) as (w2 & Hrun & Hok2).
    exists w2. cbn [run]. unfold bind. rewrite Hstep. auto.
Qed.

Lemma no_server_ok db :
  rooms_ok db no_server /\ user_rooms_ok no_server /\ active_ok no_server.
Proof.
  split; [|split].
  - intros sid sk room Hsk. cbn [no_server sockets] in Hsk. rewrite lookup_empty in Hsk.
    discriminate.
  - intros sid sk Hsk. cbn [no_server sockets] in Hsk. rewrite lookup_empty in Hsk.
    discriminate.
  - intros u sid Hact. cbn [no_server activeUsers] in Hact. rewrite lookup_empty in Hact.
    discriminate.
Qed.

(** X14.  A socket is in the room of a chat only if its user is a member of
    the chat: in every state that the socket handlers reach from the start
    of the server, whatever the clients send, each room that a connected
    socket is in is the room of its own id, the room of its user, or the
    room of a chat of which its user is a member; and no request makes a
    socket leave the room of its user.  The handlers themselves never
    change a membership; what a removal through [removeChatParticipant]
    does to the rooms is the matter of X18. *)
Theorem subscription_implies_membership ins E w :
  w_io w = no_server ->
  exists w',
    run ins E w = (Return tt, w') /\
    forall sid sk,
      sockets (w_io w') !! sid = Some sk ->
      user_room_of (sk_user sk) ∈ sk_rooms sk /\
      forall room, room ∈ sk_rooms sk ->
        room = sid \/ room = user_room_of (sk_user sk) \/
        exists chatId, room = chat_room_of chatId /\
                       member (w_db w') chatId (sk_user sk) = true.
Proof.
  intros Hstart. destruct (run_rooms ins E w) as (w' & Hrun & Hrooms & Huser & _).
  { rewrite Hstart. apply no_server_ok. }
  exists w'. split; [exact Hrun|]. intros sid sk Hsk.
  split; [apply (Huser _ _ Hsk)|]. intros room Hroom. apply (Hrooms _ _ _ Hsk Hroom).
Qed.





(** X17.  [message:read] is relayed without any check of the chat and
    nothing is stored: the handler sends no statement; when the message id
    and the id of the socket's user are valid UUIDs it emits the event to
    every socket in the room of the chat id given (whether or not the user
    is a member of the chat or the message belongs to it), and otherwise it
    emits nothing, not even an error to the sender. *)
Theorem message_read_is_relayed_unchecked E w sid sk data :
  sockets (w_io w) !! sid = Some sk ->
  let room := chat_room_of (rd_chatId data) in
  step (InMessageRead sid data) E w =
    (Return tt,
     if js_isValidUuid (rd_messageId data) && js_isValidUuid (JStr (sk_user sk)) then
       log_action (ActEmit (ToRoom room) (in_room room (w_io w))
                     (EvMessageRead (rd_messageId data) (sk_user sk) (rd_chatId data))) w
     else w).
Proof.
  intros Hsk room. unfold step, with_socket, bind, get_io. cbn [ret]. rewrite Hsk.
  unfold on_message_read, try_catch, markMessageAsRead, bind.
  destruct (js_isValidUuid (rd_messageId data)) eqn:Hm.
  - rewrite validateUuid_valid by exact Hm.
    destruct (js_isValidUuid (JStr (sk_user sk))) eqn:Hu.
    + rewrite validateUuid_valid by exact Hu. reflexivity.
    + destruct (validateUuid_invalid (JStr (sk_user sk)) "User ID" E w Hu) as [msg ->].
      reflexivity.
  - destruct (validateUuid_invalid (rd_messageId data) "Message ID" E w Hm) as [msg ->].
    reflexivity.
Qed.

Lemma removeChatParticipant_io E w chatId userId r w1 :
  removeChatParticipant chatId userId E w = (r, w1) -> w_io w1 = w_io w.
Proof.
  unfold removeChatParticipant. rewrite try_rethrow. intros Hrun.
  apply bind_cases in Hrun. destruct Hrun as [(e & Hg & _)|(chat & w2 & Hg & Hrun)];
    apply getChatById_effects in Hg; destruct Hg as (_ & _ & Hio); [exact Hio|].
  destruct chat as [chat|]; [|injection Hrun as _ <-; exact Hio].
  destruct (negb _); [injection Hrun as _ <-; exact Hio|].
  apply bind_cases in Hrun. destruct Hrun as [(e & Hq & _)|(n & w3 & Hq & Hrun)].
  - apply run_query_throws in Hq. subst w1. exact Hio.
  - injection Hrun as _ <-. apply run_query_returns in Hq.
    destruct Hq as (_ & db' & _ & ->). exact Hio.
Qed.

(** X18.  Removing a user from a chat does not take the user's sockets out
    of the room of the chat: [removeChatParticipant] leaves the socket
    server as it is, so that a socket that had joined the room still
    receives the messages that are posted in the chat afterwards. *)
Theorem removed_member_stays_subscribed E w chatId userId sid sk r w1 :
  sockets (w_io w) !! sid = Some sk ->
  chat_room_of chatId ∈ sk_rooms sk ->
  removeChatParticipant chatId userId E w = (r, w1) ->
  w_io w1 = w_io w /\
  forall E' sender data w2 rc message,
    step (InMessageNew sender data) E' w1 = (Return tt, w2) ->
    In (ActEmit (ToRoom (chat_room_of chatId)) rc (EvMessageNew message)) (added w1 w2) ->
    sid ∈ rc.
Proof.
  intros Hsk Hroom Hrun. apply removeChatParticipant_io in Hrun.
  split; [exact Hrun|]. intros E' sender data w2 rc message Hstep Hin.
  destruct (step_effects (InMessageNew sender data) E' w1)
    as (w2' & acts & Hstep' & Htr & _ & Hacts).
  rewrite Hstep in Hstep'. injection Hstep' as <-.
  rewrite (added_app _ _ _ Htr) in Hin.
  rewrite Forall_forall in Hacts. apply list_elem_of_In, Hacts in Hin.
  destruct Hin as [_ Hrc]. rewrite Hrc by discriminate. cbn [recipients].
  rewrite Hrun. apply elem_of_in_room. eauto.
Qed.

End Rooms.

(* ===================================================================== *)
(** ** Membership: who may write, and how it is looked up *)
(* ===================================================================== *)

Section Membership.

(** X19.  [saveMessage] checks the membership itself: for a sender who is
    not a member of the chat it throws a 403 error after the membership
    query alone, and writes nothing. *)
Theorem saveMessage_requires_membership E w chatId senderId content contentType mediaUrl c s :
  js_isValidUuid chatId = true ->
  js_isValidUuid senderId = true ->
  uuid_param chatId = Return (Some c) ->
  uuid_param senderId = Return (Some s) ->
  is_participant (w_db w) c s = false ->
  fault E (w_stmt w) = false ->
  exists w',
    saveMessage chatId senderId content contentType mediaUrl E w =
      (Throw (AppError "Not authorized to send message" 403), w') /\
    w_db w' = w_db w /\
    added w w' = [ActQuery SqlSelectParticipant true].
Proof.
  intros Hvc Hvs Hc Hs Hnot Hf. unfold saveMessage, bind.
  rewrite !validateUuid_valid by assumption. rewrite try_rethrow.
  rewrite (isUserInChat_available _ _ c s) by assumption.
  rewrite Hnot. cbn [negb]. unfold throw.
  eexists. split; [reflexivity|]. split; [reflexivity|].
  apply added_app. reflexivity.
Qed.

(** X20.  A [message:new] of a socket whose user is not a member of the
    chat stores nothing and is answered to that socket alone: the handler
    sends the membership query only and emits one [error] event, to the
    sending socket; the event says that the user is not authorized when the
    query has succeeded. *)
Theorem message_new_by_non_member_is_refused E w sid sk data :
  sockets (w_io w) !! sid = Some sk ->
  member (w_db w) (md_chatId data) (sk_user sk) = false ->
  exists w' ok msg,
    step (InMessageNew sid data) E w = (Return tt, w') /\
    w_db w' = w_db w /\ w_io w' = w_io w /\
    added w w' = [ActQuery SqlSelectParticipant ok; ActEmit (ToSocket sid) {[sid]} (EvError msg)] /\
    (ok = true -> msg = "Not authorized to send message").
Proof.
  intros Hsk Hnot. unfold step, with_socket, bind, get_io. cbn [ret]. rewrite Hsk.
  unfold on_message_new, try_catch, bind.
  destruct (isUserInChat (md_chatId data) (JStr (sk_user sk)) E w) as [[b|e] w1] eqn:Hin;
    destruct (isUserInChat_trace _ _ _ _ _ _ Hin) as (Hio & Hdb & _ & _ & Htr).
  - apply isUserInChat_member in Hin. rewrite Hnot in Hin. subst b. cbn [negb].
    rewrite emit_eq. eexists. exists true. eexists. split; [reflexivity|].
    cbn [w_db w_io log_action]. split; [exact Hdb|]. split; [exact Hio|].
    split; [|reflexivity]. apply added_app. cbn [w_trace log_action].
    rewrite Htr, Hio, <- app_assoc. reflexivity.
  - rewrite emit_eq. eexists. exists false. eexists. split; [reflexivity|].
    cbn [w_db w_io log_action]. split; [exact Hdb|]. split; [exact Hio|].
    split; [|discriminate]. apply added_app. cbn [w_trace log_action].
    rewrite Htr, Hio, <- app_assoc. reflexivity.
Qed.



End Membership.


(* ===================================================================== *)
(** ** Reactions: the key, and removal after addition *)
(* ===================================================================== *)

Section Reactions.

(** The database after [addMessageReaction], whatever its outcome: as
    before, or as the insertion of the reaction has left it. *)
Lemma addMessageReaction_db E w messageId userId reaction r w' :
  addMessageReaction messageId userId reaction E w = (r, w') ->
  w_db w' = w_db w \/
  exists now rows, insert_reaction now messageId userId reaction (w_db w) =
                     Return (rows, w_db w').
Proof.
  intros Hrun. unfold addMessageReaction in Hrun.
  apply bind_cases in Hrun. destruct Hrun as [(e1 & Hv & _)|([] & wa & Hv & Hrun)];
    apply validateUuid_cases in Hv; subst; [left; reflexivity|].
  apply bind_cases in Hrun. destruct Hrun as [(e1 & Hv & _)|([] & wa & Hv & Hrun)];
    apply validateUuid_cases in Hv; subst; [left; reflexivity|].
  rewrite try_rethrow in Hrun.
  apply bind_cases in Hrun. destruct Hrun as [(e1 & Hq & _)|(message & w1 & Hq & Hrun)].
  { eapply query_throws in Hq; [left; apply Hq|].
    intros now gen db e. unfold select_message_chat.
    destruct (uuid_param messageId) eqn:Hm; [discriminate|].
    intros [= <-]. apply uuid_param_throws in Hm. exact Hm. }
  apply query_returns in Hq. destruct Hq as (_ & db1 & Hst & ->).
  unfold select_message_chat in Hst. destruct (uuid_param messageId); [|discriminate].
  injection Hst as _ <-.
  destruct (head message) as [c|]; [|injection Hrun as _ <-; left; reflexivity].
  apply bind_cases in Hrun. destruct Hrun as [(e1 & Hin & _)|(canReact & w2 & Hin & Hrun)];
    apply isUserInChat_trace in Hin; destruct Hin as (_ & Hdb2 & _);
    cbn [w_db log_action with_db sent] in Hdb2; [left; exact Hdb2|].
  destruct (negb canReact); [injection Hrun as _ <-; left; exact Hdb2|].
  apply bind_cases in Hrun. destruct Hrun as [(e1 & Hq & _)|(result & w3 & Hq & Hrun)].
  { eapply query_throws in Hq; [left; destruct Hq as [_ ->]; exact Hdb2|].
    intros now gen db e Hst. unfold insert_reaction in Hst.
    destruct (uuid_param messageId) as [mo|] eqn:Hm; destruct (uuid_param userId) as [uo|] eqn:Hu;
      try (injection Hst as <-;
           (apply uuid_param_throws in Hm || apply uuid_param_throws in Hu); assumption).
    destruct (nul_in _); [injection Hst as <-; unfold character_not_in_repertoire; eauto|].
    destruct mo, uo, (pg_param reaction) as [txt|];
      try (injection Hst as <-; unfold not_null_violation; eauto; fail).
    destruct (varchar 50 txt);
      [|injection Hst as <-; unfold string_data_right_truncation; eauto].
    repeat match type of Hst with
           | context [if ?b then _ else _] => destruct b
           end;
      (injection Hst as <- || discriminate);
      unfold foreign_key_violation; eauto. }
  injection Hrun as _ <-.
  apply query_returns in Hq. destruct Hq as (_ & db3 & Hst & ->).
  right. rewrite Hdb2 in Hst. cbn [w_db log_action with_db sent]. eauto.
Qed.

Lemma length_filter_filter {A} (f g : A -> bool) (l : list A) :
  (length (filter (fun x => f x = true) (filter (fun x => g x = false) l)) <=
   length (filter (fun x => f x = true) l))%nat.
Proof.
  induction l as [|x l IH]; [reflexivity|].
  rewrite (filter_cons (fun x => g x = false)).
  destruct (g x); [rewrite decide_False by discriminate|rewrite decide_True by reflexivity];
    rewrite !filter_cons; destruct (f x);
    try rewrite !decide_True by reflexivity; try rewrite !decide_False by discriminate;
    cbn [length]; lia.
Qed.

(** X22.  The functions on reactions keep the primary key of
    [message_reactions]: when no reaction (message, user, text) is stored
    twice, none is after [addMessageReaction] or [removeMessageReaction],
    whatever their arguments and their outcome. *)
Theorem reactions_keep_their_key E w messageId userId reaction :
  reactions_key_ok (w_db w) ->
  (forall r w', addMessageReaction messageId userId reaction E w = (r, w') ->
     reactions_key_ok (w_db w')) /\
  (forall r w', removeMessageReaction messageId userId reaction E w = (r, w') ->
     reactions_key_ok (w_db w')).
Proof.
  intros Hkey. split.
  - intros r w' Hrun. apply addMessageReaction_db in Hrun.
    destruct Hrun as [->|(now & rows & Hins)]; [exact Hkey|].
    apply insert_reaction_returns in Hins.
    destruct Hins as (m & u & txt & r0 & _ & _ & _ & _ & _ & Hins). cbn zeta in Hins.
    destruct (existsb _ _) eqn:Hex in Hins.
    + destruct Hins as [_ ->]. exact Hkey.
    + destruct Hins as (_ & _ & _ & ->). intros m' u' r'.
      unfold reaction_rows. cbn [message_reactions]. rewrite filter_app, length_app.
      rewrite filter_cons, filter_nil.
      destruct (reaction_matches (Some m') (Some u') (Some r')
                  {| mr_message_id := m; mr_user_id := u; mr_reaction := r0;
                     mr_created_at := now |}) eqn:Hnew.
      * rewrite decide_True by reflexivity.
        unfold reaction_matches, eq_param in Hnew. cbn in Hnew.
        apply andb_prop in Hnew. destruct Hnew as [Hnew Hr].
        apply andb_prop in Hnew. destruct Hnew as [Hm Hu].
        apply String.eqb_eq in Hm, Hu, Hr. subst m' u' r'.
        rewrite (existsb_false_filter _ _ Hex). reflexivity.
      * rewrite decide_False by discriminate. cbn [length].
        specialize (Hkey m' u' r'). unfold reaction_rows in Hkey. lia.
  - intros r w' Hrun. unfold removeMessageReaction in Hrun.
    apply bind_cases in Hrun. destruct Hrun as [(e1 & Hv & _)|([] & wa & Hv & Hrun)];
      apply validateUuid_cases in Hv; subst; [exact Hkey|].
    apply bind_cases in Hrun. destruct Hrun as [(e1 & Hv & _)|([] & wa & Hv & Hrun)];
      apply validateUuid_cases in Hv; subst; [exact Hkey|].
    rewrite try_rethrow in Hrun.
    apply bind_cases in Hrun. destruct Hrun as [(e1 & Hq & _)|(n & w1 & Hq & Hrun)].
    + unfold query in Hq. destruct (fault E (w_stmt w)); [injection Hq as _ <-; exact Hkey|].
      destruct (delete_reaction _ _ _ _) as [[a db']|e']; [discriminate|].
      injection Hq as _ <-. exact Hkey.
    + injection Hrun as _ <-. apply query_returns in Hq. destruct Hq as (_ & db' & Hst & ->).
      unfold delete_reaction in Hst.
      destruct (uuid_param messageId) as [mo|]; destruct (uuid_param userId) as [uo|];
        try discriminate.
      destruct (nul_in _); [discriminate|]. injection Hst as _ <-.
      intros m' u' r'. unfold reaction_rows. cbn [w_db log_action with_db message_reactions].
      etransitivity; [apply length_filter_filter|apply Hkey].
Qed.

Lemma addMessageReaction_returns E w messageId userId reaction res w1 :
  addMessageReaction messageId userId reaction E w = (Return res, w1) ->
  js_isValidUuid messageId = true /\ js_isValidUuid userId = true /\
  exists now rows, insert_reaction now messageId userId reaction (w_db w) =
                     Return (rows, w_db w1).
Proof.
  intros Hrun. unfold addMessageReaction in Hrun.
  apply bind_returns in Hrun. destruct Hrun as ([] & wa & Hv & Hrun).
  apply validateUuid_returns in Hv. destruct Hv as [-> Hvm].
  apply bind_returns in Hrun. destruct Hrun as ([] & wb & Hv & Hrun).
  apply validateUuid_returns in Hv. destruct Hv as [-> Hvu].
  split; [exact Hvm|]. split; [exact Hvu|].
  rewrite try_rethrow in Hrun.
  apply bind_returns in Hrun. destruct Hrun as (message & w2 & Hq & Hrun).
  apply query_returns in Hq. destruct Hq as (_ & db2 & Hst & ->).
  unfold select_message_chat in Hst. destruct (uuid_param messageId); [|discriminate].
  injection Hst as _ <-.
  destruct (head message) as [c|]; [|discriminate].
  apply bind_returns in Hrun. destruct Hrun as (canReact & w3 & Hin & Hrun).
  apply isUserInChat_trace in Hin. destruct Hin as (_ & Hdb3 & _).
  cbn [w_db log_action with_db sent] in Hdb3.
  destruct (negb canReact); [discriminate|].
  apply bind_returns in Hrun. destruct Hrun as (result & w4 & Hq & Hrun).
  injection Hrun as _ <-.
  apply query_returns in Hq. destruct Hq as (_ & db4 & Hst & ->).
  rewrite Hdb3 in Hst. cbn [w_db log_action with_db sent]. eauto.
Qed.

(** X23.  A reaction that has been added can be removed: after
    [addMessageReaction] has returned for a text that fits the column (at
    most 50 characters), the reaction is stored; with the database
    reachable, [removeMessageReaction] with the same arguments returns and
    no row of this reaction is left; the other reactions are all kept. *)
Theorem added_reaction_can_be_removed E w messageId userId txt res w1 :
  addMessageReaction messageId userId (JStr txt) E w = (Return res, w1) ->
  (char_length txt <= 50)%nat ->
  fault E (w_stmt w1) = false ->
  exists m u w2,
    uuid_param messageId = Return (Some m) /\ uuid_param userId = Return (Some u) /\
    (1 <= length (reaction_rows (w_db w1) m u txt))%nat /\
    removeMessageReaction messageId userId (JStr txt) E w1 = (Return tt, w2) /\
    reaction_rows (w_db w2) m u txt = [] /\
    forall row, In row (message_reactions (w_db w1)) ->
      reaction_matches (Some m) (Some u) (Some txt) row = false ->
      In row (message_reactions (w_db w2)).
Proof.
  intros Hrun Hlen Hf. apply addMessageReaction_returns in Hrun.
  destruct Hrun as (Hvm & Hvu & now & rows & Hins).
  apply insert_reaction_returns in Hins.
  destruct Hins as (m & u & txt' & r & Hm & Hu & Htxt & Hnul & Hfit & Hins).
  injection Htxt as <-. rewrite (varchar_fits _ _ Hlen) in Hfit. injection Hfit as <-.
  cbn zeta in Hins.
  assert (Hstored : (1 <= length (reaction_rows (w_db w1) m u txt))%nat).
  { unfold reaction_rows. destruct (existsb _ _) eqn:Hex in Hins.
    - destruct Hins as [_ ->]. apply existsb_true_filter. exact Hex.
    - destruct Hins as (_ & _ & _ & ->). cbn [message_reactions].
      rewrite filter_app, length_app, filter_cons, decide_True by apply reaction_matches_self.
      cbn [length]. lia. }
  exists m, u. eexists. split; [exact Hm|]. split; [exact Hu|].
  unfold removeMessageReaction, bind. rewrite !validateUuid_valid by assumption.
  rewrite try_rethrow. rewrite query_available by exact Hf.
  unfold delete_reaction. rewrite Hm, Hu, Hnul. cbn [ret pg_param].
  cbn [w_db log_action with_db sent message_reactions].
  split; [|split; [reflexivity|split]].
  - exact Hstored.
  - unfold reaction_rows. cbn [message_reactions]. apply existsb_false_filter.
    apply existsb_filter_false.
  - intros row Hin Hother. apply list_elem_of_In, list_elem_of_filter.
    split; [exact Hother|apply list_elem_of_In, Hin].
Qed.

End Reactions.

(* ===================================================================== *)
(** ** What is left to the database *)
(* ===================================================================== *)

Section Database_errors.



End Database_errors.

(* ===================================================================== *)
(** ** These properties on the deployment *)
(* ===================================================================== *)

Section Further_examples.

(** Bob is listed twice: the group is not created and nothing is left of
    the rows already inserted. *)
Lemma chat_writes_are_atomic_witness :
  exists e w',
    createGroupChat (JStr "Plans") (JStr alice) [JStr bob; JStr bob] calm w0 = (Throw e, w') /\
    w_db w' = w_db w0 /\ w_txn w' = None.
Proof.
  destruct (createGroupChat (JStr "Plans") (JStr alice) [JStr bob; JStr bob] calm w0)
    as [[res|e] w'] eqn:Hrun; [vm_compute in Hrun; discriminate|].
  destruct (chat_writes_are_atomic calm w0 eq_refl) as (Hgroup & _).
  destruct (Hgroup _ _ _ _ _ Hrun) as [Htxn Hdb].
  exists e, w'. split; [reflexivity|]. split; [apply (Hdb e); reflexivity|exact Htxn].
Defined.

(** Alice creates a group with bob, carol and herself: three members. *)
Lemma createGroupChat_members_witness :
  exists chat others w',
    createGroupChat (JStr "Plans") (JStr alice) [JStr bob; JStr carol; JStr alice] calm w0 =
      (Return (Some chat), w') /\
    members_of (w_db w') (cr_id chat) =
      {| cp_chat_room_id := cr_id chat; cp_user_id := alice; cp_role := "creator";
         cp_joined_at := clock calm 1 |} :: others /\
    length others = 2%nat.
Proof.
  destruct (createGroupChat (JStr "Plans") (JStr alice) [JStr bob; JStr carol; JStr alice]
              calm w0) as [[res|e] w'] eqn:Hrun; [|vm_compute in Hrun; discriminate].
  destruct (createGroupChat_members calm w0 _ _ _ _ _ db0_participants_fk_ok Hrun)
    as (chat & u & others & -> & _ & _ & Hu & Hmembers & _ & Hlen & _).
  change (uuid_param (JStr alice)) with (Return (Some alice)) in Hu. injection Hu as <-.
  exists chat, others, w'. split; [reflexivity|]. split; [exact Hmembers|exact Hlen].
Defined.

(** Alice opens a direct chat with carol; then each of them asks again. *)
Lemma createDirectChat_is_idempotent_witness :
  exists chat w2 w3,
    fst (createDirectChat (JStr alice) (JStr carol) calm w0) = Return (Some chat) /\
    createDirectChat (JStr alice) (JStr carol) calm with_direct = (Return (Some chat), w2) /\
    w_db w2 = w_db with_direct /\
    createDirectChat (JStr carol) (JStr alice) calm with_direct = (Return (Some chat), w3) /\
    w_db w3 = w_db with_direct.
Proof.
  unfold with_direct.
  destruct (createDirectChat (JStr alice) (JStr carol) calm w0)
    as [[res|e] w1] eqn:Hrun; [|vm_compute in Hrun; discriminate].
  destruct (createDirectChat_is_idempotent calm w0 _ _ _ _ Hrun (calm_available _ _))
    as (chat & w2 & w3 & -> & Hagain).
  exists chat, w2, w3. cbn [fst snd]. split; [reflexivity|exact Hagain].
Defined.

(** Alice's id in upper case is accepted and denotes alice. *)
Lemma validated_id_denotes_a_uuid_witness :
  uuid_param (JStr "AAAAAAAA-AAAA-4AAA-8AAA-AAAAAAAAAAAA") = Return (Some alice) /\
  uuid_param (JStr alice) = Return (Some alice).
Proof.
  destruct (validated_id_denotes_a_uuid (JStr "AAAAAAAA-AAAA-4AAA-8AAA-AAAAAAAAAAAA")
              "User ID" calm w0 w0 eq_refl) as (s & Hs & _ & Hparam & _ & Hcanonical).
  injection Hs as <-. split; [exact Hparam|exact Hcanonical].
Defined.


(** The sockets of the lobby and what follows. *)
Lemma subscription_implies_membership_witness :
  exists w',
    run (InConnect "s-carol" carol :: InChatJoin "s-carol" (JStr team) :: chatter) calm w0 =
      (Return tt, w') /\
    forall sid sk,
      sockets (w_io w') !! sid = Some sk ->
      user_room_of (sk_user sk) ∈ sk_rooms sk /\
      forall room, room ∈ sk_rooms sk ->
        room = sid \/ room = user_room_of (sk_user sk) \/
        exists chatId, room = chat_room_of chatId /\
                       member (w_db w') chatId (sk_user sk) = true.
Proof. apply subscription_implies_membership. reflexivity. Defined.



(** Carol, who is in no chat, reports a message of the team as read. *)
Lemma message_read_is_relayed_unchecked_witness :
  w_trace (snd (step (InMessageRead "s-carol"
                        {| rd_messageId := JStr hello; rd_chatId := JStr team |}) calm lobby)) =
    (w_trace lobby ++
     [ActEmit (ToRoom (chat_room_of (JStr team))) {["s-alice"; "s-bob"]}
        (EvMessageRead (JStr hello) carol (JStr team))])%list.
Proof.
  destruct (sockets (w_io lobby) !! "s-carol") as [sk|] eqn:Hsk;
    [|vm_compute in Hsk; discriminate].
  rewrite (message_read_is_relayed_unchecked calm lobby "s-carol" sk _ Hsk).
  vm_compute in Hsk. injection Hsk as <-. vm_compute. reflexivity.
Defined.

(** Bob is removed from the team while connected; alice's next message
    still reaches his socket. *)
Lemma removed_member_stays_subscribed_witness :
  let w1 := snd (removeChatParticipant (JStr team) (JStr bob) calm lobby) in
  is_participant (w_db w1) team bob = false /\
  w_io w1 = w_io lobby /\
  forall sender data w2 rc message,
    step (InMessageNew sender data) calm w1 = (Return tt, w2) ->
    In (ActEmit (ToRoom (chat_room_of (JStr team))) rc (EvMessageNew message)) (added w1 w2) ->
    "s-bob" ∈ rc.
Proof.
  intros w1. split; [vm_compute; reflexivity|].
  assert (Hsk : exists sk, sockets (w_io lobby) !! "s-bob" = Some sk /\
                           chat_room_of (JStr team) ∈ sk_rooms sk).
  { eexists. split; [vm_compute; reflexivity|].
    apply (bool_decide_unpack _). vm_compute. exact I. }
  destruct Hsk as (sk & Hsk & Hroom).
  destruct (removed_member_stays_subscribed calm lobby (JStr team) (JStr bob) "s-bob" sk
              (fst (removeChatParticipant (JStr team) (JStr bob) calm lobby)) w1 Hsk Hroom)
    as [Hio Hlater].
  - apply surjective_pairing.
  - split; [exact Hio|]. intros sender data. apply Hlater.
Defined.

(** Carol is not in the team. *)
Lemma saveMessage_requires_membership_witness :
  exists w',
    saveMessage (JStr team) (JStr carol) (JStr "hi") JUndefined JUndefined calm w0 =
      (Throw (AppError "Not authorized to send message" 403), w') /\
    w_db w' = w_db w0 /\
    added w0 w' = [ActQuery SqlSelectParticipant true].
Proof.
  apply (saveMessage_requires_membership calm w0 _ _ _ _ _ team carol); reflexivity.
Defined.

Lemma message_new_by_non_member_is_refused_witness :
  exists w' ok msg,
    step (InMessageNew "s-carol" {| md_chatId := JStr team; md_content := JStr "hi";
                                    md_contentType := JUndefined; md_mediaUrl := JUndefined |})
      calm lobby = (Return tt, w') /\
    w_db w' = w_db lobby /\ w_io w' = w_io lobby /\
    added lobby w' = [ActQuery SqlSelectParticipant ok;
                      ActEmit (ToSocket "s-carol") {["s-carol"]} (EvError msg)] /\
    (ok = true -> msg = "Not authorized to send message").
Proof.
  destruct (sockets (w_io lobby) !! "s-carol") as [sk|] eqn:Hsk;
    [|vm_compute in Hsk; discriminate].
  apply (message_new_by_non_member_is_refused calm lobby "s-carol" sk _ Hsk).
  vm_compute in Hsk. injection Hsk as <-. vm_compute. reflexivity.
Defined.


(** Bob reacts to alice's message, and takes his reaction back. *)
Lemma reactions_keep_their_key_witness :
  reactions_key_ok (w_db (snd (addMessageReaction (JStr hello) (JStr bob) (JStr "like")
                                 calm w0))).
Proof.
  destruct (reactions_keep_their_key calm w0 (JStr hello) (JStr bob) (JStr "like")
              db0_reactions_key_ok) as [Hadd _].
  eapply Hadd. apply surjective_pairing.
Defined.

Lemma added_reaction_can_be_removed_witness :
  exists w1 w2,
    addMessageReaction (JStr hello) (JStr bob) (JStr "like") calm w0 =
      (Return (Some {| mr_message_id := hello; mr_user_id := bob; mr_reaction := "like";
                       mr_created_at := clock calm 2 |}), w1) /\
    removeMessageReaction (JStr hello) (JStr bob) (JStr "like") calm w1 = (Return tt, w2) /\
    reaction_rows (w_db w2) hello bob "like" = [].
Proof.
  destruct (addMessageReaction (JStr hello) (JStr bob) (JStr "like") calm w0)
    as [[res|e] w1] eqn:Hrun; [|vm_compute in Hrun; discriminate].
  destruct (added_reaction_can_be_removed calm w0 _ _ _ _ _ Hrun) as
    (m & u & w2 & Hm & Hu & _ & Hremove & Hnone & _).
  - apply Nat.leb_le. reflexivity.
  - reflexivity.
  - change (uuid_param (JStr hello)) with (Return (Some hello)) in Hm. injection Hm as <-.
    change (uuid_param (JStr bob)) with (Return (Some bob)) in Hu. injection Hu as <-.
    exists w1, w2. split; [|split; [exact Hremove|exact Hnone]].
    assert (Hres : fst (addMessageReaction (JStr hello) (JStr bob) (JStr "like") calm w0) =
                   Return res) by (rewrite Hrun; reflexivity).
    vm_compute in Hres. injection Hres as <-. reflexivity.
Defined.



End Further_examples.
